(** * TinMan: the heartbeat pipeline (tinman/heartbeat.py, tinman/logger.py)

    A shallow embedding of [HeartbeatLogger] and [HeartbeatRunner] and of
    the parts of the Python runtime they call, followed by the properties
    of the pipeline.

    Conventions of the embedding.
    - A Python [str] is the list of its code points ([str := list N]).
    - A regular file is the text that Python's text-mode I/O reads from it
      and writes to it; encoding and newline translation are not modelled.
      The file system is a finite map from absolute paths (lists of
      components) to nodes; operations fail for structural reasons only
      (missing parent, a directory where a file is expected, ...).
      Paths have no [..] components and there are no symbolic links.
    - Everything the process cannot decide by itself is read from an
      environment record [Env]: the clock, the executable search path,
      the outcome of the subprocess, the outcome of the HTTP request,
      whether the console takes what is printed, and the limits of the
      interpreter that [json.loads] runs into.
      The subprocess and the HTTP endpoint leave the file system alone.
    - [time.time()] readings are exact numbers of microseconds; a float
      produced by [round(_, 2)] is the number of hundredths it denotes.
    - Exceptions are instances of [Exception] subclasses; interrupts
      (KeyboardInterrupt, SystemExit) end the process and are not
      modelled.
    - Effectful code runs in the monad [M], a state monad over [World]
      with exceptions. *)

From Stdlib Require Import ZArith NArith Lia String Ascii DecimalString.
From stdpp Require Import base option list gmap.

#[local] Open Scope Z_scope.
#[local] Set Warnings "-register-all".

(** ** Python strings *)

Abbreviation str := (list N).

(** The code points of an ASCII literal. *)
Definition py (s : string) : str :=
  map N_of_ascii (list_ascii_of_string s).
Arguments py s%_string.

Definition LF : N := 10%N.
Definition CR : N := 13%N.

(** [str.isspace] on one code point (Unicode white space, as CPython's
    [_PyUnicode_IsWhitespace]). *)
Definition is_whitespace (c : N) : bool :=
  ((9 <=? c) && (c <=? 13) || (28 <=? c) && (c <=? 32)
   || (c =? 133) || (c =? 160) || (c =? 5760)
   || (8192 <=? c) && (c <=? 8202)
   || (c =? 8232) || (c =? 8233) || (c =? 8239) || (c =? 8287)
   || (c =? 12288))%N.

(** Line boundaries of [str.splitlines] ([Py_UNICODE_ISLINEBREAK]). *)
Definition is_linebreak (c : N) : bool :=
  ((10 <=? c) && (c <=? 13) || (28 <=? c) && (c <=? 30)
   || (c =? 133) || (c =? 8232) || (c =? 8233))%N.

Fixpoint lstrip (s : str) : str :=
  match s with
  | c :: s' => if is_whitespace c then lstrip s' else s
  | [] => []
  end.

Definition rstrip (s : str) : str := rev (lstrip (rev s)).

(** [s.strip()] *)
Definition strip (s : str) : str := lstrip (rstrip s).

Fixpoint startswith (p s : str) : bool :=
  match p, s with
  | [], _ => true
  | a :: p', b :: s' => (a =? b)%N && startswith p' s'
  | _ :: _, [] => false
  end.

(** [needle in hay] *)
Fixpoint contains (needle hay : str) : bool :=
  startswith needle hay ||
  match hay with
  | [] => false
  | _ :: hay' => contains needle hay'
  end.

(** Truthiness of a string: [if s:]. *)
Definition truthy (s : str) : bool :=
  match s with [] => false | _ => true end.

(** [sep.join(l)] *)
Fixpoint join (sep : str) (l : list str) : str :=
  match l with
  | [] => []
  | [x] => x
  | x :: l' => x ++ sep ++ join sep l'
  end.

(** [s.splitlines(keepends)] *)
Fixpoint splitlines (keepends : bool) (s : str) : list str :=
  match s with
  | [] => []
  | c :: s' =>
    if is_linebreak c then
      match s' with
      | c' :: s'' =>
        if ((c =? CR) && (c' =? LF))%N
        then (if keepends then [c; c'] else []) :: splitlines keepends s''
        else (if keepends then [c] else []) :: splitlines keepends s'
      | [] => [if keepends then [c] else []]
      end
    else
      match splitlines keepends s' with
      | [] => [[c]]
      | l :: ls => (c :: l) :: ls
      end
  end.

(** [l[start:]] for an arbitrary integer [start]: a negative start counts
    from the end and is clipped at the first element. *)
Definition slice_from {A} (start : Z) (l : list A) : list A :=
  let len := Z.of_nat (length l) in
  let i := if start <? 0 then Z.max 0 (start + len) else start in
  drop (Z.to_nat i) l.

(** ** Numbers *)

(** The numbers a result carries in [duration_seconds]: the integer [0]
    it is created with, or the float [round(_, 2)] returns, given by its
    number of hundredths. *)
Inductive pynum :=
| PyInt (z : Z)
| PyFloat2 (hundredths : Z).

(** [x == 0] *)
Definition num_is_zero (x : pynum) : bool :=
  match x with
  | PyInt z => z =? 0
  | PyFloat2 h => h =? 0
  end.

Definition repr_nat (n : N) : str := py (NilZero.string_of_uint (N.to_uint n)).

(** [repr] of an int. *)
Definition repr_int (z : Z) : str :=
  (if z <? 0 then py "-" else []) ++ repr_nat (Z.abs_N z).

(** [repr] of a float with at most two decimals (positional notation,
    which is what Python prints below 1e16): the shortest digits, with at
    least one decimal. *)
Definition repr_float2 (h : Z) : str :=
  let a := Z.abs_N h in
  let frac := (a mod 100)%N in
  (if h <? 0 then py "-" else []) ++ repr_nat (a / 100)%N ++ py "." ++
  repr_nat (frac / 10)%N ++
  (if (frac mod 10 =? 0)%N then [] else repr_nat (frac mod 10)%N).

Definition repr_num (x : pynum) : str :=
  match x with
  | PyInt z => repr_int z
  | PyFloat2 h => repr_float2 h
  end.

(** [round(x, 2)] of a duration of [us] microseconds, in hundredths of a
    second: to the nearest hundredth, ties to even. *)
Definition round2 (us : Z) : Z :=
  let q := us / 10000 in
  let r := us mod 10000 in
  if r <? 5000 then q
  else if 5000 <? r then q + 1
  else if Z.even q then q else q + 1.


(** ** JSON encoding ([json.dumps], default options) *)

Definition hex_digit (d : N) : N :=
  (if d <? 10 then 48 + d else 87 + d)%N.

(** ['\\u{0:04x}'.format(n)] *)
Definition escape_u (n : N) : str :=
  py "\u" ++
  [hex_digit (n / 4096 mod 16); hex_digit (n / 256 mod 16);
   hex_digit (n / 16 mod 16); hex_digit (n mod 16)]%N.

(** One character of [py_encode_basestring_ascii]: the quote, the
    backslash and everything outside [' '..'~'] are escaped, code points
    above the basic plane as a surrogate pair. *)
Definition escape_char (c : N) : str :=
  (if c =? 34 then [92; 34]
   else if c =? 92 then py "\\"
   else if c =? 8 then py "\b"
   else if c =? 12 then py "\f"
   else if c =? 10 then py "\n"
   else if c =? 13 then py "\r"
   else if c =? 9 then py "\t"
   else if (32 <=? c) && (c <=? 126) then [c]
   else if c <? 65536 then escape_u c
   else let n := c - 65536 in
        escape_u (N.lor 55296 (N.land (N.shiftr n 10) 1023)) ++
        escape_u (N.lor 56320 (N.land n 1023)))%N.

Definition QUOTE : str := [34%N].

Definition json_dumps_str (s : str) : str :=
  QUOTE ++ concat (map escape_char s) ++ QUOTE.

(** ** Exceptions *)

Inductive exn_class :=
| FileNotFoundError | FileExistsError | IsADirectoryError
| NotADirectoryError | PermissionError | OSError
| TimeoutExpired | URLError | HTTPError | ValueError | RuntimeError
| TimeoutError | RecursionError | UnicodeEncodeError | BrokenPipeError
| OtherException (name : str).

Record exn := Exn { exn_class_of : exn_class; exn_str : str }.

(** [except FileNotFoundError] *)
Definition is_FileNotFoundError (e : exn) : bool :=
  match exn_class_of e with FileNotFoundError => true | _ => false end.

(** [except urllib.error.URLError] (HTTPError is a subclass). *)
Definition is_URLError (e : exn) : bool :=
  match exn_class_of e with URLError | HTTPError => true | _ => false end.

(** ** Paths and the file system *)

(** A [pathlib] path on POSIX: absolute or relative, with its parts. *)
Inductive Path :=
| Abs (parts : list str)
| Rel (parts : list str).

Definition SLASH : N := 47%N.
Definition TILDE : N := 126%N.

(** Components of a path string: split at ['/'], empty and ['.']
    components dropped. *)
Fixpoint split_slash (cur : str) (s : str) : list str :=
  match s with
  | [] => [cur]
  | c :: s' => if (c =? SLASH)%N then cur :: split_slash [] s'
               else split_slash (cur ++ [c]) s'
  end.

Definition is_real_part (p : str) : bool :=
  negb (bool_decide (p = [])) && negb (bool_decide (p = py ".")).

(** [Path(s)] *)
Definition Path_of_str (s : str) : Path :=
  let ps := filter (fun p => is_real_part p = true) (split_slash [] s) in
  match s with
  | c :: _ => if (c =? SLASH)%N then Abs ps else Rel ps
  | [] => Rel ps
  end.

Definition path_parts (p : Path) : list str :=
  match p with Abs ps | Rel ps => ps end.

(** [p.is_absolute()] *)
Definition is_absolute (p : Path) : bool :=
  match p with Abs _ => true | Rel _ => false end.

(** [p.parent]: the parent of the root and of ['.'] is itself. *)
Definition parent (p : Path) : Path :=
  match p with
  | Abs ps => Abs (removelast ps)
  | Rel ps => Rel (removelast ps)
  end.

Inductive node :=
| File (content : str)
| Dir.

Abbreviation filesystem := (gmap (list str) node).

(** The node at an absolute path; the root is always a directory. *)
Definition node_at (fs : filesystem) (k : list str) : option node :=
  match k with
  | [] => Some Dir
  | _ => fs !! k
  end.

Definition exists_at (fs : filesystem) (k : list str) : bool :=
  match node_at fs k with Some _ => true | None => false end.

Definition is_dir_at (fs : filesystem) (k : list str) : bool :=
  match node_at fs k with Some Dir => true | _ => false end.

Definition os_error (c : exn_class) (what : string) : exn :=
  Exn c (py what).

(** [os.mkdir(k)] *)
Definition os_mkdir (fs : filesystem) (k : list str) : exn + filesystem :=
  match node_at fs k with
  | Some _ => inl (os_error FileExistsError "[Errno 17] File exists")
  | None =>
    match node_at fs (removelast k) with
    | None => inl (os_error FileNotFoundError "[Errno 2] No such file or directory")
    | Some (File _) => inl (os_error NotADirectoryError "[Errno 20] Not a directory")
    | Some Dir => inr (<[k := Dir]> fs)
    end
  end.

(** [Path.mkdir(parents=True, exist_ok=True)] on the path [base / parts],
    with the parts given last first: try [os.mkdir]; when the parent is
    missing, make the parent this way and try once more; any other
    failure is forgiven when the path is a directory. *)
Fixpoint mkdir_parents (fs : filesystem) (base rparts : list str)
  : exn + filesystem :=
  let k := base ++ rev rparts in
  match os_mkdir fs k with
  | inr fs' => inr fs'
  | inl e =>
    if is_FileNotFoundError e then
      match rparts with
      | [] => inl e
      | _ :: rparents =>
        match mkdir_parents fs base rparents with
        | inl e' => inl e'
        | inr fs1 =>
          match os_mkdir fs1 k with
          | inr fs2 => inr fs2
          | inl e2 => if is_dir_at fs1 k then inr fs1 else inl e2
          end
        end
      end
    else if is_dir_at fs k then inr fs else inl e
  end.

(** What [open(k, "w")] and [open(k, "a")] check before they write. *)
Definition open_for_writing (fs : filesystem) (k : list str) : option exn :=
  match node_at fs k with
  | Some Dir => Some (os_error IsADirectoryError "[Errno 21] Is a directory")
  | Some (File _) => None
  | None =>
    match node_at fs (removelast k) with
    | None => Some (os_error FileNotFoundError "[Errno 2] No such file or directory")
    | Some (File _) => Some (os_error NotADirectoryError "[Errno 20] Not a directory")
    | Some Dir => None
    end
  end.

(** [Path.write_text(text)] *)
Definition fs_write_text (fs : filesystem) (k : list str) (text : str)
  : exn + filesystem :=
  match open_for_writing fs k with
  | Some e => inl e
  | None => inr (<[k := File text]> fs)
  end.

(** [with open(k, "a") as f: f.write(text)] *)
Definition fs_append_text (fs : filesystem) (k : list str) (text : str)
  : exn + filesystem :=
  match open_for_writing fs k with
  | Some e => inl e
  | None =>
    match node_at fs k with
    | Some (File old) => inr (<[k := File (old ++ text)]> fs)
    | _ => inr (<[k := File text]> fs)
    end
  end.

(** [Path.read_text()] *)
Definition fs_read_text (fs : filesystem) (k : list str) : exn + str :=
  match node_at fs k with
  | Some (File text) => inr text
  | Some Dir => inl (os_error IsADirectoryError "[Errno 21] Is a directory")
  | None => inl (os_error FileNotFoundError "[Errno 2] No such file or directory")
  end.

(** ** Configuration (tinman/config.py) *)

Record TinManConfig := {
  interval_minutes : Z;
  run_on_start : bool;
  notify_only : bool;
  max_actions_per_run : Z;
  require_confirmation : bool;
  log_heartbeats : bool;
  log_file : str;
  max_log_lines : Z;
  notify_stdout : bool;
  notify_c3poh : bool;
  c3poh_endpoint : str;
  heartbeat_md : str;
  allowed_commands : list str;
  preset : str;
}.

(** The dataclass defaults. *)
Definition default_config : TinManConfig := {|
  interval_minutes := 30;
  run_on_start := true;
  notify_only := true;
  max_actions_per_run := 0;
  require_confirmation := true;
  log_heartbeats := true;
  log_file := py "~/.tinman/heartbeat.log";
  max_log_lines := 1000;
  notify_stdout := true;
  notify_c3poh := false;
  c3poh_endpoint := [];
  heartbeat_md := py "HEARTBEAT.md";
  allowed_commands := [];
  preset := py "sane";
|}.

(** ** Results and their serialisation *)

Record result := {
  timestamp : str;
  status : str;
  output : str;
  error : str;
  duration_seconds : pynum;
}.

Definition json_key (k : string) : str := QUOTE ++ py k ++ QUOTE ++ py ": ".
Arguments json_key k%_string.

(** [json.dumps(result)]: the keys in insertion order. *)
Definition json_dumps (r : result) : str :=
  py "{" ++ json_key "timestamp" ++ json_dumps_str (timestamp r) ++
  py ", " ++ json_key "status" ++ json_dumps_str (status r) ++
  py ", " ++ json_key "output" ++ json_dumps_str (output r) ++
  py ", " ++ json_key "error" ++ json_dumps_str (error r) ++
  py ", " ++ json_key "duration_seconds" ++ repr_num (duration_seconds r) ++
  py "}".

(** [json.dumps({"source": "tinman", "result": result})] *)
Definition json_dumps_payload (r : result) : str :=
  py "{" ++ json_key "source" ++ json_dumps_str (py "tinman") ++
  py ", " ++ json_key "result" ++ json_dumps r ++ py "}".

(** ** The default checklist (DEFAULT_HEARTBEAT_MD), line by line *)

Definition DEFAULT_HEARTBEAT_MD : str :=
  concat (map (fun l : string => py l ++ [LF]) [
    "# TinMan Heartbeat Checklist";
    "";
    "<!-- TinMan runs this checklist on every heartbeat. -->";
    "<!-- Keep actions NOTIFY-ONLY unless you know what you're doing. -->";
    "<!-- See docs/HEARTBEAT_GUIDE.md for safe customization tips. -->";
    "";
    "You are running a scheduled heartbeat check for this Claude Code project.";
    "";
    "## Your job every heartbeat:";
    "";
    "1. **Recent activity**: Summarize anything that needs the user's attention:";
    "   - Failed tool calls or errors from recent sessions";
    "   - Uncommitted changes or stale git branches";
    "   - Large files or directories created recently";
    "";
    "2. **System sanity**:";
    "   - Disk space on current volume (warn if < 5 GB free)";
    "   - Any runaway processes (high CPU/memory if detectable)";
    "";
    "3. **Project health** (if in a git repo):";
    "   - Uncommitted changes (git status --short)";
    "   - Unpushed commits (git log @{u}.. if upstream set)";
    "   - Failed CI (if .github/workflows present, note last known state)";
    "";
    "4. **Security sanity**:";
    "   - Any unexpected files in sensitive locations (~/.ssh, .env files)";
    "   - API keys in plain sight in recently modified files";
    "";
    "## Response format:";
    "";
    "If nothing needs attention:";
    "  Reply with exactly: `HEARTBEAT_OK`";
    "";
    "If something needs attention:";
    "  - Give 1-5 bullet summary of issues";
    "  - Recommend a next action for each";
    "  - Ask for confirmation before taking ANY irreversible step";
    "";
    "## Hard rules (do not override these):";
    "- Do NOT execute destructive commands (rm, drop, delete, format)";
    "- Do NOT exfiltrate secrets or API keys";
    "- Do NOT make git commits or pushes without explicit user confirmation";
    "- Do NOT install software without explicit user confirmation"
  ]%string).

(** ** The environment and the world *)

(** What [subprocess.run(cmd, capture_output=True, text=True, timeout=120)]
    does: it returns the captured streams, or raises (TimeoutExpired, an
    OSError when the process cannot be started, ...). *)
Inductive proc_outcome :=
| Completed (stdout stderr : str)
| RunRaises (e : exn).

(** What [urllib.request.urlopen(req, timeout=10)] does. *)
Inductive url_outcome :=
| Responded
| UrlopenRaises (e : exn).

Inductive stream := Stdout | Stderr.

(** What a run leaves behind, in order. [LogCall] and [EmitCall] record
    that [HeartbeatLogger.log] and [HeartbeatRunner._emit] were entered
    with a result; the others are the effects outside the file system. *)
Inductive event :=
| Print (to : stream) (text : str)
| SubprocessRun (cmd : list str)
| HttpPost (endpoint payload : str)
| LogCall (r : result)
| EmitCall (r : result).

Record Env := {
  (** [Path.cwd()] *)
  cwd : list str;
  (** the home directory of a user (the empty name: the current user),
      when it can be determined *)
  homedir : str -> option (list str);
  (** [datetime.utcnow().isoformat()] *)
  utcnow_isoformat : str;
  (** the n-th reading of [time.time()], in microseconds *)
  time_time : nat -> Z;
  (** [shutil.which] *)
  which : str -> option str;
  subprocess_run : list str -> proc_outcome;
  (** [urllib.request.Request(url, ...)]: the exception it raises, if any *)
  make_request : str -> option exn;
  (** [urlopen] on the endpoint with the payload *)
  urlopen : str -> str -> url_outcome;
  (** [print(text, file=stream)], given what the run left behind so far:
      the exception it raises, if any (a UnicodeEncodeError when the
      stream cannot encode the text, a BrokenPipeError when it is closed,
      ...) *)
  console : list event -> stream -> str -> option exn;
  (** [sys.get_int_max_str_digits()]: the longest run of digits [int]
      converts, 0 for no limit *)
  int_max_str_digits : nat;
  (** how many containers, one inside the other, [json.loads] can enter
      before the interpreter raises RecursionError *)
  recursion_room : nat;
}.

Record World := {
  fs : filesystem;
  trace : list event;
  clock_reads : nat;
  (** the attribute [HeartbeatRunner._heartbeat_md_path] *)
  heartbeat_md_path : option Path;
}.

Definition set_fs (w : World) (f : filesystem) : World :=
  {| fs := f; trace := trace w; clock_reads := clock_reads w;
     heartbeat_md_path := heartbeat_md_path w |}.

(** ** The monad: state and exceptions *)

Definition M (A : Type) : Type := World -> (exn + A) * World.

Definition ret {A} (a : A) : M A := fun w => (inr a, w).

Definition bind {A B} (m : M A) (k : A -> M B) : M B :=
  fun w =>
    match m w with
    | (inr a, w') => k a w'
    | (inl e, w') => (inl e, w')
    end.

Definition raise {A} (e : exn) : M A := fun w => (inl e, w).

(** [try: body except ...: handler] *)
Definition try_except {A} (body : M A) (handler : exn -> M A) : M A :=
  fun w =>
    match body w with
    | (inr a, w') => (inr a, w')
    | (inl e, w') => handler e w'
    end.

Notation "'let!' x ':=' c 'in' k" := (bind c (fun x => k))
  (at level 10, x pattern, c at level 100, k at level 200).

Definition emit_event (e : event) : M unit :=
  fun w => (inr tt,
            {| fs := fs w; trace := trace w ++ [e];
               clock_reads := clock_reads w;
               heartbeat_md_path := heartbeat_md_path w |}).

(** An operation of the file system that changes it or fails. *)
Definition fs_update (f : filesystem -> exn + filesystem) : M unit :=
  fun w =>
    match f (fs w) with
    | inr fs' => (inr tt, set_fs w fs')
    | inl e => (inl e, w)
    end.

(** An operation of the file system that reads it. *)
Definition fs_query {A} (f : filesystem -> exn + A) : M A :=
  fun w =>
    match f (fs w) with
    | inr a => (inr a, w)
    | inl e => (inl e, w)
    end.


(** ** JSON decoding ([json.loads], default options)

    Scanning gives a value and the rest of the text, or ends with a
    [json.JSONDecodeError] ([Malformed]), or with one of the two other
    exceptions the decoder raises: the ValueError of [int] on a run of
    digits longer than [sys.get_int_max_str_digits()], and the
    RecursionError of the interpreter when containers are nested deeper
    than it has room for. The text is scanned from left to right and the
    first of these ends the scan. A float keeps the text it was written
    with. *)

Inductive scanned (A : Type) :=
| Scanned (a : A) (rest : str)
| Malformed
| Raised (e : exn).
Arguments Scanned {A} a rest.
Arguments Malformed {A}.
Arguments Raised {A} e.

Inductive json :=
| JNull
| JBool (b : bool)
| JInt (z : Z)
| JFloat (lexeme : str)
| JNaN
| JInfinity (negative : bool)
| JStr (s : str)
| JList (items : list json)
| JDict (items : list (str * json)).

Definition is_json_space (c : N) : bool :=
  ((c =? 32) || (c =? 9) || (c =? 10) || (c =? 13))%N.

Fixpoint skip_ws (s : str) : str :=
  match s with
  | c :: s' => if is_json_space c then skip_ws s' else s
  | [] => []
  end.

Definition is_digit (c : N) : bool := ((48 <=? c) && (c <=? 57))%N.

Definition hex_value (c : N) : option N :=
  (if (48 <=? c) && (c <=? 57) then Some (c - 48)
   else if (97 <=? c) && (c <=? 102) then Some (c - 87)
   else if (65 <=? c) && (c <=? 70) then Some (c - 55)
   else None)%N.

(** Four hexadecimal digits at the head of [s]. *)
Definition hex4 (s : str) : option (N * str) :=
  match s with
  | a :: b :: c :: d :: rest =>
    match hex_value a, hex_value b, hex_value c, hex_value d with
    | Some a, Some b, Some c, Some d =>
      Some (((a * 16 + b) * 16 + c) * 16 + d, rest)%N
    | _, _, _, _ => None
    end
  | _ => None
  end.

Definition unescape (c : N) : option N :=
  (if c =? 34 then Some 34 else if c =? 92 then Some 92
   else if c =? 47 then Some 47 else if c =? 98 then Some 8
   else if c =? 102 then Some 12 else if c =? 110 then Some 10
   else if c =? 114 then Some 13 else if c =? 116 then Some 9
   else None)%N.

Definition is_high_surrogate (c : N) : bool := ((55296 <=? c) && (c <=? 56319))%N.
Definition is_low_surrogate (c : N) : bool := ((56320 <=? c) && (c <=? 57343))%N.

(** The body of a string literal, after its opening quote: the decoded
    text and what follows the closing quote. *)
Fixpoint scanstring (fuel : nat) (acc s : str) : option (str * str) :=
  match fuel, s with
  | S fuel, c :: s' =>
    if (c =? 34)%N then Some (acc, s')
    else if (c =? 92)%N then
      match s' with
      | [] => None
      | e :: s'' =>
        if (e =? 117)%N then
          match hex4 s'' with
          | None => None
          | Some (u, s3) =>
            match s3 with
            | 92%N :: 117%N :: s4 =>
              if is_high_surrogate u && (4 <? length s4)%nat then
                match hex4 s4 with
                | None => None
                | Some (u2, s5) =>
                  if is_low_surrogate u2
                  then scanstring fuel
                         (acc ++ [65536 + (u - 55296) * 1024 + (u2 - 56320)]%N) s5
                  else scanstring fuel (acc ++ [u]) s3
                end
              else scanstring fuel (acc ++ [u]) s3
            | _ => scanstring fuel (acc ++ [u]) s3
            end
          end
        else
          match unescape e with
          | Some ch => scanstring fuel (acc ++ [ch]) s''
          | None => None
          end
      end
    else if (c <=? 31)%N then None
    else scanstring fuel (acc ++ [c]) s'
  | _, _ => None
  end.

Fixpoint take_digits (s : str) : str * str :=
  match s with
  | c :: s' => if is_digit c then let '(d, r) := take_digits s' in (c :: d, r)
               else ([], s)
  | [] => ([], [])
  end.

Definition digits_value (d : str) : Z :=
  fold_left (fun acc c => acc * 10 + Z.of_N (c - 48)) d 0.

(** [int(digits)] refuses a run of digits longer than the limit. *)
Definition int_too_long (limit : nat) (ds : str) : bool :=
  ((0 <? limit) && (limit <? length ds))%nat.

Definition DIGITS_EXCEEDED (limit : nat) (ds : str) : exn :=
  Exn ValueError
      (py "Exceeds the limit (" ++ repr_nat (N.of_nat limit) ++
       py " digits) for integer string conversion: value has " ++
       repr_nat (N.of_nat (length ds)) ++
       py " digits; use sys.set_int_max_str_digits() to increase the limit").

Definition TOO_DEEP (what : string) : exn :=
  Exn RecursionError
      (py "maximum recursion depth exceeded while decoding a JSON " ++
       py what ++ py " from a unicode string").

(** A number at the head of [s]: integer part, then a fraction and an
    exponent when they are complete; an integer is converted by [int]. *)
Definition match_number (limit : nat) (s : str) : scanned json :=
  let '(neg, s1) := match s with
                    | 45%N :: s' => (true, s')
                    | _ => (false, s)
                    end in
  let sign := if neg then [45%N] else [] in
  match s1 with
  | [] => Malformed
  | c :: s2 =>
    let int_part := if (c =? 48)%N then Some ([c], s2)
                    else if is_digit c
                    then let '(d, r) := take_digits s2 in Some (c :: d, r)
                    else None in
    match int_part with
    | None => Malformed
    | Some (ds, r) =>
      let '(frac, r1) :=
        match r with
        | 46%N :: r' =>
          match take_digits r' with
          | ([], _) => ([], r)
          | (fd, r'') => (46%N :: fd, r'')
          end
        | _ => ([], r)
        end in
      let '(expo, r2) :=
        match r1 with
        | e :: r' =>
          if ((e =? 101) || (e =? 69))%N then
            let '(sg, r'') := match r' with
                              | x :: y => if ((x =? 43) || (x =? 45))%N
                                          then ([x], y) else ([], r')
                              | [] => ([], r')
                              end in
            match take_digits r'' with
            | ([], _) => ([], r1)
            | (ed, r3) => (e :: sg ++ ed, r3)
            end
          else ([], r1)
        | [] => ([], r1)
        end in
      match frac, expo with
      | [], [] =>
        if int_too_long limit ds then Raised (DIGITS_EXCEEDED limit ds)
        else Scanned (JInt (if neg then - digits_value ds else digits_value ds))
                     r2
      | _, _ => Scanned (JFloat (sign ++ ds ++ frac ++ expo)) r2
      end
    end
  end.

(** [d[k] = v] on a dict kept as the list of its items. *)
Fixpoint dict_set (k : str) (v : json) (d : list (str * json))
  : list (str * json) :=
  match d with
  | [] => [(k, v)]
  | (k', v') :: d' =>
    if bool_decide (k = k') then (k, v) :: d' else (k', v') :: dict_set k v d'
  end.

Definition strip_prefix (p s : str) : option str :=
  if startswith p s then Some (drop (length p) s) else None.

(** [scan_once]: one value at the head of [s], with [room] containers
    left to enter; [array_items] and [object_items] read the rest of an
    array or an object once its first item is due. *)
Fixpoint scan_once (limit fuel room : nat) (s : str) : scanned json :=
  match fuel with
  | O => Malformed
  | S fuel =>
    match s with
    | [] => Malformed
    | c :: s' =>
      if (c =? 34)%N then
        match scanstring (length s') [] s' with
        | Some (t, r) => Scanned (JStr t) r
        | None => Malformed
        end
      else if (c =? 123)%N then
        match room with
        | O => Raised (TOO_DEEP "object")
        | S room =>
          match skip_ws s' with
          | 125%N :: r => Scanned (JDict []) r
          | r => match object_items limit fuel room [] r with
                 | Scanned d r' => Scanned (JDict d) r'
                 | Malformed => Malformed
                 | Raised e => Raised e
                 end
          end
        end
      else if (c =? 91)%N then
        match room with
        | O => Raised (TOO_DEEP "array")
        | S room =>
          match skip_ws s' with
          | 93%N :: r => Scanned (JList []) r
          | r => match array_items limit fuel room [] r with
                 | Scanned l r' => Scanned (JList l) r'
                 | Malformed => Malformed
                 | Raised e => Raised e
                 end
          end
        end
      else
        match strip_prefix (py "null") s, strip_prefix (py "true") s,
              strip_prefix (py "false") s, strip_prefix (py "NaN") s,
              strip_prefix (py "Infinity") s, strip_prefix (py "-Infinity") s
        with
        | Some r, _, _, _, _, _ => Scanned JNull r
        | _, Some r, _, _, _, _ => Scanned (JBool true) r
        | _, _, Some r, _, _, _ => Scanned (JBool false) r
        | _, _, _, Some r, _, _ => Scanned JNaN r
        | _, _, _, _, Some r, _ => Scanned (JInfinity false) r
        | _, _, _, _, _, Some r => Scanned (JInfinity true) r
        | _, _, _, _, _, _ => match_number limit s
        end
    end
  end
with array_items (limit fuel room : nat) (acc : list json) (s : str)
  : scanned (list json) :=
  match fuel with
  | O => Malformed
  | S fuel =>
    match scan_once limit fuel room s with
    | Malformed => Malformed
    | Raised e => Raised e
    | Scanned v r =>
      match skip_ws r with
      | 93%N :: r' => Scanned (acc ++ [v]) r'
      | 44%N :: r' => array_items limit fuel room (acc ++ [v]) (skip_ws r')
      | _ => Malformed
      end
    end
  end
with object_items (limit fuel room : nat) (acc : list (str * json)) (s : str)
  : scanned (list (str * json)) :=
  match fuel with
  | O => Malformed
  | S fuel =>
    match s with
    | 34%N :: s' =>
      match scanstring (length s') [] s' with
      | None => Malformed
      | Some (k, r) =>
        match skip_ws r with
        | 58%N :: r1 =>
          match scan_once limit fuel room (skip_ws r1) with
          | Malformed => Malformed
          | Raised e => Raised e
          | Scanned v r2 =>
            match skip_ws r2 with
            | 125%N :: r3 => Scanned (dict_set k v acc) r3
            | 44%N :: r3 =>
              object_items limit fuel room (dict_set k v acc) (skip_ws r3)
            | _ => Malformed
            end
          end
        | _ => Malformed
        end
      end
    | _ => Malformed
    end
  end.

(** [json.loads(s)] for an interpreter with the given limits: the value,
    [None] for a [json.JSONDecodeError], or the other exception raised. *)
Definition loads_with (limit room : nat) (s : str) : exn + option json :=
  match s with
  | 65279%N :: _ => inr None
  | _ =>
    match scan_once limit (2 * length s + 2) room (skip_ws s) with
    | Scanned v r => match skip_ws r with [] => inr (Some v) | _ => inr None end
    | Malformed => inr None
    | Raised e => inl e
    end
  end.

(** ** Paths against the environment *)

Section Pipeline.

Variable env : Env.

(** The absolute path the operating system resolves [p] to. *)
Definition resolve (p : Path) : list str :=
  match p with
  | Abs ps => ps
  | Rel ps => cwd env ++ ps
  end.

(** [p.expanduser()]: a relative path whose first part starts with a
    tilde is rebased on that user's home directory. *)
Definition expanduser (p : Path) : exn + Path :=
  match p with
  | Rel ((c :: user) :: ps) =>
    if (c =? TILDE)%N then
      match homedir env user with
      | Some home => inr (Abs (home ++ ps))
      | None => inl (Exn RuntimeError (py "Could not determine home directory."))
      end
    else inr p
  | _ => inr p
  end.

(** [str(p)] *)
Definition str_of_Path (p : Path) : str :=
  match p with
  | Abs ps => [SLASH] ++ join [SLASH] ps
  | Rel [] => py "."
  | Rel ps => join [SLASH] ps
  end.

Definition lift {A} (r : exn + A) : M A :=
  match r with
  | inr a => ret a
  | inl e => raise e
  end.

(** [p.mkdir(parents=True, exist_ok=True)] *)
Definition mkdir (p : Path) : M unit :=
  fs_update (fun f =>
    match p with
    | Abs ps => mkdir_parents f [] (rev ps)
    | Rel ps => mkdir_parents f (cwd env) (rev ps)
    end).

Definition write_text (p : Path) (text : str) : M unit :=
  fs_update (fun f => fs_write_text f (resolve p) text).

Definition append_text (p : Path) (text : str) : M unit :=
  fs_update (fun f => fs_append_text f (resolve p) text).

Definition read_text (p : Path) : M str :=
  fs_query (fun f => fs_read_text f (resolve p)).

(** [p.exists()] *)
Definition path_exists (p : Path) : M bool :=
  fun w => (inr (exists_at (fs w) (resolve p)), w).

(** [print(text, file=to)]: the text goes out, or the stream raises and
    nothing is written. *)
Definition print (to : stream) (text : str) : M unit :=
  fun w =>
    match console env (trace w) to text with
    | Some e => (inl e, w)
    | None => emit_event (Print to text) w
    end.

(** [time.time()] *)
Definition time_now : M Z :=
  fun w => (inr (time_time env (clock_reads w)),
            {| fs := fs w; trace := trace w;
               clock_reads := S (clock_reads w);
               heartbeat_md_path := heartbeat_md_path w |}).

(** [json.loads(s)] in this interpreter *)
Definition json_loads (s : str) : exn + option json :=
  loads_with (int_max_str_digits env) (recursion_room env) s.

(** ** HeartbeatLogger (tinman/logger.py) *)

Record HeartbeatLogger := {
  lg_config : TinManConfig;
  log_path : Path;
}.

(** [HeartbeatLogger.__init__] *)
Definition HeartbeatLogger_init (config : TinManConfig) : M HeartbeatLogger :=
  let! p := lift (expanduser (Path_of_str (log_file config))) in
  let! _ := mkdir (parent p) in
  ret {| lg_config := config; log_path := p |}.

(** [_rotate_if_needed]: every exception is swallowed. *)
Definition _rotate_if_needed (self : HeartbeatLogger) : M unit :=
  try_except
    (let! text := read_text (log_path self) in
     let lines := splitlines true text in
     if Z.of_nat (length lines) >? max_log_lines (lg_config self) then
       let keep := slice_from (- max_log_lines (lg_config self)) lines in
       write_text (log_path self) (concat keep)
     else ret tt)
    (fun _ => ret tt).

(** [HeartbeatLogger.log] *)
Definition log (self : HeartbeatLogger) (r : result) : M unit :=
  let! _ := emit_event (LogCall r) in
  if negb (log_heartbeats (lg_config self)) then ret tt
  else
    let! _ := append_text (log_path self) (json_dumps r ++ [LF]) in
    _rotate_if_needed self.

(** The loop of [tail]: strip each line, skip the blank ones and the ones
    that do not decode; an exception of [json.loads] that is not a
    [json.JSONDecodeError] ends the loop and leaves [tail]. *)
Fixpoint decode_lines (entries : list json) (lines : list str)
  : exn + list json :=
  match lines with
  | [] => inr entries
  | line :: lines' =>
    let line := strip line in
    if truthy line then
      match json_loads line with
      | inr (Some entry) => decode_lines (entries ++ [entry]) lines'
      | inr None => decode_lines entries lines'
      | inl e => inl e
      end
    else decode_lines entries lines'
  end.

(** [HeartbeatLogger.tail] *)
Definition tail (self : HeartbeatLogger) (n : Z) : M (list json) :=
  let! found := path_exists (log_path self) in
  if negb found then ret []
  else
    let! text := read_text (log_path self) in
    let lines := splitlines false text in
    lift (decode_lines [] (slice_from (- n) lines)).

(** ** HeartbeatRunner (tinman/heartbeat.py) *)

Record HeartbeatRunner := {
  config : TinManConfig;
  logger : HeartbeatLogger;
}.

Definition set_heartbeat_md_path (p : option Path) : M unit :=
  fun w => (inr tt,
            {| fs := fs w; trace := trace w; clock_reads := clock_reads w;
               heartbeat_md_path := p |}).

(** [HeartbeatRunner.__init__] *)
Definition HeartbeatRunner_init (cfg : TinManConfig) : M HeartbeatRunner :=
  let! lg := HeartbeatLogger_init cfg in
  let! _ := set_heartbeat_md_path None in
  ret {| config := cfg; logger := lg |}.

(** [ensure_heartbeat_md] *)
Definition ensure_heartbeat_md (self : HeartbeatRunner) : M Path :=
  let! p := lift (expanduser (Path_of_str (heartbeat_md (config self)))) in
  let p := if is_absolute p then p else Abs (cwd env ++ path_parts p) in
  let! found := path_exists p in
  let! _ :=
    if negb found then
      let! _ := mkdir (parent p) in
      let! _ := write_text p DEFAULT_HEARTBEAT_MD in
      let! _ := print Stdout
                  (py "[TinMan] Created default HEARTBEAT.md at " ++ str_of_Path p) in
      print Stdout (py "[TinMan] Edit it to customize your heartbeat checklist.")
    else ret tt in
  let! _ := set_heartbeat_md_path (Some p) in
  ret p.

Definition ADVISORY_NOTIFY_ONLY : str :=
  py "NOTIFY-ONLY MODE: Do not execute any commands or take autonomous actions.".
Definition ADVISORY_NO_SHELL : str :=
  py "You may not run shell commands in this heartbeat.".
Definition ADVISORY_CONFIRM : str :=
  py "If action is needed, describe it and ask for confirmation. Do not proceed.".
Definition SAFETY_HEADER : str :=
  py "=== TinMan Safety Rules (enforced by config) ===".

(** The list [mode] that [_safety_prefix] builds. *)
Definition safety_mode (cfg : TinManConfig) : list str :=
  (if notify_only cfg then [ADVISORY_NOTIFY_ONLY] else []) ++
  (if max_actions_per_run cfg =? 0 then [ADVISORY_NO_SHELL] else []) ++
  (if require_confirmation cfg then [ADVISORY_CONFIRM] else []).

(** [_safety_prefix] *)
Definition _safety_prefix (self : HeartbeatRunner) : str :=
  let mode := safety_mode (config self) in
  match mode with
  | [] => []
  | _ => SAFETY_HEADER ++ [LF] ++ join [LF] (map (fun m => py "- " ++ m) mode)
  end.

Definition PROMPT_SEPARATOR : str := [LF; LF] ++ py "---" ++ [LF; LF].

(** [_invoke_claude] *)
Definition _invoke_claude (self : HeartbeatRunner) (checklist : str)
  : M (str * str) :=
  match which env (py "claude") with
  | None => raise (Exn FileNotFoundError (py "claude"))
  | Some claude_bin =>
    if negb (truthy claude_bin) then raise (Exn FileNotFoundError (py "claude"))
    else
      let safety_prefix := _safety_prefix self in
      let prompt := safety_prefix ++ PROMPT_SEPARATOR ++ checklist in
      let cmd := [claude_bin; py "--print"; prompt] in
      let! _ := emit_event (SubprocessRun cmd) in
      match subprocess_run env cmd with
      | Completed stdout stderr => ret (strip stdout, strip stderr)
      | RunRaises e => raise e
      end
  end.

Definition status_icon (st : str) : str :=
  if bool_decide (st = py "ok") then [10003%N]
  else if bool_decide (st = py "alert") then [9888%N]
  else if bool_decide (st = py "error") then [10007%N]
  else if bool_decide (st = py "skipped_empty") then [9675%N]
  else py "?".

(** [_print_result] *)
Definition _print_result (r : result) : M unit :=
  let! _ := print Stdout
              ([LF] ++ py "[TinMan] " ++ status_icon (status r) ++ py " " ++
               timestamp r ++ py "  (" ++ repr_num (duration_seconds r) ++
               py "s)") in
  let! _ := if truthy (output r) then print Stdout (output r) else ret tt in
  if truthy (error r) then print Stderr (py "[TinMan] ERROR: " ++ error r)
  else ret tt.

(** [_send_c3poh]: only a URLError of [urlopen] is caught. *)
Definition _send_c3poh (self : HeartbeatRunner) (r : result) : M unit :=
  let payload := json_dumps_payload r in
  let endpoint := c3poh_endpoint (config self) in
  match make_request env endpoint with
  | Some e => raise e
  | None =>
    let! _ := emit_event (HttpPost endpoint payload) in
    match urlopen env endpoint payload with
    | Responded => ret tt
    | UrlopenRaises e =>
      if is_URLError e
      then print Stderr (py "[TinMan] C3Poh notify failed: " ++ exn_str e)
      else raise e
    end
  end.

(** [_emit] *)
Definition _emit (self : HeartbeatRunner) (r : result) : M unit :=
  let! _ := emit_event (EmitCall r) in
  let! _ := if notify_stdout (config self) then _print_result r else ret tt in
  if notify_c3poh (config self) && truthy (c3poh_endpoint (config self))
  then _send_c3poh self r
  else ret tt.

Definition set_status (r : result) (st : str) : result :=
  {| timestamp := timestamp r; status := st; output := output r;
     error := error r; duration_seconds := duration_seconds r |}.
Definition set_output (r : result) (o : str) : result :=
  {| timestamp := timestamp r; status := status r; output := o;
     error := error r; duration_seconds := duration_seconds r |}.
Definition set_error (r : result) (e : str) : result :=
  {| timestamp := timestamp r; status := status r; output := output r;
     error := e; duration_seconds := duration_seconds r |}.
Definition set_duration (r : result) (d : pynum) : result :=
  {| timestamp := timestamp r; status := status r; output := output r;
     error := error r; duration_seconds := d |}.

Definition MSG_SKIPPED : str :=
  py "HEARTBEAT.md is empty - skipping run. Add checklist items to enable.".
Definition MSG_NOT_FOUND : str :=
  py "claude CLI not found. Install Claude Code: https://claude.ai/code".

(** [run_beat] *)
Definition run_beat (self : HeartbeatRunner) : M result :=
  let ts := utcnow_isoformat env ++ py "Z" in
  let result0 := {| timestamp := ts; status := py "unknown"; output := [];
                    error := []; duration_seconds := PyInt 0 |} in
  let! checklist_path := ensure_heartbeat_md self in
  let! checklist := read_text checklist_path in
  if negb (truthy (strip checklist)) then
    let r := set_output (set_status result0 (py "skipped_empty")) MSG_SKIPPED in
    let! _ := log (logger self) r in
    let! _ := _emit self r in
    ret r
  else
    let! start := time_now in
    let! r :=
      try_except
        (let! (output, error) := _invoke_claude self checklist in
         let! now := time_now in
         let r := set_duration result0 (PyFloat2 (round2 (now - start))) in
         let r := set_output r output in
         let r := set_error r error in
         if truthy error && negb (truthy output) then
           ret (set_status r (py "error"))
         else if contains (py "HEARTBEAT_OK") output then
           ret (set_status r (py "ok"))
         else
           ret (set_status r (py "alert")))
        (fun e =>
           if is_FileNotFoundError e then
             let r := set_status result0 (py "error") in
             let r := set_error r MSG_NOT_FOUND in
             let! now := time_now in
             ret (set_duration r (PyFloat2 (round2 (now - start))))
           else
             let r := set_status result0 (py "error") in
             let r := set_error r (exn_str e) in
             let! now := time_now in
             ret (set_duration r (PyFloat2 (round2 (now - start))))) in
    let! _ := log (logger self) r in
    let! _ := _emit self r in
    ret r.

End Pipeline.

(** * Properties *)

(** ** Lines and strings *)

Definition printable (c : N) : Prop := (32 <= c <= 126)%N.

Lemma printable_not_linebreak c : printable c -> is_linebreak c = false.
Proof.
  unfold printable, is_linebreak. intros [Hlo Hhi].
  repeat match goal with
  | |- context [(?a <=? ?b)%N] => destruct (N.leb_spec a b)
  | |- context [(?a =? ?b)%N] => destruct (N.eqb_spec a b)
  end; simpl; try reflexivity; lia.
Qed.

Lemma splitlines_line (keepends : bool) (line rest : str) :
  Forall (fun c => is_linebreak c = false) line ->
  splitlines keepends (line ++ LF :: rest) =
  (line ++ if keepends then [LF] else []) :: splitlines keepends rest.
Proof.
  induction 1 as [|c line Hc Hline IH]; simpl.
  - destruct rest; reflexivity.
  - rewrite Hc, IH. reflexivity.
Qed.

(** The text of a file made of the given lines, each ended by a line
    feed. *)
Definition unlines (ls : list str) : str :=
  concat (map (fun l => l ++ [LF]) ls).

Lemma splitlines_unlines (keepends : bool) (ls : list str) :
  Forall (Forall (fun c => is_linebreak c = false)) ls ->
  splitlines keepends (unlines ls) =
  map (fun l => l ++ if keepends then [LF] else []) ls.
Proof.
  induction 1 as [|l ls Hl Hls IH]; [reflexivity|].
  unfold unlines in *. simpl. rewrite <- app_assoc. simpl.
  rewrite splitlines_line by assumption. rewrite IH. reflexivity.
Qed.

Lemma unlines_app (a b : list str) : unlines (a ++ b) = unlines a ++ unlines b.
Proof. unfold unlines. rewrite map_app, concat_app. reflexivity. Qed.

Lemma unlines_snoc (ls : list str) (l : str) :
  unlines (ls ++ [l]) = unlines ls ++ l ++ [LF].
Proof.
  rewrite unlines_app. f_equal. unfold unlines. simpl. apply app_nil_r.
Qed.

(** ** What [json.dumps] writes: printable ASCII only *)

Definition printableb (c : N) : bool := ((32 <=? c) && (c <=? 126))%N.

Lemma printableb_spec c : printableb c = true <-> printable c.
Proof.
  unfold printableb, printable.
  rewrite andb_true_iff, !N.leb_le. reflexivity.
Qed.

Lemma printable_check (s : str) : forallb printableb s = true -> Forall printable s.
Proof.
  intros H. apply Forall_forall. intros c Hc.
  apply printableb_spec. rewrite forallb_forall in H. apply H.
  apply list_elem_of_In, Hc.
Qed.

Ltac printable_literal := apply printable_check; vm_compute; reflexivity.

Lemma hex_digit_printable d : (d < 16)%N -> printable (hex_digit d).
Proof.
  unfold hex_digit, printable. intros H.
  destruct (N.ltb_spec d 10); lia.
Qed.

Lemma escape_u_printable n : Forall printable (escape_u n).
Proof.
  unfold escape_u. apply Forall_app. split; [printable_literal|].
  repeat constructor; apply hex_digit_printable; apply N.mod_lt; discriminate.
Qed.

Lemma escape_char_printable c : Forall printable (escape_char c).
Proof.
  unfold escape_char.
  destruct (c =? 34)%N; [printable_literal|].
  destruct (c =? 92)%N; [printable_literal|].
  destruct (c =? 8)%N; [printable_literal|].
  destruct (c =? 12)%N; [printable_literal|].
  destruct (c =? 10)%N; [printable_literal|].
  destruct (c =? 13)%N; [printable_literal|].
  destruct (c =? 9)%N; [printable_literal|].
  destruct ((32 <=? c) && (c <=? 126))%N eqn:E.
  - constructor; [|constructor]. apply printableb_spec, E.
  - destruct (c <? 65536)%N.
    + apply escape_u_printable.
    + apply Forall_app; split; apply escape_u_printable.
Qed.

Lemma json_dumps_str_printable s : Forall printable (json_dumps_str s).
Proof.
  unfold json_dumps_str. rewrite !Forall_app. repeat split.
  - printable_literal.
  - induction s as [|c s IH]; simpl; [constructor|].
    apply Forall_app; split; [apply escape_char_printable | exact IH].
  - printable_literal.
Qed.

Lemma string_of_uint_printable (d : Decimal.uint) :
  Forall printable (py (NilEmpty.string_of_uint d)).
Proof.
  induction d; simpl; try constructor; try exact IHd;
    unfold printable; simpl; lia.
Qed.

Lemma repr_nat_printable n : Forall printable (repr_nat n).
Proof.
  unfold repr_nat, NilZero.string_of_uint.
  destruct (N.to_uint n); try apply string_of_uint_printable.
  printable_literal.
Qed.

Lemma sign_printable (z : Z) :
  Forall printable (if z <? 0 then py "-" else []).
Proof. destruct (z <? 0); [printable_literal | constructor]. Qed.

Lemma repr_num_printable x : Forall printable (repr_num x).
Proof.
  destruct x as [z|h]; simpl; unfold repr_int, repr_float2.
  - apply Forall_app; split; [apply sign_printable | apply repr_nat_printable].
  - cbv zeta. rewrite !Forall_app.
    split; [apply sign_printable|].
    split; [apply repr_nat_printable|].
    split; [printable_literal|].
    split; [apply repr_nat_printable|].
    destruct (_ =? _)%N; [constructor | apply repr_nat_printable].
Qed.

Lemma json_key_printable (k : string) :
  Forall printable (py k) -> Forall printable (json_key k).
Proof.
  intros H. unfold json_key. rewrite !Forall_app.
  split; [printable_literal|]. split; [exact H|].
  split; printable_literal.
Qed.

Lemma json_dumps_printable r : Forall printable (json_dumps r).
Proof.
  unfold json_dumps. rewrite !Forall_app.
  repeat split;
    first [ apply json_dumps_str_printable
          | apply repr_num_printable
          | apply json_key_printable; printable_literal
          | printable_literal ].
Qed.

Lemma json_dumps_one_line r :
  Forall (fun c => is_linebreak c = false) (json_dumps r).
Proof.
  eapply Forall_impl; [apply json_dumps_printable|].
  intros c. apply printable_not_linebreak.
Qed.

(** ** Slices *)

Lemma slice_from_last {A} (m : Z) (l : list A) :
  0 < m ->
  slice_from (- m) l = drop (length l - Z.to_nat m) l.
Proof.
  intros Hm. unfold slice_from.
  destruct (Z.ltb_spec (- m) 0); [|lia]. f_equal. lia.
Qed.

Lemma slice_from_zero {A} (l : list A) : slice_from (- 0) l = l.
Proof. reflexivity. Qed.

(** The last [m] elements of a list. *)
Definition last_n {A} (m : nat) (l : list A) : list A :=
  drop (length l - m) l.

Lemma last_n_length {A} (m : nat) (l : list A) :
  length (last_n m l) = Nat.min (length l) m.
Proof. unfold last_n. rewrite length_drop. lia. Qed.

Lemma last_n_app_last_n {A} (m : nat) (a b : list A) :
  last_n m (last_n m a ++ b) = last_n m (a ++ b).
Proof.
  unfold last_n. rewrite !length_app, length_drop.
  rewrite <- (drop_app_le a b (length a - m)) by lia.
  rewrite drop_drop. f_equal. lia.
Qed.

(** ** The file system, node by node *)

Lemma node_at_insert (f : filesystem) (k : list str) (n : node) :
  k <> [] -> node_at (<[k := n]> f) k = Some n.
Proof. destruct k; [congruence|]. intros _. cbn [node_at]. apply lookup_insert_eq. Qed.

Lemma node_at_insert_ne (f : filesystem) (k k' : list str) (n : node) :
  k <> k' -> node_at (<[k := n]> f) k' = node_at f k'.
Proof.
  intros Hne. destruct k'; [reflexivity|]. cbn [node_at].
  apply lookup_insert_ne, Hne.
Qed.

Lemma node_at_file_nonroot (f : filesystem) k text :
  node_at f k = Some (File text) -> k <> [].
Proof. destruct k; [discriminate | congruence]. Qed.

Lemma node_at_none_nonroot (f : filesystem) k : node_at f k = None -> k <> [].
Proof. destruct k; [discriminate | congruence]. Qed.

Lemma fs_append_text_file (f : filesystem) k old text :
  node_at f k = Some (File old) ->
  fs_append_text f k text = inr (<[k := File (old ++ text)]> f).
Proof. intros H. unfold fs_append_text, open_for_writing. rewrite H. reflexivity. Qed.

Lemma fs_append_text_new (f : filesystem) k text :
  node_at f k = None -> node_at f (removelast k) = Some Dir ->
  fs_append_text f k text = inr (<[k := File text]> f).
Proof.
  intros H Hp. unfold fs_append_text, open_for_writing. rewrite H, Hp. reflexivity.
Qed.

Lemma fs_write_text_file (f : filesystem) k old text :
  node_at f k = Some (File old) ->
  fs_write_text f k text = inr (<[k := File text]> f).
Proof. intros H. unfold fs_write_text, open_for_writing. rewrite H. reflexivity. Qed.

Lemma fs_read_text_file (f : filesystem) k text :
  node_at f k = Some (File text) -> fs_read_text f k = inr text.
Proof. intros H. unfold fs_read_text. rewrite H. reflexivity. Qed.

(** ** The logger *)

Section LoggerProperties.

Variable env : Env.

(** Where the log file is. *)
Definition log_key (self : HeartbeatLogger) : list str :=
  resolve env (log_path self).

(** The lines of the log file; none when there is no such file. *)
Definition log_file_lines (self : HeartbeatLogger) (w : World) : list str :=
  match fs_read_text (fs w) (log_key self) with
  | inr text => splitlines false text
  | inl _ => []
  end.

(** The log file is absent, in a directory that exists, or empty. *)
Definition fresh_log (self : HeartbeatLogger) (w : World) : Prop :=
  node_at (fs w) (log_key self) = Some (File [])
  \/ (node_at (fs w) (log_key self) = None
      /\ node_at (fs w) (removelast (log_key self)) = Some Dir).

(** [k] calls of [log], one per result, in order. *)
Fixpoint log_all (self : HeartbeatLogger) (rs : list result) : M unit :=
  match rs with
  | [] => ret tt
  | r :: rs' => let! _ := log env self r in log_all self rs'
  end.

Definition one_line (l : str) : Prop :=
  Forall (fun c => is_linebreak c = false) l.

Lemma rotate_keeps_last (self : HeartbeatLogger) (w : World) (ls : list str) :
  0 < max_log_lines (lg_config self) ->
  Forall one_line ls ->
  node_at (fs w) (log_key self) = Some (File (unlines ls)) ->
  exists w',
    _rotate_if_needed env self w = (inr tt, w')
    /\ node_at (fs w') (log_key self)
       = Some (File (unlines (last_n (Z.to_nat (max_log_lines (lg_config self))) ls))).
Proof.
  intros Hm Hls Hfile. destruct w as [f t c h]. simpl in *.
  unfold _rotate_if_needed, try_except, bind, read_text, fs_query. simpl.
  fold (log_key self).
  rewrite (fs_read_text_file _ _ _ Hfile).
  rewrite (splitlines_unlines true ls Hls), length_map.
  destruct (Z.of_nat (length ls) >? max_log_lines (lg_config self)) eqn:Hgt.
  - unfold write_text, fs_update. cbn [fs]. fold (log_key self).
    rewrite (fs_write_text_file _ _ _ _ Hfile).
    eexists. split; [reflexivity|]. cbn [fs set_fs].
    rewrite node_at_insert by (eapply node_at_file_nonroot, Hfile).
    rewrite slice_from_last by assumption.
    unfold last_n, unlines. rewrite length_map, skipn_map. reflexivity.
  - eexists. split; [reflexivity|]. simpl.
    rewrite Z.gtb_ltb in Hgt. apply Z.ltb_ge in Hgt.
    unfold last_n. replace (length ls - _)%nat with 0%nat by lia.
    rewrite drop_0. exact Hfile.
Qed.

(** The log file holds exactly the given lines. *)
Definition holds_lines (self : HeartbeatLogger) (w : World) (ls : list str) : Prop :=
  node_at (fs w) (log_key self) = Some (File (unlines ls))
  \/ (ls = [] /\ node_at (fs w) (log_key self) = None
      /\ node_at (fs w) (removelast (log_key self)) = Some Dir).

Lemma log_appends_and_rotates (self : HeartbeatLogger) (r : result)
    (w : World) (ls : list str) :
  log_heartbeats (lg_config self) = true ->
  0 < max_log_lines (lg_config self) ->
  Forall one_line ls ->
  holds_lines self w ls ->
  exists w',
    log env self r w = (inr tt, w')
    /\ holds_lines self w'
         (last_n (Z.to_nat (max_log_lines (lg_config self))) (ls ++ [json_dumps r])).
Proof.
  intros Hon Hm Hls Hholds.
  assert (Hls' : Forall one_line (ls ++ [json_dumps r])).
  { apply Forall_app. split; [exact Hls|].
    constructor; [apply json_dumps_one_line | constructor]. }
  destruct w as [f t c h]. unfold log, bind, emit_event. cbn [fs trace].
  rewrite Hon. cbn [negb]. unfold append_text, fs_update. cbn [fs].
  fold (log_key self).
  assert (Hnew : exists f',
    fs_append_text f (log_key self) (json_dumps r ++ [LF]) = inr f'
    /\ node_at f' (log_key self) = Some (File (unlines (ls ++ [json_dumps r])))).
  { destruct Hholds as [Hfile | (-> & Hnone & Hdir)]; cbn [fs] in *.
    - rewrite (fs_append_text_file _ _ _ _ Hfile). eexists. split; [reflexivity|].
      rewrite node_at_insert by (eapply node_at_file_nonroot, Hfile).
      rewrite unlines_snoc. reflexivity.
    - rewrite (fs_append_text_new _ _ _ Hnone Hdir). eexists. split; [reflexivity|].
      rewrite node_at_insert by (eapply node_at_none_nonroot, Hnone).
      rewrite (unlines_snoc []). reflexivity. }
  destruct Hnew as (f' & -> & Hf').
  destruct (rotate_keeps_last self
              {| fs := f'; trace := t ++ [LogCall r]; clock_reads := c;
                 heartbeat_md_path := h |} _ Hm Hls' Hf') as (w' & Hrot & Hw').
  exists w'. split; [exact Hrot | left; exact Hw'].
Qed.

Lemma last_n_all {A} (m : nat) (l : list A) :
  (length l <= m)%nat -> last_n m l = l.
Proof.
  intros H. unfold last_n. replace (length l - m)%nat with 0%nat by lia.
  apply drop_0.
Qed.

Lemma last_n_Forall {A} (P : A -> Prop) (m : nat) (l : list A) :
  Forall P l -> Forall P (last_n m l).
Proof. apply Forall_drop. Qed.

Lemma last_n_map {A B} (f : A -> B) (m : nat) (l : list A) :
  last_n m (map f l) = map f (last_n m l).
Proof. unfold last_n. rewrite length_map. apply skipn_map. Qed.

Lemma log_all_keeps_last (self : HeartbeatLogger) (rs : list result) :
  log_heartbeats (lg_config self) = true ->
  0 < max_log_lines (lg_config self) ->
  forall (w : World) (ls : list str),
    Forall one_line ls ->
    (length ls <= Z.to_nat (max_log_lines (lg_config self)))%nat ->
    holds_lines self w ls ->
    exists w',
      log_all self rs w = (inr tt, w')
      /\ holds_lines self w'
           (last_n (Z.to_nat (max_log_lines (lg_config self)))
                   (ls ++ map json_dumps rs)).
Proof.
  intros Hon Hm. induction rs as [|r rs IH]; intros w ls Hls Hlen Hholds.
  - exists w. split; [reflexivity|].
    cbn [map]. rewrite app_nil_r, last_n_all by exact Hlen. exact Hholds.
  - destruct (log_appends_and_rotates self r w ls Hon Hm Hls Hholds)
      as (w1 & Hlog & Hholds1).
    assert (H1 : Forall one_line
              (last_n (Z.to_nat (max_log_lines (lg_config self)))
                      (ls ++ [json_dumps r]))).
    { apply last_n_Forall, Forall_app. split; [exact Hls|].
      constructor; [apply json_dumps_one_line | constructor]. }
    assert (H2 : (length (last_n (Z.to_nat (max_log_lines (lg_config self)))
                                 (ls ++ [json_dumps r]))
                  <= Z.to_nat (max_log_lines (lg_config self)))%nat).
    { rewrite last_n_length. lia. }
    destruct (IH w1 _ H1 H2 Hholds1) as (w' & Hall & Hholds').
    exists w'. split.
    + cbn [log_all]. unfold bind. rewrite Hlog. exact Hall.
    + rewrite last_n_app_last_n, <- app_assoc in Hholds'. exact Hholds'.
Qed.

Lemma holds_lines_read (self : HeartbeatLogger) (w : World) (ls : list str) :
  Forall one_line ls ->
  holds_lines self w ls -> log_file_lines self w = ls.
Proof.
  intros Hls [Hfile | (-> & Hnone & _)]; unfold log_file_lines.
  - rewrite (fs_read_text_file _ _ _ Hfile).
    rewrite (splitlines_unlines false ls Hls).
    rewrite <- (map_id ls) at 2. apply map_ext. intros l. apply app_nil_r.
  - unfold fs_read_text. rewrite Hnone. reflexivity.
Qed.

(** C3. With logging enabled and a positive [max_log_lines = m], [k]
    calls of [log] on a fresh log file all return, and leave a file of
    exactly [min k m] lines: the serialisations of the [min k m] most
    recently logged results, oldest first. *)
Theorem log_keeps_most_recent (self : HeartbeatLogger) (rs : list result)
    (w : World) :
  log_heartbeats (lg_config self) = true ->
  0 < max_log_lines (lg_config self) ->
  fresh_log self w ->
  exists w',
    log_all self rs w = (inr tt, w')
    /\ log_file_lines self w'
       = map json_dumps (last_n (Z.to_nat (max_log_lines (lg_config self))) rs)
    /\ length (log_file_lines self w')
       = Nat.min (length rs) (Z.to_nat (max_log_lines (lg_config self))).
Proof.
  intros Hon Hm Hfresh.
  destruct (log_all_keeps_last self rs Hon Hm w []) as (w' & Hall & Hholds).
  - constructor.
  - simpl. lia.
  - destruct Hfresh as [Hfile | Habsent]; [left; exact Hfile | right; tauto].
  - cbn [app] in Hholds.
    assert (Hlines : Forall one_line (map json_dumps rs)).
    { apply Forall_forall. intros l Hl. apply list_elem_of_fmap in Hl.
      destruct Hl as (r & -> & _). apply json_dumps_one_line. }
    apply holds_lines_read in Hholds; [|apply last_n_Forall, Hlines].
    exists w'. split; [exact Hall|]. rewrite Hholds, last_n_map.
    split; [reflexivity|]. rewrite length_map, last_n_length. reflexivity.
Qed.

(** C9. With logging disabled, [log] returns without touching the file
    system: the log file is neither created nor modified. *)
Theorem log_disabled_leaves_files (self : HeartbeatLogger) (r : result)
    (w : World) :
  log_heartbeats (lg_config self) = false ->
  exists w',
    log env self r w = (inr tt, w')
    /\ fs w' = fs w
    /\ node_at (fs w') (log_key self) = node_at (fs w) (log_key self).
Proof.
  intros Hoff. destruct w as [f t c h].
  unfold log, bind, emit_event. cbn [fs trace]. rewrite Hoff. cbn [negb].
  eexists. split; [reflexivity|]. split; reflexivity.
Qed.

(** *** Reading the log back *)

(** What one line of the log file yields when [json.loads] raises
    nothing but a [json.JSONDecodeError] on it: its entry, or nothing
    when the line is blank or does not decode. *)
Definition decode_line (line : str) : option json :=
  let line := strip line in
  if truthy line then
    match json_loads env line with
    | inr (Some entry) => Some entry
    | _ => None
    end
  else None.

(** The exception that is not a [json.JSONDecodeError] and that
    [json.loads] raises on a line, if there is one: the ValueError of an
    integer with too many digits, the RecursionError of too deep a
    nesting. *)
Definition line_raises (line : str) : option exn :=
  let line := strip line in
  if truthy line then
    match json_loads env line with
    | inl e => Some e
    | inr _ => None
    end
  else None.

(** [json.loads] raises nothing but a [json.JSONDecodeError] on these
    lines. *)
Definition decodable (lines : list str) : Prop :=
  Forall (fun line => line_raises line = None) lines.


Lemma decode_lines_from (ls : list str) (acc : list json) :
  decodable ls ->
  decode_lines env acc ls = inr (acc ++ omap decode_line ls).
Proof.
  intros Hls. revert acc.
  induction Hls as [|l ls Hl Hls IH]; intros acc.
  - cbn [decode_lines omap list_omap]. rewrite app_nil_r. reflexivity.
  - change (omap decode_line (l :: ls))
      with (match decode_line l with
            | Some y => y :: omap decode_line ls
            | None => omap decode_line ls
            end).
    cbn [decode_lines]. unfold line_raises in Hl. unfold decode_line at 1.
    cbv zeta in *.
    destruct (truthy (strip l)); [|apply IH].
    destruct (json_loads env (strip l)) as [e|[entry|]]; [discriminate| |].
    + rewrite IH, <- app_assoc. reflexivity.
    + apply IH.
Qed.

Lemma decode_lines_omap (ls : list str) :
  decodable ls -> decode_lines env [] ls = inr (omap decode_line ls).
Proof. apply (decode_lines_from ls []). Qed.





End LoggerProperties.

(** ** Making directories *)

(** The directories [mkdir(parents=True)] may have to make below [base],
    deepest first; the parts of the path come last first. *)
Fixpoint dirs_to (base rparts : list str) : list (list str) :=
  match rparts with
  | [] => []
  | _ :: rparents => (base ++ rev rparts) :: dirs_to base rparents
  end.

(** Nothing stands in the way of the directory: [base] is a directory
    and no path from there down to it is a regular file. *)
Fixpoint clear_path (f : filesystem) (base rparts : list str) : bool :=
  match rparts with
  | [] => is_dir_at f base
  | _ :: rparents =>
    match node_at f (base ++ rev rparts) with
    | Some (File _) => false
    | _ => clear_path f base rparents
    end
  end.

(** [f'] is [f] with some of the listed paths, absent in [f], made
    directories. *)
Definition only_new_dirs (ks : list (list str)) (f f' : filesystem) : Prop :=
  forall k,
    node_at f' k = node_at f k
    \/ (In k ks /\ node_at f k = None /\ node_at f' k = Some Dir).

Lemma only_new_dirs_refl ks f : only_new_dirs ks f f.
Proof. intros k. left. reflexivity. Qed.

Lemma only_new_dirs_weaken k0 ks f f' :
  only_new_dirs ks f f' -> only_new_dirs (k0 :: ks) f f'.
Proof.
  intros H k. destruct (H k) as [Heq | (Hin & Hnone & Hdir)]; [left; exact Heq|].
  right. split; [right; exact Hin | split; assumption].
Qed.

Lemma only_new_dirs_insert k0 ks f f' :
  only_new_dirs ks f f' -> node_at f' k0 = None ->
  only_new_dirs (k0 :: ks) f (<[k0 := Dir]> f').
Proof.
  intros H Hnone k. destruct (decide (k0 = k)) as [<-|Hne].
  - right. split; [left; reflexivity|].
    rewrite node_at_insert by (eapply node_at_none_nonroot, Hnone).
    split; [|reflexivity].
    destruct (H k0) as [Heq | (_ & _ & Hdir)]; congruence.
  - rewrite node_at_insert_ne by exact Hne.
    apply only_new_dirs_weaken, H.
Qed.

Lemma removelast_snoc_rev (base : list str) (x : str) (rp : list str) :
  removelast (base ++ rev (x :: rp)) = base ++ rev rp.
Proof.
  cbn [rev]. rewrite app_assoc. apply removelast_last.
Qed.

Lemma mkdir_parents_makes (base : list str) (rparts : list str) :
  forall f : filesystem,
    clear_path f base rparts = true ->
    exists f',
      mkdir_parents f base rparts = inr f'
      /\ is_dir_at f' (base ++ rev rparts) = true
      /\ only_new_dirs (dirs_to base rparts) f f'.
Proof.
  induction rparts as [|x rp IH]; intros f Hclear.
  - cbn [clear_path] in Hclear. cbn [mkdir_parents rev]. rewrite app_nil_r in *.
    exists f. unfold os_mkdir.
    unfold is_dir_at in Hclear |- *.
    destruct (node_at f base) as [[|]|] eqn:Hb; try discriminate.
    split; [reflexivity|]. split; [reflexivity | apply only_new_dirs_refl].
  - cbn [clear_path] in Hclear. cbn [mkdir_parents dirs_to].
    set (k := base ++ rev (x :: rp)) in *.
    unfold os_mkdir at 1.
    destruct (node_at f k) as [[text|]|] eqn:Hk; [discriminate| |].
    + change (is_FileNotFoundError (os_error FileExistsError _)) with false.
      cbv iota. exists f. unfold is_dir_at. rewrite Hk.
      split; [reflexivity|]. split; [reflexivity|].
      apply only_new_dirs_refl.
    + assert (Hparent : removelast k = base ++ rev rp)
        by apply removelast_snoc_rev.
      rewrite Hparent.
      destruct (IH f Hclear) as (f1 & Hmk & Hdir1 & Hframe1).
      assert (Hretry : exists f2,
        (match os_mkdir f1 k with
         | inr f2 => inr f2
         | inl e2 => if is_dir_at f1 k then inr f1 else inl e2
         end) = @inr exn _ f2
        /\ is_dir_at f2 k = true
        /\ only_new_dirs (k :: dirs_to base rp) f f2).
      { unfold os_mkdir. rewrite Hparent.
        unfold is_dir_at in Hdir1.
        destruct (node_at f1 (base ++ rev rp)) as [[|]|] eqn:Hp1; try discriminate.
        destruct (node_at f1 k) as [[text|]|] eqn:Hk1.
        - destruct (Hframe1 k) as [Heq | (_ & _ & Hd)]; congruence.
        - exists f1. unfold is_dir_at. rewrite Hk1.
          split; [reflexivity|]. split; [reflexivity|].
          apply only_new_dirs_weaken, Hframe1.
        - exists (<[k := Dir]> f1). split; [reflexivity|].
          split.
          + unfold is_dir_at.
            rewrite node_at_insert by (eapply node_at_none_nonroot, Hk1).
            reflexivity.
          + apply only_new_dirs_insert; assumption. }
      destruct Hretry as (f2 & Hretry & Hdir2 & Hframe2).
      destruct (node_at f (base ++ rev rp)) as [[text|]|] eqn:Hp.
      * (* the parent is a regular file: excluded *)
        exfalso. destruct rp as [|y rp'].
        -- cbn [clear_path rev] in Hclear. rewrite app_nil_r in *.
           unfold is_dir_at in Hclear. rewrite Hp in Hclear. discriminate.
        -- cbn [clear_path] in Hclear. rewrite Hp in Hclear. discriminate.
      * exists (<[k := Dir]> f). split; [reflexivity|]. split.
        -- unfold is_dir_at.
           rewrite node_at_insert by (eapply node_at_none_nonroot, Hk).
           reflexivity.
        -- apply only_new_dirs_insert; [apply only_new_dirs_refl | exact Hk].
      * change (is_FileNotFoundError (os_error FileNotFoundError _)) with true.
        cbv iota. rewrite Hmk. exists f2. split; [exact Hretry|].
        split; assumption.
Qed.

Lemma dirs_to_length (base rparts k : list str) :
  In k (dirs_to base rparts) -> (length k <= length base + length rparts)%nat.
Proof.
  induction rparts as [|x rp IH]; cbn [dirs_to In]; [tauto|].
  intros [<- | Hin].
  - rewrite length_app, length_rev. reflexivity.
  - specialize (IH Hin). cbn [length]. lia.
Qed.

(** ** The runner *)

Section RunnerProperties.

Variable env : Env.

(** The directory a path is resolved against. *)
Definition path_base (p : Path) : list str :=
  match p with
  | Abs _ => []
  | Rel _ => cwd env
  end.

Lemma resolve_base_parts (p : Path) :
  resolve env p = path_base p ++ rev (rev (path_parts p)).
Proof. rewrite rev_involutive. destruct p; reflexivity. Qed.

(** The configuration with the logging switch set to [b]. *)
Definition with_log_heartbeats (b : bool) (cfg : TinManConfig) : TinManConfig :=
  {| interval_minutes := interval_minutes cfg;
     run_on_start := run_on_start cfg;
     notify_only := notify_only cfg;
     max_actions_per_run := max_actions_per_run cfg;
     require_confirmation := require_confirmation cfg;
     log_heartbeats := b;
     log_file := log_file cfg;
     max_log_lines := max_log_lines cfg;
     notify_stdout := notify_stdout cfg;
     notify_c3poh := notify_c3poh cfg;
     c3poh_endpoint := c3poh_endpoint cfg;
     heartbeat_md := heartbeat_md cfg;
     allowed_commands := allowed_commands cfg;
     preset := preset cfg |}.

Lemma mkdir_makes (p : Path) (w : World) :
  clear_path (fs w) (path_base p) (rev (path_parts p)) = true ->
  exists f',
    mkdir env p w = (inr tt, set_fs w f')
    /\ is_dir_at f' (resolve env p) = true
    /\ only_new_dirs (dirs_to (path_base p) (rev (path_parts p))) (fs w) f'.
Proof.
  intros Hclear.
  destruct (mkdir_parents_makes _ _ _ Hclear) as (f' & Hmk & Hdir & Hframe).
  exists f'. rewrite resolve_base_parts. split; [|split; assumption].
  unfold mkdir, fs_update. destruct p; cbn [path_base path_parts] in Hmk;
    rewrite Hmk; reflexivity.
Qed.

(** C10. Constructing a [HeartbeatLogger] makes the parent directory of
    the log path, with the directories missing above it, whenever no
    regular file stands in the way; it changes nothing else (every other
    path keeps its node, the trace and the clock are untouched), and it
    does so whatever [log_heartbeats] says. Constructing a
    [HeartbeatRunner] has the same effect on the file system. *)
Theorem logger_init_makes_parent (cfg : TinManConfig) (w : World) (p : Path) :
  expanduser env (Path_of_str (log_file cfg)) = inr p ->
  clear_path (fs w) (path_base (parent p)) (rev (path_parts (parent p))) = true ->
  exists w',
    HeartbeatLogger_init env cfg w
    = (inr {| lg_config := cfg; log_path := p |}, w')
    /\ is_dir_at (fs w') (resolve env (parent p)) = true
    /\ only_new_dirs (dirs_to (path_base (parent p))
                              (rev (path_parts (parent p))))
                     (fs w) (fs w')
    /\ trace w' = trace w
    /\ clock_reads w' = clock_reads w
    /\ heartbeat_md_path w' = heartbeat_md_path w
    /\ (forall b,
          fs (snd (HeartbeatLogger_init env (with_log_heartbeats b cfg) w))
          = fs w')
    /\ (exists w'',
          HeartbeatRunner_init env cfg w
          = (inr {| config := cfg;
                    logger := {| lg_config := cfg; log_path := p |} |}, w'')
          /\ fs w'' = fs w').
Proof.
  intros Hexp Hclear.
  destruct (mkdir_makes (parent p) w Hclear) as (f' & Hmk & Hdir & Hframe).
  exists (set_fs w f').
  assert (Hinit : forall cfg', log_file cfg' = log_file cfg ->
            HeartbeatLogger_init env cfg' w
            = (inr {| lg_config := cfg'; log_path := p |}, set_fs w f')).
  { intros cfg' Hsame. unfold HeartbeatLogger_init, bind, lift.
    rewrite Hsame, Hexp. unfold ret at 1. rewrite Hmk. reflexivity. }
  split; [apply Hinit; reflexivity|].
  split; [exact Hdir|]. split; [exact Hframe|].
  split; [reflexivity|]. split; [reflexivity|]. split; [reflexivity|].
  split.
  - intros b. rewrite (Hinit (with_log_heartbeats b cfg)) by reflexivity.
    reflexivity.
  - unfold HeartbeatRunner_init, bind. rewrite (Hinit cfg) by reflexivity.
    eexists. split; reflexivity.
Qed.

(** The absolute path of the checklist: the configured path with the
    home directory expanded, taken from the working directory when it is
    relative. *)
Definition checklist_path (cfg : TinManConfig) : exn + Path :=
  match expanduser env (Path_of_str (heartbeat_md cfg)) with
  | inr p => inr (if is_absolute p then p else Abs (cwd env ++ path_parts p))
  | inl e => inl e
  end.

Definition set_md_path (w : World) (p : Path) : World :=
  {| fs := fs w; trace := trace w; clock_reads := clock_reads w;
     heartbeat_md_path := Some p |}.

Lemma checklist_path_absolute cfg p :
  checklist_path cfg = inr p -> exists ps, p = Abs ps.
Proof.
  unfold checklist_path.
  destruct (expanduser _ _) as [e|[ps|ps]]; intros [= <-]; cbn; eauto.
Qed.

Lemma ensure_existing (self : HeartbeatRunner) (w : World) (p : Path) :
  checklist_path (config self) = inr p ->
  exists_at (fs w) (resolve env p) = true ->
  ensure_heartbeat_md env self w = (inr p, set_md_path w p).
Proof.
  unfold checklist_path. intros Hp Hex.
  unfold ensure_heartbeat_md, bind, lift.
  destruct (expanduser _ _) as [e|p0]; [discriminate|].
  injection Hp as <-. unfold ret at 1. unfold path_exists.
  rewrite Hex. reflexivity.
Qed.

(** The console takes whatever is printed. *)
Definition console_ok : Prop :=
  forall (t : list event) (to : stream) (text : str),
    console env t to text = None.

(** Printing texts one after the other, with [t] left behind so far:
    what goes out, and the exception that stops the printing, if any. *)
Fixpoint printed (t : list event) (msgs : list (stream * str))
  : list event * option exn :=
  match msgs with
  | [] => ([], None)
  | (to, text) :: msgs' =>
    match console env t to text with
    | Some e => ([], Some e)
    | None =>
      let '(evs, o) := printed (t ++ [Print to text]) msgs' in
      (Print to text :: evs, o)
    end
  end.

Definition print_event (m : stream * str) : event := Print (fst m) (snd m).

Lemma printed_ok (t : list event) (msgs : list (stream * str)) :
  console_ok -> printed t msgs = (map print_event msgs, None).
Proof.
  intros Hok. revert t. induction msgs as [|[to text] msgs IH]; intros t;
    cbn [printed map]; [reflexivity|].
  rewrite Hok, IH. reflexivity.
Qed.

Lemma printed_all (t : list event) (msgs : list (stream * str)) :
  snd (printed t msgs) = None -> fst (printed t msgs) = map print_event msgs.
Proof.
  revert t. induction msgs as [|[to text] msgs IH]; intros t;
    cbn [printed map]; [reflexivity|].
  destruct (console env t to text); [discriminate|].
  specialize (IH (t ++ [Print to text])).
  destruct (printed (t ++ [Print to text]) msgs) as [evs o]. cbn [fst snd] in *.
  intros Ho. rewrite (IH Ho). reflexivity.
Qed.

Lemma print_eq (to : stream) (text : str) (f : filesystem) (t : list event)
    (c : nat) (h : option Path) :
  print env to text
    {| fs := f; trace := t; clock_reads := c; heartbeat_md_path := h |}
  = match console env t to text with
    | Some e => (inl e, {| fs := f; trace := t; clock_reads := c;
                           heartbeat_md_path := h |})
    | None => (inr tt, {| fs := f; trace := t ++ [Print to text];
                          clock_reads := c; heartbeat_md_path := h |})
    end.
Proof.
  unfold print, emit_event. cbn [trace fs clock_reads heartbeat_md_path].
  destruct (console env t to text); reflexivity.
Qed.

(** What [ensure_heartbeat_md] prints once it has written the default
    checklist. *)
Definition created_lines (ps : list str) : list (stream * str) :=
  [(Stdout, py "[TinMan] Created default HEARTBEAT.md at "
            ++ str_of_Path (Abs ps));
   (Stdout, py "[TinMan] Edit it to customize your heartbeat checklist.")].

Definition created_events (ps : list str) : list event :=
  map print_event (created_lines ps).

Lemma ensure_missing (self : HeartbeatRunner) (w : World) (ps : list str) :
  checklist_path (config self) = inr (Abs ps) ->
  exists_at (fs w) ps = false ->
  ensure_heartbeat_md env self w
  = match mkdir_parents (fs w) [] (rev (removelast ps)) with
    | inl e => (inl e, w)
    | inr f1 =>
      match fs_write_text f1 ps DEFAULT_HEARTBEAT_MD with
      | inl e => (inl e, set_fs w f1)
      | inr f2 =>
        match printed (trace w) (created_lines ps) with
        | (evs, Some e) =>
          (inl e, {| fs := f2; trace := trace w ++ evs;
                     clock_reads := clock_reads w;
                     heartbeat_md_path := heartbeat_md_path w |})
        | (evs, None) =>
          (inr (Abs ps),
           {| fs := f2; trace := trace w ++ evs;
              clock_reads := clock_reads w;
              heartbeat_md_path := Some (Abs ps) |})
        end
      end
    end.
Proof.
  unfold checklist_path. intros Hp Hex.
  unfold ensure_heartbeat_md, bind, lift.
  destruct (expanduser _ _) as [e|p0]; [discriminate|].
  injection Hp as Hp. unfold ret at 1. rewrite Hp. unfold path_exists.
  cbn [resolve]. rewrite Hex. cbn [negb].
  unfold mkdir, fs_update. cbn [parent].
  destruct (mkdir_parents (fs w) [] (rev (removelast ps))) as [e|f1];
    [reflexivity|].
  unfold write_text, fs_update. cbn [resolve fs set_fs].
  destruct (fs_write_text f1 ps DEFAULT_HEARTBEAT_MD) as [e|f2];
    [reflexivity|].
  destruct w as [f t c h]. unfold set_fs.
  cbn [fs trace clock_reads heartbeat_md_path].
  unfold created_lines. cbn [printed]. rewrite print_eq.
  destruct (console env t Stdout _) as [e|]; [rewrite app_nil_r; reflexivity|].
  rewrite print_eq.
  destruct (console env (t ++ [_]) Stdout _) as [e|];
    [reflexivity|].
  unfold set_heartbeat_md_path, ret.
  cbn [fs trace clock_reads heartbeat_md_path].
  rewrite <- app_assoc. reflexivity.
Qed.

(** With a console that takes the two lines, a missing checklist is
    made and announced. *)
Lemma ensure_missing_ok (self : HeartbeatRunner) (w : World) (ps : list str) :
  console_ok ->
  checklist_path (config self) = inr (Abs ps) ->
  exists_at (fs w) ps = false ->
  ensure_heartbeat_md env self w
  = match mkdir_parents (fs w) [] (rev (removelast ps)) with
    | inl e => (inl e, w)
    | inr f1 =>
      match fs_write_text f1 ps DEFAULT_HEARTBEAT_MD with
      | inl e => (inl e, set_fs w f1)
      | inr f2 =>
        (inr (Abs ps),
         {| fs := f2; trace := trace w ++ created_events ps;
            clock_reads := clock_reads w;
            heartbeat_md_path := Some (Abs ps) |})
      end
    end.
Proof.
  intros Hok Hp Hex. rewrite (ensure_missing self w ps Hp Hex).
  rewrite (printed_ok _ _ Hok). reflexivity.
Qed.

Lemma exists_at_false_nonroot (f : filesystem) k :
  exists_at f k = false -> node_at f k = None /\ k <> [].
Proof.
  unfold exists_at. destruct (node_at f k) eqn:H; [discriminate|].
  intros _. split; [reflexivity | eapply node_at_none_nonroot, H].
Qed.

Lemma fs_write_text_inr (f f2 : filesystem) k text :
  fs_write_text f k text = inr f2 -> f2 = <[k := File text]> f.
Proof.
  unfold fs_write_text. destruct (open_for_writing f k); congruence.
Qed.

(** C6. [ensure_heartbeat_md] is idempotent. When the checklist exists,
    whatever it holds, the call returns the resolved path and leaves the
    file system and the trace as they were. When it is missing (no
    regular file stands in the way of its directory), the call makes the
    directories and writes the default template, touching no other file,
    and it returns the resolved path when the console takes the two
    lines that announce the new file; whether it returned or [print]
    raised, a second call returns the path and leaves the file system
    and the trace as they are. When a call returns, a second call
    returns the same path and changes nothing at all: the template is
    written once. *)
Theorem ensure_heartbeat_md_idempotent (self : HeartbeatRunner) (w : World)
    (p : Path) :
  checklist_path (config self) = inr p ->
  (exists_at (fs w) (resolve env p) = true ->
   exists w1,
     ensure_heartbeat_md env self w = (inr p, w1)
     /\ fs w1 = fs w /\ trace w1 = trace w)
  /\ (exists_at (fs w) (resolve env p) = false ->
      clear_path (fs w) (path_base (parent p))
                 (rev (path_parts (parent p))) = true ->
      exists o w1,
        ensure_heartbeat_md env self w = (o, w1)
        /\ (console_ok -> o = inr p)
        /\ node_at (fs w1) (resolve env p) = Some (File DEFAULT_HEARTBEAT_MD)
        /\ is_dir_at (fs w1) (resolve env (parent p)) = true
        /\ (forall k, k <> resolve env p ->
              node_at (fs w1) k = node_at (fs w) k
              \/ (In k (dirs_to (path_base (parent p))
                                (rev (path_parts (parent p))))
                  /\ node_at (fs w) k = None
                  /\ node_at (fs w1) k = Some Dir))
        /\ exists w2,
             ensure_heartbeat_md env self w1 = (inr p, w2)
             /\ fs w2 = fs w1 /\ trace w2 = trace w1)
  /\ (forall q w1,
        ensure_heartbeat_md env self w = (inr q, w1) ->
        q = p /\ ensure_heartbeat_md env self w1 = (inr q, w1)).
Proof.
  intros Hp. destruct (checklist_path_absolute _ _ Hp) as (ps & ->).
  cbn [resolve parent path_base path_parts].
  split; [|split].
  - intros Hex. rewrite (ensure_existing self w (Abs ps) Hp Hex).
    eexists. split; [reflexivity|]. split; reflexivity.
  - intros Hno Hclear.
    destruct (exists_at_false_nonroot _ _ Hno) as [Hnone Hnonroot].
    destruct (mkdir_parents_makes _ _ _ Hclear) as (f1 & Hmk & Hdir & Hframe).
    rewrite rev_involutive in Hdir. cbn [app] in Hdir.
    assert (Hnone1 : node_at f1 ps = None).
    { destruct (Hframe ps) as [Heq | (Hin & _ & _)]; [congruence|].
      apply dirs_to_length in Hin. rewrite length_rev in Hin. cbn in Hin.
      destruct ps as [|x ps'] using rev_ind; [congruence|].
      rewrite removelast_last, length_app in Hin. cbn in Hin. lia. }
    rewrite (ensure_missing self w ps Hp Hno), Hmk.
    unfold fs_write_text, open_for_writing. rewrite Hnone1.
    unfold is_dir_at in Hdir.
    destruct (node_at f1 (removelast ps)) as [[|]|] eqn:Hpar; try discriminate.
    assert (Hfile : node_at (<[ps := File DEFAULT_HEARTBEAT_MD]> f1) ps
                    = Some (File DEFAULT_HEARTBEAT_MD))
      by (apply node_at_insert, Hnonroot).
    assert (Hparent : is_dir_at (<[ps := File DEFAULT_HEARTBEAT_MD]> f1)
                                (removelast ps) = true).
    { unfold is_dir_at. destruct (decide (ps = removelast ps)) as [Heq|Hne].
      - rewrite <- Heq in Hpar. congruence.
      - rewrite node_at_insert_ne, Hpar by exact Hne. reflexivity. }
    assert (Hok : console_ok ->
                  snd (printed (trace w) (created_lines ps)) = None)
      by (intros Hc; rewrite (printed_ok _ _ Hc); reflexivity).
    destruct (printed (trace w) (created_lines ps)) as [evs [e|]];
      cbn [snd] in Hok; eexists _, _; (split; [reflexivity|]); cbn [fs].
    all: split;
      [first [intros Hc; specialize (Hok Hc); discriminate
             | intros _; reflexivity]|].
    all: split; [exact Hfile|].
    all: split; [exact Hparent|].
    all: split;
      [intros k Hk; rewrite node_at_insert_ne by congruence; apply Hframe|].
    all: match goal with
         | |- exists w2, ensure_heartbeat_md _ _ ?w1 = _ /\ _ =>
           rewrite (ensure_existing _ w1 (Abs ps) Hp);
             [eexists; split; [reflexivity | split; reflexivity]|];
           cbn [fs resolve]; unfold exists_at; rewrite Hfile; reflexivity
         end.
  - intros q w1 Hrun.
    destruct (exists_at (fs w) ps) eqn:Hex.
    + rewrite (ensure_existing self w (Abs ps) Hp Hex) in Hrun.
      injection Hrun as <- <-. split; [reflexivity|].
      apply (ensure_existing self (set_md_path w (Abs ps)) (Abs ps) Hp Hex).
    + destruct (exists_at_false_nonroot _ _ Hex) as [Hnone Hnonroot].
      rewrite (ensure_missing self w ps Hp Hex) in Hrun.
      destruct (mkdir_parents _ _ _) as [e|f1]; [discriminate|].
      destruct (fs_write_text f1 ps _) as [e|f2] eqn:Hwrite; [discriminate|].
      destruct (printed (trace w) (created_lines ps)) as [evs [e|]];
        [discriminate|].
      injection Hrun as <- <-. split; [reflexivity|].
      apply fs_write_text_inr in Hwrite. subst f2.
      match goal with
      | |- ensure_heartbeat_md env self ?w1 = _ =>
        rewrite (ensure_existing self w1 (Abs ps) Hp); [reflexivity|]
      end.
      cbn [fs resolve]. unfold exists_at.
      rewrite node_at_insert by exact Hnonroot. reflexivity.
Qed.

(** *** One cycle, step by step *)

(** The executable [_invoke_claude] runs, when there is one. *)
Definition tool : option str :=
  match which env (py "claude") with
  | Some b => if truthy b then Some b else None
  | None => None
  end.

Definition prompt_of (self : HeartbeatRunner) (checklist : str) : str :=
  _safety_prefix self ++ PROMPT_SEPARATOR ++ checklist.

Definition command_of (self : HeartbeatRunner) (bin checklist : str) : list str :=
  [bin; py "--print"; prompt_of self checklist].

(** What [_invoke_claude] returns or raises. *)
Definition invocation (self : HeartbeatRunner) (checklist : str)
  : exn + (str * str) :=
  match tool with
  | None => inl (Exn FileNotFoundError (py "claude"))
  | Some bin =>
    match subprocess_run env (command_of self bin checklist) with
    | Completed stdout stderr => inr (strip stdout, strip stderr)
    | RunRaises e => inl e
    end
  end.

(** What [_invoke_claude] leaves in the trace. *)
Definition invocation_events (self : HeartbeatRunner) (checklist : str)
  : list event :=
  match tool with
  | None => []
  | Some bin => [SubprocessRun (command_of self bin checklist)]
  end.

Lemma invoke_claude_eq (self : HeartbeatRunner) (checklist : str)
    (f : filesystem) (t : list event) (c : nat) (h : option Path) :
  _invoke_claude env self checklist
    {| fs := f; trace := t; clock_reads := c; heartbeat_md_path := h |}
  = (invocation self checklist,
     {| fs := f; trace := t ++ invocation_events self checklist;
        clock_reads := c; heartbeat_md_path := h |}).
Proof.
  unfold _invoke_claude, invocation, invocation_events, tool.
  destruct (which env (py "claude")) as [b|];
    [|unfold raise; rewrite app_nil_r; reflexivity].
  destruct (truthy b); cbn [negb];
    [|unfold raise; rewrite app_nil_r; reflexivity].
  unfold bind, emit_event. cbn [fs trace clock_reads heartbeat_md_path].
  fold (prompt_of self checklist). fold (command_of self b checklist).
  destruct (subprocess_run env (command_of self b checklist)); reflexivity.
Qed.

(** The status of a completed invocation. *)
Definition classify (output error : str) : str :=
  if truthy error && negb (truthy output) then py "error"
  else if contains (py "HEARTBEAT_OK") output then py "ok"
  else py "alert".

(** The result of a cycle that reaches the invocation, [elapsed]
    microseconds after it started. *)
Definition cycle_result (self : HeartbeatRunner) (checklist : str)
    (elapsed : Z) : result :=
  let ts := utcnow_isoformat env ++ py "Z" in
  match invocation self checklist with
  | inr (output, error) =>
    {| timestamp := ts; status := classify output error; output := output;
       error := error; duration_seconds := PyFloat2 (round2 elapsed) |}
  | inl e =>
    {| timestamp := ts; status := py "error"; output := [];
       error := if is_FileNotFoundError e then MSG_NOT_FOUND else exn_str e;
       duration_seconds := PyFloat2 (round2 elapsed) |}
  end.

(** The result of a cycle on an empty checklist. *)
Definition skipped_result : result :=
  {| timestamp := utcnow_isoformat env ++ py "Z";
     status := py "skipped_empty"; output := MSG_SKIPPED; error := [];
     duration_seconds := PyInt 0 |}.

(** Step 6: persist, fan out, return. *)
Definition persist (self : HeartbeatRunner) (r : result) : M result :=
  let! _ := log env (logger self) r in
  let! _ := _emit env self r in
  ret r.

(** The world once the invocation is over: two readings of the clock,
    and the subprocess in the trace if it was started. *)
Definition after_invocation (w : World) (evs : list event) : World :=
  {| fs := fs w; trace := trace w ++ evs;
     clock_reads := S (S (clock_reads w));
     heartbeat_md_path := heartbeat_md_path w |}.

Definition elapsed_at (w : World) : Z :=
  time_time env (S (clock_reads w)) - time_time env (clock_reads w).

Lemma run_beat_eq (self : HeartbeatRunner) (w : World) :
  run_beat env self w
  = match ensure_heartbeat_md env self w with
    | (inl e, w0) => (inl e, w0)
    | (inr p, w0) =>
      match fs_read_text (fs w0) (resolve env p) with
      | inl e => (inl e, w0)
      | inr checklist =>
        if truthy (strip checklist) then
          persist self (cycle_result self checklist (elapsed_at w0))
                  (after_invocation w0 (invocation_events self checklist))
        else persist self skipped_result w0
      end
    end.
Proof.
  unfold run_beat. unfold bind at 1.
  destruct (ensure_heartbeat_md env self w) as [[e|p] w0]; [reflexivity|].
  unfold bind at 1. unfold read_text, fs_query.
  destruct (fs_read_text (fs w0) (resolve env p)) as [e|checklist];
    [reflexivity|].
  destruct (truthy (strip checklist)); cbn [negb]; [|reflexivity].
  destruct w0 as [f t c h].
  unfold bind at 1. unfold time_now at 1.
  cbn [fs trace clock_reads heartbeat_md_path].
  unfold bind at 1. unfold try_except. unfold bind at 1.
  rewrite invoke_claude_eq.
  unfold cycle_result, after_invocation, elapsed_at, persist.
  cbn [fs trace clock_reads heartbeat_md_path].
  destruct (invocation self checklist) as [e|[o er]].
  - destruct (is_FileNotFoundError e); reflexivity.
  - unfold bind at 1. unfold time_now at 1.
    cbn [fs trace clock_reads heartbeat_md_path].
    unfold classify.
    destruct (truthy er && negb (truthy o)); [reflexivity|].
    destruct (contains (py "HEARTBEAT_OK") o); reflexivity.
Qed.

(** *** Step 6 in the trace *)

(** The events that record a call of [log] or [_emit]. *)
Definition is_call (e : event) : bool :=
  match e with
  | LogCall _ | EmitCall _ => true
  | _ => false
  end.

(** The events the sinks and the set-up print or post. *)
Definition is_output (e : event) : bool :=
  match e with
  | Print _ _ | HttpPost _ _ => true
  | _ => false
  end.

Definition calls (evs : list event) : list event := List.filter is_call evs.

Lemma calls_app (a b : list event) : calls (a ++ b) = calls a ++ calls b.
Proof. apply List.filter_app. Qed.

Lemma calls_output (evs : list event) :
  forallb is_output evs = true -> calls evs = [].
Proof.
  induction evs as [|e evs IH]; [reflexivity|]. cbn [forallb calls List.filter].
  intros H. apply andb_true_iff in H as [He Hevs].
  destruct e; try discriminate; apply IH, Hevs.
Qed.

(** [log] does not raise: logging is off, or the log file can be opened
    for appending. *)
Definition log_ok (self : HeartbeatRunner) (w : World) : Prop :=
  log_heartbeats (lg_config (logger self)) = false
  \/ open_for_writing (fs w) (resolve env (log_path (logger self))) = None.

(** The remote sink does not raise: it is off, or the request can be
    built and [urlopen] answers or fails with a URLError. *)
Definition remote_ok (self : HeartbeatRunner) : Prop :=
  notify_c3poh (config self) = false
  \/ c3poh_endpoint (config self) = []
  \/ (make_request env (c3poh_endpoint (config self)) = None
      /\ forall payload,
           match urlopen env (c3poh_endpoint (config self)) payload with
           | Responded => True
           | UrlopenRaises e => is_URLError e = true
           end).

Lemma rotate_spec (lg : HeartbeatLogger) (f : filesystem) (t : list event)
    (c : nat) (h : option Path) :
  exists f',
    _rotate_if_needed env lg
      {| fs := f; trace := t; clock_reads := c; heartbeat_md_path := h |}
    = (inr tt,
       {| fs := f'; trace := t; clock_reads := c; heartbeat_md_path := h |}).
Proof.
  unfold _rotate_if_needed, try_except, bind, read_text, fs_query.
  cbn [fs]. destruct (fs_read_text f _) as [e|text]; [eexists; reflexivity|].
  destruct (_ >? _); [|eexists; reflexivity].
  unfold write_text, fs_update. cbn [fs].
  destruct (fs_write_text f _ _); eexists; reflexivity.
Qed.

Lemma log_spec (self : HeartbeatRunner) (r : result) (f : filesystem)
    (t : list event) (c : nat) (h : option Path) :
  let w := {| fs := f; trace := t; clock_reads := c; heartbeat_md_path := h |} in
  exists o f',
    log env (logger self) r w
    = (o, {| fs := f'; trace := t ++ [LogCall r]; clock_reads := c;
             heartbeat_md_path := h |})
    /\ (log_ok self w -> o = inr tt).
Proof.
  intros w. subst w. unfold log, bind, emit_event, log_ok.
  cbn [fs trace clock_reads heartbeat_md_path].
  destruct (log_heartbeats (lg_config (logger self))); cbn [negb].
  - unfold append_text, fs_update, fs_append_text. cbn [fs].
    destruct (open_for_writing f _) as [e|] eqn:Hopen.
    + exists (inl e), f. split; [reflexivity|].
      intros [Hoff | Hnone]; discriminate.
    + destruct (node_at f _) as [[old|]|];
        match goal with
        | |- context [_rotate_if_needed env ?lg (set_fs _ ?f1)] =>
          destruct (rotate_spec lg f1 (t ++ [LogCall r]) c h) as (f' & Hrot);
          exists (inr tt), f'; unfold set_fs;
          cbn [fs trace clock_reads heartbeat_md_path]; rewrite Hrot;
          split; [reflexivity | intros _; reflexivity]
        end.
  - exists (inr tt), f. split; [reflexivity | intros _; reflexivity].
Qed.

Lemma printed_output (t : list event) (msgs : list (stream * str)) :
  forallb is_output (fst (printed t msgs)) = true.
Proof.
  revert t. induction msgs as [|[to text] msgs IH]; intros t;
    cbn [printed]; [reflexivity|].
  destruct (console env t to text); [reflexivity|].
  specialize (IH (t ++ [Print to text])).
  destruct (printed (t ++ [Print to text]) msgs) as [evs o].
  cbn [fst forallb is_output andb] in *. exact IH.
Qed.

Definition outcome_of (o : option exn) : exn + unit :=
  match o with
  | Some e => inl e
  | None => inr tt
  end.

(** The lines [_print_result] prints. *)
Definition result_lines (r : result) : list (stream * str) :=
  (Stdout, [LF] ++ py "[TinMan] " ++ status_icon (status r) ++ py " " ++
           timestamp r ++ py "  (" ++ repr_num (duration_seconds r) ++
           py "s)")
  :: (if truthy (output r) then [(Stdout, output r)] else [])
  ++ (if truthy (error r)
      then [(Stderr, py "[TinMan] ERROR: " ++ error r)] else []).

Lemma print_result_eq (r : result) (f : filesystem) (t : list event)
    (c : nat) (h : option Path) :
  _print_result env r
    {| fs := f; trace := t; clock_reads := c; heartbeat_md_path := h |}
  = (outcome_of (snd (printed t (result_lines r))),
     {| fs := f; trace := t ++ fst (printed t (result_lines r));
        clock_reads := c; heartbeat_md_path := h |}).
Proof.
  unfold _print_result, result_lines. unfold bind at 1. rewrite print_eq.
  cbn [printed app].
  destruct (console env t Stdout _) as [e|];
    [cbn [fst snd outcome_of]; rewrite app_nil_r; reflexivity|].
  destruct (truthy (output r)); cbn [app printed].
  - unfold bind at 1. rewrite print_eq.
    destruct (console env (t ++ [_]) Stdout _) as [e|];
      [cbn [fst snd outcome_of]; reflexivity|].
    destruct (truthy (error r)); cbn [printed].
    + rewrite print_eq.
      destruct (console env ((t ++ [_]) ++ [_]) Stderr _) as [e|];
        cbn [fst snd outcome_of]; rewrite <- ?app_assoc; reflexivity.
    + unfold ret. cbn [fst snd outcome_of]. rewrite <- app_assoc. reflexivity.
  - unfold bind at 1. unfold ret at 1.
    destruct (truthy (error r)); cbn [printed].
    + rewrite print_eq.
      destruct (console env (t ++ [_]) Stderr _) as [e|];
        cbn [fst snd outcome_of]; rewrite <- ?app_assoc; reflexivity.
    + unfold ret. cbn [fst snd outcome_of]. reflexivity.
Qed.

(** The remote sink is switched on. *)
Definition remote_on (self : HeartbeatRunner) : bool :=
  notify_c3poh (config self) && truthy (c3poh_endpoint (config self)).

(** What [_send_c3poh] says when [urlopen] fails with a URLError. *)
Definition failed_line (e : exn) : list (stream * str) :=
  [(Stderr, py "[TinMan] C3Poh notify failed: " ++ exn_str e)].

(** What [_send_c3poh] returns or raises, and what it leaves in the
    trace, with [t] left behind so far. *)
Definition send_outcome (self : HeartbeatRunner) (r : result)
    (t : list event) : exn + unit :=
  let endpoint := c3poh_endpoint (config self) in
  match make_request env endpoint with
  | Some e => inl e
  | None =>
    match urlopen env endpoint (json_dumps_payload r) with
    | Responded => inr tt
    | UrlopenRaises e =>
      if is_URLError e
      then outcome_of
             (snd (printed (t ++ [HttpPost endpoint (json_dumps_payload r)])
                           (failed_line e)))
      else inl e
    end
  end.

Definition send_events (self : HeartbeatRunner) (r : result)
    (t : list event) : list event :=
  let endpoint := c3poh_endpoint (config self) in
  match make_request env endpoint with
  | Some _ => []
  | None =>
    HttpPost endpoint (json_dumps_payload r)
    :: match urlopen env endpoint (json_dumps_payload r) with
       | Responded => []
       | UrlopenRaises e =>
         if is_URLError e
         then fst (printed (t ++ [HttpPost endpoint (json_dumps_payload r)])
                           (failed_line e))
         else []
       end
  end.

Lemma send_c3poh_eq (self : HeartbeatRunner) (r : result) (f : filesystem)
    (t : list event) (c : nat) (h : option Path) :
  _send_c3poh env self r
    {| fs := f; trace := t; clock_reads := c; heartbeat_md_path := h |}
  = (send_outcome self r t,
     {| fs := f; trace := t ++ send_events self r t; clock_reads := c;
        heartbeat_md_path := h |}).
Proof.
  unfold _send_c3poh, send_outcome, send_events. cbv zeta.
  destruct (make_request env _) as [e|].
  - unfold raise. rewrite app_nil_r. reflexivity.
  - unfold bind, emit_event. cbn [fs trace clock_reads heartbeat_md_path].
    destruct (urlopen env _ _) as [|e]; [reflexivity|].
    destruct (is_URLError e); [|reflexivity].
    rewrite print_eq. unfold failed_line. cbn [printed].
    destruct (console env _ Stderr _) as [e'|];
      cbn [fst snd outcome_of]; rewrite <- ?app_assoc; reflexivity.
Qed.

(** What [_print_result] shows when the console sink is on. *)
Definition shown (self : HeartbeatRunner) (r : result) (t : list event)
  : list event * option exn :=
  if notify_stdout (config self)
  then printed (t ++ [EmitCall r]) (result_lines r)
  else ([], None).

(** What [_emit] returns or raises, and what it leaves in the trace after
    the record of its call. *)
Definition emit_outcome (self : HeartbeatRunner) (r : result)
    (t : list event) : exn + unit :=
  match snd (shown self r t) with
  | Some e => inl e
  | None =>
    if remote_on self
    then send_outcome self r ((t ++ [EmitCall r]) ++ fst (shown self r t))
    else inr tt
  end.

Definition emit_events (self : HeartbeatRunner) (r : result)
    (t : list event) : list event :=
  fst (shown self r t)
  ++ match snd (shown self r t) with
     | Some _ => []
     | None =>
       if remote_on self
       then send_events self r ((t ++ [EmitCall r]) ++ fst (shown self r t))
       else []
     end.

Lemma emit_eq (self : HeartbeatRunner) (r : result) (f : filesystem)
    (t : list event) (c : nat) (h : option Path) :
  _emit env self r
    {| fs := f; trace := t; clock_reads := c; heartbeat_md_path := h |}
  = (emit_outcome self r t,
     {| fs := f; trace := t ++ EmitCall r :: emit_events self r t;
        clock_reads := c; heartbeat_md_path := h |}).
Proof.
  unfold _emit, emit_outcome, emit_events, shown. fold (remote_on self).
  unfold bind at 1. unfold emit_event.
  cbn [fs trace clock_reads heartbeat_md_path].
  unfold bind.
  destruct (notify_stdout (config self)).
  - rewrite print_result_eq.
    destruct (printed (t ++ [EmitCall r]) (result_lines r)) as [evs [e|]];
      cbn [fst snd outcome_of].
    + rewrite app_nil_r, <- app_assoc. reflexivity.
    + destruct (remote_on self).
      * rewrite send_c3poh_eq. rewrite <- !app_assoc. reflexivity.
      * unfold ret. rewrite app_nil_r, <- app_assoc. reflexivity.
  - unfold ret at 1. cbn [fst snd app]. destruct (remote_on self).
    + rewrite send_c3poh_eq. rewrite app_nil_r, <- !app_assoc. reflexivity.
    + reflexivity.
Qed.

Lemma send_events_output (self : HeartbeatRunner) (r : result)
    (t : list event) :
  forallb is_output (send_events self r t) = true.
Proof.
  unfold send_events. cbv zeta.
  destruct (make_request env _); [reflexivity|].
  cbn [forallb is_output andb].
  destruct (urlopen env _ _) as [|e]; [reflexivity|].
  destruct (is_URLError e); [apply printed_output | reflexivity].
Qed.

Lemma emit_events_output (self : HeartbeatRunner) (r : result)
    (t : list event) :
  forallb is_output (emit_events self r t) = true.
Proof.
  unfold emit_events, shown. rewrite forallb_app.
  apply andb_true_iff. split.
  - destruct (notify_stdout (config self));
      [apply printed_output | reflexivity].
  - destruct (snd _); [reflexivity|].
    destruct (remote_on self); [apply send_events_output | reflexivity].
Qed.

Lemma emit_outcome_ok (self : HeartbeatRunner) (r : result) (t : list event) :
  console_ok -> remote_ok self -> emit_outcome self r t = inr tt.
Proof.
  intros Hconsole Hremote. unfold emit_outcome, shown.
  assert (Hshown : snd (if notify_stdout (config self)
                        then printed (t ++ [EmitCall r]) (result_lines r)
                        else ([], None)) = None).
  { destruct (notify_stdout (config self)); [|reflexivity].
    rewrite (printed_ok _ _ Hconsole). reflexivity. }
  rewrite Hshown. unfold remote_on, send_outcome. cbv zeta.
  destruct (notify_c3poh (config self)) eqn:Hnotify; [|reflexivity].
  destruct (c3poh_endpoint (config self)) as [|a u] eqn:Hend; [reflexivity|].
  cbn [andb truthy].
  destruct Hremote as [Hoff | [Hempty | [Hreq Hopen]]];
    [congruence | congruence |].
  rewrite Hend in Hreq, Hopen. rewrite Hreq.
  specialize (Hopen (json_dumps_payload r)).
  destruct (urlopen env (a :: u) (json_dumps_payload r)) as [|e];
    [reflexivity|].
  rewrite Hopen, (printed_ok _ _ Hconsole). reflexivity.
Qed.

Lemma emit_spec (self : HeartbeatRunner) (r : result) (f : filesystem)
    (t : list event) (c : nat) (h : option Path) :
  exists o evs,
    _emit env self r
      {| fs := f; trace := t; clock_reads := c; heartbeat_md_path := h |}
    = (o, {| fs := f; trace := t ++ EmitCall r :: evs; clock_reads := c;
             heartbeat_md_path := h |})
    /\ forallb is_output evs = true
    /\ (console_ok -> remote_ok self -> o = inr tt).
Proof.
  exists (emit_outcome self r t), (emit_events self r t).
  split; [apply emit_eq|]. split; [apply emit_events_output|].
  apply emit_outcome_ok.
Qed.

(** Step 6 calls [log], then [_emit], once each, with the result it is
    given; it returns that result unless [log] or a sink raises. *)
Lemma persist_spec (self : HeartbeatRunner) (r : result) (w : World) :
  exists o w' evs,
    persist self r w = (o, w')
    /\ trace w' = trace w ++ evs
    /\ (calls evs = [LogCall r; EmitCall r] \/ calls evs = [LogCall r])
    /\ forallb (fun e => is_call e || is_output e) evs = true
    /\ (forall r', o = inr r' -> r' = r)
    /\ (log_ok self w -> console_ok -> remote_ok self ->
        o = inr r /\ calls evs = [LogCall r; EmitCall r]).
Proof.
  destruct w as [f t c h]. unfold persist. unfold bind at 1.
  destruct (log_spec self r f t c h) as (o1 & f' & Hlog & Hlogok).
  rewrite Hlog. destruct o1 as [e|[]].
  - exists (inl e). eexists. exists [LogCall r]. split; [reflexivity|].
    split; [reflexivity|]. split; [right; reflexivity|].
    split; [reflexivity|]. split; [discriminate|].
    intros H _ _. specialize (Hlogok H). discriminate.
  - unfold bind at 1.
    destruct (emit_spec self r f' (t ++ [LogCall r]) c h)
      as (o2 & evs & Hemit & Hout & Hemitok).
    rewrite Hemit.
    assert (Hcalls : calls (LogCall r :: EmitCall r :: evs)
                     = [LogCall r; EmitCall r]).
    { change (LogCall r :: EmitCall r :: evs)
        with ([LogCall r; EmitCall r] ++ evs).
      rewrite calls_app, (calls_output evs Hout). reflexivity. }
    assert (Hall : forallb (fun e => is_call e || is_output e)
                     (LogCall r :: EmitCall r :: evs) = true).
    { cbn [forallb is_call orb andb]. rewrite forallb_forall in Hout |- *.
      intros e He. rewrite (Hout e He). apply orb_true_r. }
    destruct o2 as [e|[]].
    + exists (inl e). eexists. exists (LogCall r :: EmitCall r :: evs).
      split; [reflexivity|]. cbn [trace]. rewrite <- app_assoc.
      split; [reflexivity|]. split; [left; exact Hcalls|].
      split; [exact Hall|]. split; [discriminate|].
      intros _ Hc H. specialize (Hemitok Hc H). discriminate.
    + exists (inr r). eexists. exists (LogCall r :: EmitCall r :: evs).
      split; [reflexivity|]. cbn [trace]. rewrite <- app_assoc.
      split; [reflexivity|]. split; [left; exact Hcalls|].
      split; [exact Hall|]. split; [congruence|].
      intros _ _ _. split; [reflexivity | exact Hcalls].
Qed.

Lemma ensure_trace (self : HeartbeatRunner) (w : World) :
  exists pre,
    trace (snd (ensure_heartbeat_md env self w)) = trace w ++ pre
    /\ forallb is_output pre = true.
Proof.
  destruct (checklist_path (config self)) as [e|p] eqn:Hp.
  - exists []. rewrite app_nil_r. split; [|reflexivity].
    unfold checklist_path in Hp. unfold ensure_heartbeat_md, bind, lift.
    destruct (expanduser _ _); [reflexivity | discriminate].
  - destruct (checklist_path_absolute _ _ Hp) as (ps & ->).
    destruct (exists_at (fs w) (resolve env (Abs ps))) eqn:Hex.
    + rewrite (ensure_existing self w _ Hp Hex). exists [].
      rewrite app_nil_r. split; reflexivity.
    + rewrite (ensure_missing self w ps Hp Hex).
      destruct (mkdir_parents _ _ _) as [e|f1].
      { exists []. rewrite app_nil_r. split; reflexivity. }
      destruct (fs_write_text _ _ _) as [e|f2].
      { exists []. rewrite app_nil_r. split; reflexivity. }
      pose proof (printed_output (trace w) (created_lines ps)) as Hout.
      destruct (printed (trace w) (created_lines ps)) as [evs [e|]];
        exists evs; split; first [reflexivity | exact Hout].
Qed.

(** The result a cycle hands to step 6. *)
Definition final_result (self : HeartbeatRunner) (checklist : str) (w0 : World)
  : result :=
  if truthy (strip checklist)
  then cycle_result self checklist (elapsed_at w0)
  else skipped_result.

(** What the invocation step leaves in the trace. *)
Definition step_events (self : HeartbeatRunner) (checklist : str) : list event :=
  if truthy (strip checklist) then invocation_events self checklist else [].

(** Every cycle either stops while the checklist is set up and read, with
    nothing logged or emitted, or reaches step 6 with its result. *)
Lemma run_beat_cases (self : HeartbeatRunner) (w : World) :
  (exists e pre,
     fst (run_beat env self w) = inl e
     /\ trace (snd (run_beat env self w)) = trace w ++ pre
     /\ forallb is_output pre = true
     /\ (forall p w0 checklist,
           ensure_heartbeat_md env self w = (inr p, w0) ->
           fs_read_text (fs w0) (resolve env p) = inr checklist -> False))
  \/ (exists p w0 checklist pre evs,
        ensure_heartbeat_md env self w = (inr p, w0)
        /\ fs_read_text (fs w0) (resolve env p) = inr checklist
        /\ trace w0 = trace w ++ pre
        /\ forallb is_output pre = true
        /\ trace (snd (run_beat env self w))
           = trace w0 ++ step_events self checklist ++ evs
        /\ (calls evs = [LogCall (final_result self checklist w0);
                         EmitCall (final_result self checklist w0)]
            \/ calls evs = [LogCall (final_result self checklist w0)])
        /\ forallb (fun e => is_call e || is_output e) evs = true
        /\ (forall r', fst (run_beat env self w) = inr r' ->
                       r' = final_result self checklist w0)
        /\ (log_ok self w0 -> console_ok -> remote_ok self ->
            fst (run_beat env self w) = inr (final_result self checklist w0)
            /\ calls evs = [LogCall (final_result self checklist w0);
                            EmitCall (final_result self checklist w0)])).
Proof.
  rewrite run_beat_eq.
  destruct (ensure_trace self w) as (pre & Hpre & Hout).
  destruct (ensure_heartbeat_md env self w) as [[e|p] w0] eqn:Hens.
  { left. exists e, pre. cbn [fst snd] in *.
    split; [reflexivity|]. split; [exact Hpre|]. split; [exact Hout|].
    intros ? ? ? [=]. }
  cbn [snd] in Hpre.
  destruct (fs_read_text (fs w0) (resolve env p)) as [e|checklist] eqn:Hread.
  { left. exists e, pre. cbn [fst snd].
    split; [reflexivity|]. split; [exact Hpre|]. split; [exact Hout|].
    intros p' w0' c' [= <- <-]. congruence. }
  right. exists p, w0, checklist, pre.
  unfold final_result, step_events.
  destruct (truthy (strip checklist)).
  - destruct (persist_spec self (cycle_result self checklist (elapsed_at w0))
                (after_invocation w0 (invocation_events self checklist)))
      as (o & w' & evs & Hper & Htr & Hcalls & Hall & Hret & Hok).
    rewrite Hper. cbn [fst snd]. exists evs.
    split; [reflexivity|]. split; [exact Hread|]. split; [exact Hpre|].
    split; [exact Hout|].
    split; [rewrite Htr; cbn [after_invocation trace];
            rewrite <- app_assoc; reflexivity|].
    split; [exact Hcalls|]. split; [exact Hall|]. split; [exact Hret|].
    exact Hok.
  - destruct (persist_spec self skipped_result w0)
      as (o & w' & evs & Hper & Htr & Hcalls & Hall & Hret & Hok).
    rewrite Hper. cbn [fst snd]. exists evs.
    split; [reflexivity|]. split; [exact Hread|]. split; [exact Hpre|].
    split; [exact Hout|]. split; [rewrite Htr; reflexivity|].
    split; [exact Hcalls|]. split; [exact Hall|]. split; [exact Hret|].
    exact Hok.
Qed.

(** *** What a cycle produces *)

(** The statuses a result may be persisted with. *)
Definition final_status (st : str) : Prop :=
  st = py "ok" \/ st = py "alert" \/ st = py "error" \/ st = py "skipped_empty".

Lemma final_status_not_unknown st : final_status st -> st <> py "unknown".
Proof.
  intros [H|[H|[H|H]]] Heq; rewrite H in Heq; vm_compute in Heq; discriminate.
Qed.

Lemma final_result_status (self : HeartbeatRunner) checklist w0 :
  final_status (status (final_result self checklist w0)).
Proof.
  unfold final_result, cycle_result, skipped_result, classify, final_status.
  destruct (truthy (strip checklist)); cbn [status]; [|tauto].
  destruct (invocation self checklist) as [e|[o er]]; cbn [status]; [tauto|].
  destruct (truthy er && negb (truthy o)); [tauto|].
  destruct (contains _ o); tauto.
Qed.

Lemma in_calls (e : event) (evs : list event) :
  In e evs -> is_call e = true -> In e (calls evs).
Proof. intros Hin Hcall. apply List.filter_In. split; assumption. Qed.

Lemma output_not_call (e : event) (evs : list event) :
  forallb is_output evs = true -> In e evs -> is_call e = true -> False.
Proof.
  intros Hall Hin Hcall. rewrite forallb_forall in Hall.
  specialize (Hall e Hin). destruct e; discriminate.
Qed.

Lemma step_events_not_call (self : HeartbeatRunner) checklist (e : event) :
  In e (step_events self checklist) -> is_call e = true -> False.
Proof.
  unfold step_events, invocation_events.
  destruct (truthy _); [|intros []].
  destruct tool; [|intros []].
  intros [<-|[]]. discriminate.
Qed.

(** The calls recorded by a cycle that reached step 6 carry its result. *)
Lemma call_carries_result (r : result) (evs : list event) (e : event) :
  calls evs = [LogCall r; EmitCall r] \/ calls evs = [LogCall r] ->
  In e evs -> is_call e = true -> e = LogCall r \/ e = EmitCall r.
Proof.
  intros Hcalls Hin Hcall. apply (in_calls e evs Hin) in Hcall.
  destruct Hcalls as [H|H]; rewrite H in Hcall; cbn in Hcall; intuition.
Qed.

(** C5. Whatever the configuration and the world, every result that a
    cycle hands to [HeartbeatLogger.log], hands to the sinks or returns
    has one of the statuses ok, alert, error, skipped_empty; the initial
    status, unknown, is never among them. *)
Theorem run_beat_status_classified (self : HeartbeatRunner) (w : World) :
  exists new,
    trace (snd (run_beat env self w)) = trace w ++ new
    /\ forall r,
         In (LogCall r) new \/ In (EmitCall r) new
         \/ fst (run_beat env self w) = inr r ->
         final_status (status r) /\ status r <> py "unknown".
Proof.
  destruct (run_beat_cases self w)
    as [(e & pre & Hfst & Htr & Hout & _)
       |(p & w0 & checklist & pre & evs & _ & _ & Hpre & Hout & Htr
           & Hcalls & _ & Hret & _)].
  - exists pre. split; [exact Htr|]. intros r [Hin|[Hin|Hr]].
    + destruct (output_not_call _ _ Hout Hin eq_refl).
    + destruct (output_not_call _ _ Hout Hin eq_refl).
    + congruence.
  - exists (pre ++ step_events self checklist ++ evs).
    split; [rewrite Htr, Hpre, <- app_assoc; reflexivity|].
    assert (Hcall : forall e, In e (pre ++ step_events self checklist ++ evs) ->
                      is_call e = true ->
                      e = LogCall (final_result self checklist w0)
                      \/ e = EmitCall (final_result self checklist w0)).
    { intros e Hin Hc. apply in_app_or in Hin as [Hin|Hin].
      - destruct (output_not_call _ _ Hout Hin Hc).
      - apply in_app_or in Hin as [Hin|Hin].
        + destruct (step_events_not_call _ _ _ Hin Hc).
        + apply (call_carries_result _ _ _ Hcalls Hin Hc). }
    assert (Hfinal : forall r, r = final_result self checklist w0 ->
              final_status (status r) /\ status r <> py "unknown").
    { intros r ->. split; [|apply final_status_not_unknown];
        apply final_result_status. }
    intros r [Hin|[Hin|Hr]]; apply Hfinal.
    + destruct (Hcall _ Hin eq_refl) as [H|H]; congruence.
    + destruct (Hcall _ Hin eq_refl) as [H|H]; congruence.
    + apply Hret, Hr.
Qed.

Lemma invoke_claude_outcome (self : HeartbeatRunner) checklist (wi : World) :
  fst (_invoke_claude env self checklist wi) = invocation self checklist.
Proof. destruct wi. rewrite invoke_claude_eq. reflexivity. Qed.

Lemma calls_of_cycle (self : HeartbeatRunner) checklist
    (pre evs : list event) (r : result) :
  forallb is_output pre = true ->
  calls evs = [LogCall r; EmitCall r] ->
  calls (pre ++ step_events self checklist ++ evs) = [LogCall r; EmitCall r].
Proof.
  intros Hout Hcalls. rewrite !calls_app, (calls_output pre Hout), Hcalls.
  unfold step_events, invocation_events.
  destruct (truthy _); [|reflexivity]. destruct tool; reflexivity.
Qed.

(** C2, as the code has it. When the checklist can be set up and read,
    [log] can append (or logging is off), the console takes what is
    printed and the remote sink is off or fails with nothing but a
    URLError, the cycle returns a result, and
    its trace shows exactly one call of [log] followed by exactly one
    call of [_emit], both with the result returned, on each of its paths:
    empty checklist (status skipped_empty), and invocation, where any
    exception of [_invoke_claude] (tool not found, time-out, fault of the
    subprocess) gives status error with the duration
    [round(elapsed, 2)] of the clock readings around the invocation. *)
Theorem run_beat_reaches_step6_once (self : HeartbeatRunner) (w w0 : World)
    (p : Path) (checklist : str) :
  ensure_heartbeat_md env self w = (inr p, w0) ->
  fs_read_text (fs w0) (resolve env p) = inr checklist ->
  log_ok self w0 ->
  console_ok ->
  remote_ok self ->
  exists r new,
    fst (run_beat env self w) = inr r
    /\ trace (snd (run_beat env self w)) = trace w ++ new
    /\ calls new = [LogCall r; EmitCall r]
    /\ (truthy (strip checklist) = false -> status r = py "skipped_empty")
    /\ (truthy (strip checklist) = true ->
        forall e wi,
          fst (_invoke_claude env self checklist wi) = inl e ->
          status r = py "error"
          /\ error r = (if is_FileNotFoundError e then MSG_NOT_FOUND
                        else exn_str e)
          /\ duration_seconds r
             = PyFloat2 (round2 (time_time env (S (clock_reads w0))
                                 - time_time env (clock_reads w0)))).
Proof.
  intros Hens Hread Hlog Hconsole Hremote.
  destruct (run_beat_cases self w)
    as [(e & pre & _ & _ & _ & Hno)
       |(p' & w0' & checklist' & pre & evs & Hens' & Hread' & Hpre & Hout
           & Htr & _ & _ & _ & Hok)].
  { destruct (Hno _ _ _ Hens Hread). }
  rewrite Hens in Hens'. injection Hens' as <- <-.
  rewrite Hread in Hread'. injection Hread' as <-.
  destruct (Hok Hlog Hconsole Hremote) as [Hfst Hcalls].
  exists (final_result self checklist w0),
         (pre ++ step_events self checklist ++ evs).
  split; [exact Hfst|].
  split; [rewrite Htr, Hpre, <- app_assoc; reflexivity|].
  split; [apply calls_of_cycle; assumption|].
  unfold final_result. split.
  - intros ->. reflexivity.
  - intros -> e wi Hraise. rewrite invoke_claude_outcome in Hraise.
    unfold cycle_result, elapsed_at. rewrite Hraise. cbn.
    split; [reflexivity|]. split; reflexivity.
Qed.

(** C1, as the code has it. When the tool is found and the subprocess
    completes, the result of the cycle (the one handed to [log], and
    returned whenever [log] and the sinks do not raise) has output the
    trimmed stdout, error the trimmed stderr, and status error if the
    TRIMMED stderr is non-empty and the TRIMMED stdout is empty,
    otherwise ok if the trimmed stdout contains HEARTBEAT_OK, otherwise
    alert. *)
Theorem run_beat_classifies (self : HeartbeatRunner) (w w0 : World) (p : Path)
    (checklist bin stdout stderr : str) :
  ensure_heartbeat_md env self w = (inr p, w0) ->
  fs_read_text (fs w0) (resolve env p) = inr checklist ->
  truthy (strip checklist) = true ->
  which env (py "claude") = Some bin ->
  truthy bin = true ->
  subprocess_run env
    [bin; py "--print"; _safety_prefix self ++ PROMPT_SEPARATOR ++ checklist]
  = Completed stdout stderr ->
  exists r new,
    trace (snd (run_beat env self w)) = trace w ++ new
    /\ In (LogCall r) new
    /\ (forall r', fst (run_beat env self w) = inr r' -> r' = r)
    /\ (log_ok self w0 -> console_ok -> remote_ok self ->
        fst (run_beat env self w) = inr r)
    /\ status r
       = (if truthy (strip stderr) && negb (truthy (strip stdout))
          then py "error"
          else if contains (py "HEARTBEAT_OK") (strip stdout) then py "ok"
          else py "alert")
    /\ output r = strip stdout
    /\ error r = strip stderr.
Proof.
  intros Hens Hread Hfull Hwhich Hbin Hrun.
  destruct (run_beat_cases self w)
    as [(e & pre & _ & _ & _ & Hno)
       |(p' & w0' & checklist' & pre & evs & Hens' & Hread' & Hpre & Hout
           & Htr & Hcalls & _ & Hret & Hok)].
  { destruct (Hno _ _ _ Hens Hread). }
  rewrite Hens in Hens'. injection Hens' as <- <-.
  rewrite Hread in Hread'. injection Hread' as <-.
  exists (final_result self checklist w0),
         (pre ++ step_events self checklist ++ evs).
  split; [rewrite Htr, Hpre, <- app_assoc; reflexivity|].
  split.
  { apply in_or_app. right. apply in_or_app. right.
    assert (Hin : In (LogCall (final_result self checklist w0)) (calls evs))
      by (destruct Hcalls as [-> | ->]; left; reflexivity).
    apply List.filter_In in Hin. apply Hin. }
  split; [exact Hret|].
  split; [intros Hl Hc Hr; apply (Hok Hl Hc Hr)|].
  unfold final_result, cycle_result, invocation, tool, command_of, prompt_of.
  rewrite Hfull, Hwhich, Hbin, Hrun. cbn [status output error].
  split; [reflexivity|]. split; reflexivity.
Qed.

Lemma round2_small (us : Z) : -5000 <= us <= 5000 -> round2 us = 0.
Proof.
  intros H. unfold round2.
  pose proof (Z.div_mod us 10000 ltac:(lia)) as Hdm.
  pose proof (Z.mod_pos_bound us 10000 ltac:(lia)) as Hb.
  assert (Hq : us / 10000 = 0 \/ us / 10000 = -1) by lia.
  destruct (Z.ltb_spec (us mod 10000) 5000);
    destruct (Z.ltb_spec 5000 (us mod 10000));
    destruct Hq as [Hq|Hq]; rewrite ?Hq in *; cbn; lia.
Qed.

(** C7, as the code has it. When [shutil.which] does not find the tool,
    the cycle starts no subprocess and its result has status error, the
    fixed message that tells how to install the tool, and as duration the
    time the failed lookup took, [round(elapsed, 2)] of the two clock
    readings around it: zero whenever they are at most 5 ms apart. *)
Theorem tool_not_found_is_error (self : HeartbeatRunner) (w w0 : World)
    (p : Path) (checklist : str) :
  ensure_heartbeat_md env self w = (inr p, w0) ->
  fs_read_text (fs w0) (resolve env p) = inr checklist ->
  truthy (strip checklist) = true ->
  which env (py "claude") = None ->
  exists r new,
    trace (snd (run_beat env self w)) = trace w ++ new
    /\ In (LogCall r) new
    /\ (forall cmd, ~ In (SubprocessRun cmd) new)
    /\ (forall r', fst (run_beat env self w) = inr r' -> r' = r)
    /\ (log_ok self w0 -> console_ok -> remote_ok self ->
        fst (run_beat env self w) = inr r)
    /\ status r = py "error"
    /\ error r = MSG_NOT_FOUND
    /\ contains (py "Install") (error r) = true
    /\ duration_seconds r
       = PyFloat2 (round2 (time_time env (S (clock_reads w0))
                           - time_time env (clock_reads w0)))
    /\ (-5000 <= time_time env (S (clock_reads w0))
                 - time_time env (clock_reads w0) <= 5000 ->
        num_is_zero (duration_seconds r) = true).
Proof.
  intros Hens Hread Hfull Hwhich.
  destruct (run_beat_cases self w)
    as [(e & pre & _ & _ & _ & Hno)
       |(p' & w0' & checklist' & pre & evs & Hens' & Hread' & Hpre & Hout
           & Htr & Hcalls & Hall & Hret & Hok)].
  { destruct (Hno _ _ _ Hens Hread). }
  rewrite Hens in Hens'. injection Hens' as <- <-.
  rewrite Hread in Hread'. injection Hread' as <-.
  assert (Hsteps : step_events self checklist = []).
  { unfold step_events, invocation_events, tool.
    rewrite Hfull, Hwhich. reflexivity. }
  exists (final_result self checklist w0), (pre ++ evs).
  split; [rewrite Htr, Hpre, Hsteps, <- app_assoc; reflexivity|].
  split.
  { apply in_or_app. right.
    assert (Hin : In (LogCall (final_result self checklist w0)) (calls evs))
      by (destruct Hcalls as [-> | ->]; left; reflexivity).
    apply List.filter_In in Hin. apply Hin. }
  split.
  { intros cmd Hin. apply in_app_or in Hin as [Hin|Hin].
    - rewrite forallb_forall in Hout. specialize (Hout _ Hin). discriminate.
    - rewrite forallb_forall in Hall. specialize (Hall _ Hin). discriminate. }
  split; [exact Hret|].
  split; [intros Hl Hc Hr; apply (Hok Hl Hc Hr)|].
  unfold final_result, cycle_result, invocation, tool, elapsed_at.
  rewrite Hfull, Hwhich.
  cbn [status error duration_seconds is_FileNotFoundError exn_class_of].
  split; [reflexivity|]. split; [reflexivity|].
  split; [vm_compute; reflexivity|]. split; [reflexivity|].
  intros Hsmall. cbn [num_is_zero]. rewrite round2_small by exact Hsmall.
  reflexivity.
Qed.

(** C8. The safety prefix is empty exactly when [notify_only] is off,
    [max_actions_per_run] is not zero and [require_confirmation] is off;
    otherwise its lines are the fixed header followed by one bulleted
    advisory per active flag, in the order of the flags. The prompt of
    every subprocess a cycle starts is the prefix, the separator (two
    line feeds, three dashes, two line feeds) and the text of the
    checklist as read. And the tool is invoked: when it is found,
    [_invoke_claude] runs the executable with [--print] and that prompt,
    and returns or raises what this command gives; a cycle whose
    checklist is not blank starts exactly this one subprocess, right
    after the set-up. *)
Theorem safety_prefix_and_prompt (self : HeartbeatRunner) :
  (_safety_prefix self = [] <->
   notify_only (config self) = false
   /\ max_actions_per_run (config self) <> 0
   /\ require_confirmation (config self) = false)
  /\ (_safety_prefix self <> [] ->
      splitlines false (_safety_prefix self)
      = SAFETY_HEADER ::
        map (fun m => py "- " ++ m)
            ((if notify_only (config self) then [ADVISORY_NOTIFY_ONLY] else [])
             ++ (if max_actions_per_run (config self) =? 0
                 then [ADVISORY_NO_SHELL] else [])
             ++ (if require_confirmation (config self)
                 then [ADVISORY_CONFIRM] else [])))
  /\ PROMPT_SEPARATOR = [LF; LF; 45%N; 45%N; 45%N; LF; LF]
  /\ (forall w, exists new,
        trace (snd (run_beat env self w)) = trace w ++ new
        /\ forall cmd,
             In (SubprocessRun cmd) new ->
             exists bin p w0 checklist,
               ensure_heartbeat_md env self w = (inr p, w0)
               /\ fs_read_text (fs w0) (resolve env p) = inr checklist
               /\ cmd = [bin; py "--print";
                         _safety_prefix self ++ PROMPT_SEPARATOR ++ checklist])
  /\ (forall bin checklist wi,
        which env (py "claude") = Some bin ->
        truthy bin = true ->
        let cmd := [bin; py "--print";
                    _safety_prefix self ++ PROMPT_SEPARATOR ++ checklist] in
        _invoke_claude env self checklist wi
        = (match subprocess_run env cmd with
           | Completed stdout stderr => inr (strip stdout, strip stderr)
           | RunRaises e => inl e
           end,
           {| fs := fs wi; trace := trace wi ++ [SubprocessRun cmd];
              clock_reads := clock_reads wi;
              heartbeat_md_path := heartbeat_md_path wi |}))
  /\ (forall w w0 p checklist bin,
        ensure_heartbeat_md env self w = (inr p, w0) ->
        fs_read_text (fs w0) (resolve env p) = inr checklist ->
        truthy (strip checklist) = true ->
        which env (py "claude") = Some bin ->
        truthy bin = true ->
        exists after,
          trace (snd (run_beat env self w))
          = trace w0
            ++ SubprocessRun
                 [bin; py "--print";
                  _safety_prefix self ++ PROMPT_SEPARATOR ++ checklist]
               :: after
          /\ forall cmd, ~ In (SubprocessRun cmd) after).
Proof.
  split; [|split; [|split; [reflexivity|split; [|split]]]].
  - unfold _safety_prefix, safety_mode.
    destruct (notify_only (config self)),
             (Z.eqb_spec (max_actions_per_run (config self)) 0),
             (require_confirmation (config self));
      cbn [app]; split;
      try (intros H; vm_compute in H; discriminate);
      try (intros (H1 & H2 & H3); congruence);
      try (intros _; repeat split; assumption || reflexivity);
      try reflexivity.
  - unfold _safety_prefix, safety_mode. intros Hne.
    destruct (notify_only (config self)),
             (max_actions_per_run (config self) =? 0),
             (require_confirmation (config self));
      try (exfalso; apply Hne; reflexivity);
      vm_compute; reflexivity.
  - intros w.
    destruct (run_beat_cases self w)
      as [(e & pre & _ & Htr & Hout & _)
         |(p & w0 & checklist & pre & evs & Hens & Hread & Hpre & Hout
             & Htr & _ & Hall & _ & _)].
    + exists pre. split; [exact Htr|]. intros cmd Hin.
      rewrite forallb_forall in Hout. specialize (Hout _ Hin). discriminate.
    + exists (pre ++ step_events self checklist ++ evs).
      split; [rewrite Htr, Hpre, <- app_assoc; reflexivity|].
      intros cmd Hin. apply in_app_or in Hin as [Hin|Hin].
      { rewrite forallb_forall in Hout. specialize (Hout _ Hin). discriminate. }
      apply in_app_or in Hin as [Hin|Hin].
      2:{ rewrite forallb_forall in Hall. specialize (Hall _ Hin). discriminate. }
      unfold step_events, invocation_events in Hin.
      destruct (truthy (strip checklist)); [|destruct Hin].
      destruct tool as [bin|]; [|destruct Hin].
      destruct Hin as [[= <-]|[]].
      exists bin, p, w0, checklist. split; [exact Hens|].
      split; [exact Hread | reflexivity].
  - intros bin checklist wi Hwhich Hbin cmd. destruct wi as [f t c h].
    rewrite invoke_claude_eq. unfold invocation, invocation_events, tool.
    rewrite Hwhich, Hbin. reflexivity.
  - intros w w0 p checklist bin Hens Hread Hfull Hwhich Hbin.
    destruct (run_beat_cases self w)
      as [(e & pre & _ & _ & _ & Hno)
         |(p' & w0' & checklist' & pre & evs & Hens' & Hread' & _ & _
             & Htr & _ & Hall & _ & _)].
    { destruct (Hno _ _ _ Hens Hread). }
    rewrite Hens in Hens'. injection Hens' as <- <-.
    rewrite Hread in Hread'. injection Hread' as <-.
    exists evs. split.
    + rewrite Htr. unfold step_events, invocation_events, tool.
      rewrite Hfull, Hwhich, Hbin. reflexivity.
    + intros cmd Hin. rewrite forallb_forall in Hall.
      specialize (Hall _ Hin). discriminate.
Qed.

End RunnerProperties.

(** * The theorems at work on sample worlds *)

(** The sample worlds use short names: the working directory is [/w],
    the home directory [/h], the checklist [H.md] and the log file
    [~/t/log]. *)

(** An environment where the tool, when found, prints [stdout] and
    [stderr], and the two clock readings of a cycle are [elapsed]
    microseconds apart. *)
Definition sample_env (tool_path : option str) (stdout stderr : str)
    (elapsed : Z) : Env :=
  {| cwd := [py "w"];
     homedir := fun user => match user with
                            | [] => Some [py "h"; py "u"]
                            | _ => None
                            end;
     utcnow_isoformat := py "2025-01-01T00:00:00";
     time_time := fun n => Z.of_nat n * elapsed;
     which := fun _ => tool_path;
     subprocess_run := fun _ => Completed stdout stderr;
     make_request := fun _ => None;
     urlopen := fun _ _ => Responded;
     console := fun _ _ _ => None;
     int_max_str_digits := 4300;
     recursion_room := 100 |}.

Definition sample_config : TinManConfig :=
  {| interval_minutes := 30; run_on_start := true;
     notify_only := true; max_actions_per_run := 0;
     require_confirmation := true;
     log_heartbeats := true; log_file := py "~/t/log";
     max_log_lines := 2;
     notify_stdout := true; notify_c3poh := false; c3poh_endpoint := [];
     heartbeat_md := py "H.md"; allowed_commands := [];
     preset := py "sane" |}.

Definition sample_log_path : Path :=
  Abs [py "h"; py "u"; py "t"; py "log"].

Definition sample_logger : HeartbeatLogger :=
  {| lg_config := sample_config; log_path := sample_log_path |}.

Definition sample_runner : HeartbeatRunner :=
  {| config := sample_config; logger := sample_logger |}.

(** The directories of the sample worlds. *)
Definition sample_dirs : filesystem :=
  <[ [py "w"] := Dir ]>
  (<[ [py "h"] := Dir ]>
  (<[ [py "h"; py "u"] := Dir ]>
  (<[ [py "h"; py "u"; py "t"] := Dir ]> ∅))).

Definition world_of (f : filesystem) : World :=
  {| fs := f; trace := []; clock_reads := 0; heartbeat_md_path := None |}.

(** A world with a checklist of one line. *)
Definition sample_world : World :=
  world_of (<[ [py "w"; py "H.md"] := File (py "Check the disk.") ]>
            sample_dirs).

(** A world with no checklist yet. *)
Definition bare_world : World := world_of sample_dirs.

(** A world where the checklist path is a directory. *)
Definition directory_world : World :=
  world_of (<[ [py "w"; py "H.md"] := Dir ]> sample_dirs).

Definition sample_result (st : string) : result :=
  {| timestamp := py "2025-01-01T00:00:00Z"; status := py st;
     output := py "HEARTBEAT_OK"; error := [];
     duration_seconds := PyFloat2 100 |}.
Arguments sample_result st%_string.

(** A log file of two lines, the second one not JSON. *)
Definition mixed_log : str := py "{}" ++ [LF] ++ py "oops" ++ [LF].

Definition mixed_log_world : World :=
  world_of (<[ [py "h"; py "u"; py "t"; py "log"]
               := File mixed_log ]> sample_dirs).

(** C1 as stated: the test of the first case on the captured streams. *)
Definition claimed_status (stdout stderr : str) : str :=
  if truthy stderr && negb (truthy stdout) then py "error"
  else if contains (py "HEARTBEAT_OK") (strip stdout) then py "ok"
  else py "alert".

(** C1 fails as stated: a tool that writes a lone line feed to stderr and
    nothing to stdout has a non-empty captured stderr and an empty
    captured stdout, yet the cycle ends with status alert. *)
Lemma blank_stderr_is_alert :
  exists r w',
    run_beat (sample_env (Some (py "/usr/bin/claude")) [] [LF] 1000)
             sample_runner sample_world = (inr r, w')
    /\ status r = py "alert"
    /\ claimed_status [] [LF] = py "error".
Proof.
  eexists _, _. split; [vm_compute; reflexivity|].
  split; vm_compute; reflexivity.
Qed.

(** The amended C1 on a tool that answers HEARTBEAT_OK. *)
Lemma run_beat_classifies_witness :
  exists r,
    fst (run_beat (sample_env (Some (py "/usr/bin/claude"))
                              (py "HEARTBEAT_OK" ++ [LF]) [] 1000)
                  sample_runner sample_world) = inr r
    /\ status r = py "ok" /\ output r = py "HEARTBEAT_OK" /\ error r = [].
Proof.
  edestruct (run_beat_classifies
               (sample_env (Some (py "/usr/bin/claude"))
                           (py "HEARTBEAT_OK" ++ [LF]) [] 1000)
               sample_runner sample_world)
    as (r & new & _ & _ & _ & Hret & Hst & Hout & Herr);
    [vm_compute; reflexivity | vm_compute; reflexivity | reflexivity
     | reflexivity | reflexivity | reflexivity |].
  exists r. split; [apply Hret|].
  - right. reflexivity.
  - intros t to text. reflexivity.
  - left. reflexivity.
  - split; [exact Hst|]. split; [exact Hout | exact Herr].
Defined.

(** C2 fails as stated: when the checklist path is a directory, reading
    it raises IsADirectoryError, which leaves [run_beat]; nothing is
    logged or emitted. *)
Lemma checklist_directory_raises :
  exists e w',
    run_beat (sample_env (Some (py "/usr/bin/claude")) [] [] 1000)
             sample_runner directory_world = (inl e, w')
    /\ exn_class_of e = IsADirectoryError
    /\ trace w' = [].
Proof.
  eexists _, _. split; [vm_compute; reflexivity|].
  split; reflexivity.
Qed.

(** The amended C2 on a tool that times out. *)
Lemma run_beat_reaches_step6_once_witness :
  exists r new,
    fst (run_beat (sample_env None [] [] 20000) sample_runner sample_world)
    = inr r
    /\ trace (snd (run_beat (sample_env None [] [] 20000)
                            sample_runner sample_world))
       = trace sample_world ++ new
    /\ calls new = [LogCall r; EmitCall r]
    /\ status r = py "error"
    /\ duration_seconds r = PyFloat2 2.
Proof.
  edestruct (run_beat_reaches_step6_once
               (sample_env None [] [] 20000) sample_runner sample_world)
    as (r & new & Hfst & Htr & Hcalls & _ & Hfault);
    [vm_compute; reflexivity | vm_compute; reflexivity
     | right; vm_compute; reflexivity | intros t to text; reflexivity
     | left; reflexivity |].
  exists r, new. split; [exact Hfst|]. split; [exact Htr|].
  split; [exact Hcalls|].
  destruct (Hfault eq_refl (Exn FileNotFoundError (py "claude")) sample_world
                   eq_refl) as (Hst & _ & Hdur).
  split; [exact Hst | exact Hdur].
Defined.

(** A console that encodes ASCII only: [print] raises
    UnicodeEncodeError on the status glyph of the headline. *)
Definition ascii_console_env : Env :=
  {| cwd := [py "w"];
     homedir := fun user => match user with
                            | [] => Some [py "h"; py "u"]
                            | _ => None
                            end;
     utcnow_isoformat := py "2025-01-01T00:00:00";
     time_time := fun n => Z.of_nat n * 1000;
     which := fun _ => Some (py "/usr/bin/claude");
     subprocess_run := fun _ => Completed (py "HEARTBEAT_OK") [];
     make_request := fun _ => None;
     urlopen := fun _ _ => Responded;
     console := fun _ _ text =>
                  if forallb (fun c => (c <? 128)%N) text then None
                  else Some (Exn UnicodeEncodeError
                                 (py "'ascii' codec can't encode character"));
     int_max_str_digits := 4300;
     recursion_room := 100 |}.

(** [_print_result] runs outside any [try]: on such a console the cycle
    is logged and handed to [_emit], and the exception of [print] leaves
    [run_beat]. *)
Example ascii_console_raises :
  exists e r w',
    run_beat ascii_console_env sample_runner sample_world = (inl e, w')
    /\ exn_class_of e = UnicodeEncodeError
    /\ calls (trace w') = [LogCall r; EmitCall r]
    /\ status r = py "ok".
Proof.
  eexists _, _, _. split; [vm_compute; reflexivity|].
  split; [reflexivity|]. split; reflexivity.
Qed.

(** The one subprocess of a sample cycle: the tool, [--print], and the
    safety prefix, the separator and the checklist as its prompt. *)
Example sample_cycle_prompt :
  exists after,
    trace (snd (run_beat (sample_env (Some (py "/usr/bin/claude"))
                                     (py "HEARTBEAT_OK") [] 1000)
                         sample_runner sample_world))
    = SubprocessRun
        [py "/usr/bin/claude"; py "--print";
         _safety_prefix sample_runner ++ PROMPT_SEPARATOR
           ++ py "Check the disk."]
      :: after
    /\ forall cmd, ~ In (SubprocessRun cmd) after.
Proof.
  eexists. split; [vm_compute; reflexivity|].
  intros cmd Hin.
  repeat (destruct Hin as [Hin|Hin]; [discriminate Hin|]). destruct Hin.
Qed.

(** C3 on three results and a cap of two lines. *)
Lemma log_keeps_most_recent_witness :
  exists w',
    log_all (sample_env None [] [] 0) sample_logger
            [sample_result "ok"; sample_result "alert"; sample_result "error"]
            bare_world = (inr tt, w')
    /\ log_file_lines (sample_env None [] [] 0) sample_logger w'
       = [json_dumps (sample_result "alert"); json_dumps (sample_result "error")]
    /\ length (log_file_lines (sample_env None [] [] 0) sample_logger w') = 2%nat.
Proof.
  apply (log_keeps_most_recent (sample_env None [] [] 0) sample_logger
           [sample_result "ok"; sample_result "alert"; sample_result "error"]
           bare_world).
  - reflexivity.
  - reflexivity.
  - right. split; reflexivity.
Defined.

(** The sample logger with another cap. *)
Definition logger_with_cap (m : Z) : HeartbeatLogger :=
  {| lg_config :=
       {| interval_minutes := 30; run_on_start := true;
          notify_only := true; max_actions_per_run := 0;
          require_confirmation := true;
          log_heartbeats := true; log_file := py "~/t/log";
          max_log_lines := m;
          notify_stdout := true; notify_c3poh := false; c3poh_endpoint := [];
          heartbeat_md := py "H.md"; allowed_commands := [];
          preset := py "sane" |};
     log_path := sample_log_path |}.

(** With a cap of zero the slice [lines[-0:]] is the whole list, and
    nothing is dropped: the cap has to be positive. *)
Example zero_cap_keeps_everything :
  exists w',
    log_all (sample_env None [] [] 0) (logger_with_cap 0)
            [sample_result "ok"; sample_result "alert"] bare_world = (inr tt, w')
    /\ length (log_file_lines (sample_env None [] [] 0) (logger_with_cap 0) w')
       = 2%nat.
Proof. eexists. split; vm_compute; reflexivity. Qed.

(** In the same way [tail(0)] slices [lines[-0:]] and returns every
    entry of the file. *)
Example tail_zero_returns_everything :
  fst (tail (sample_env None [] [] 0) sample_logger 0 mixed_log_world)
  = inr [JDict []].
Proof. vm_compute. reflexivity. Qed.



(** A log file whose only line is an integer of 4301 digits, one more
    than [int] converts, and one whose only line opens 101 arrays, one
    more than the interpreter has room for. *)
Definition long_integer_world : World :=
  world_of (<[ [py "h"; py "u"; py "t"; py "log"]
               := File (repeat 49%N 4301 ++ [LF]) ]> sample_dirs).

Definition deep_nesting_world : World :=
  world_of (<[ [py "h"; py "u"; py "t"; py "log"]
               := File (repeat 91%N 101 ++ [LF]) ]> sample_dirs).

(** On such lines [json.loads] raises an exception that is not a
    [json.JSONDecodeError], and it leaves [tail]. *)
Example tail_raises_on_long_integer :
  exists e,
    fst (tail (sample_env None [] [] 0) sample_logger 1 long_integer_world)
    = inl e
    /\ exn_class_of e = ValueError.
Proof. eexists. split; [vm_compute; reflexivity | reflexivity]. Qed.

Example tail_raises_on_deep_nesting :
  exists e,
    fst (tail (sample_env None [] [] 0) sample_logger 1 deep_nesting_world)
    = inl e
    /\ exn_class_of e = RecursionError.
Proof. eexists. split; [vm_compute; reflexivity | reflexivity]. Qed.

(** C6 on a world with no checklist: the first call writes the template,
    the second changes nothing. *)
Lemma ensure_heartbeat_md_idempotent_witness :
  exists w1,
    ensure_heartbeat_md (sample_env None [] [] 0) sample_runner bare_world
    = (inr (Abs [py "w"; py "H.md"]), w1)
    /\ node_at (fs w1) [py "w"; py "H.md"] = Some (File DEFAULT_HEARTBEAT_MD)
    /\ ensure_heartbeat_md (sample_env None [] [] 0) sample_runner w1
       = (inr (Abs [py "w"; py "H.md"]), w1).
Proof.
  destruct (ensure_heartbeat_md_idempotent (sample_env None [] [] 0)
              sample_runner bare_world (Abs [py "w"; py "H.md"]) eq_refl)
    as (_ & Hmissing & Hagain).
  destruct (Hmissing eq_refl eq_refl) as (o & w1 & Hrun & Hret & Hfile & _).
  rewrite (Hret (fun _ _ _ => eq_refl)) in Hrun.
  exists w1. split; [exact Hrun|]. split; [exact Hfile|].
  apply (Hagain _ _ Hrun).
Defined.

(** C7 fails as stated: when the failed lookup takes a second, the
    result has status error and a duration of one second, not zero. *)
Lemma slow_lookup_has_duration :
  exists r w',
    run_beat (sample_env None [] [] 1000000) sample_runner sample_world
    = (inr r, w')
    /\ status r = py "error"
    /\ duration_seconds r = PyFloat2 100
    /\ num_is_zero (duration_seconds r) = false.
Proof.
  eexists _, _. split; [vm_compute; reflexivity|].
  split; [reflexivity|]. split; reflexivity.
Qed.

(** The amended C7 on a lookup that takes a millisecond. *)
Lemma tool_not_found_is_error_witness :
  exists r,
    fst (run_beat (sample_env None [] [] 1000) sample_runner sample_world)
    = inr r
    /\ status r = py "error"
    /\ error r = MSG_NOT_FOUND
    /\ num_is_zero (duration_seconds r) = true.
Proof.
  edestruct (tool_not_found_is_error (sample_env None [] [] 1000)
               sample_runner sample_world)
    as (r & new & _ & _ & _ & _ & Hret & Hst & Herr & _ & _ & Hzero);
    [vm_compute; reflexivity | vm_compute; reflexivity | reflexivity
     | reflexivity |].
  exists r. split; [apply Hret|].
  - right. vm_compute. reflexivity.
  - intros t to text. reflexivity.
  - left. reflexivity.
  - split; [exact Hst|]. split; [exact Herr|]. apply Hzero.
    vm_compute. split; discriminate.
Defined.

(** C9 on the sample logger with logging switched off. *)
Lemma log_disabled_leaves_files_witness :
  exists w',
    log (sample_env None [] [] 0)
        {| lg_config := with_log_heartbeats false sample_config;
           log_path := sample_log_path |}
        (sample_result "ok") bare_world = (inr tt, w')
    /\ fs w' = fs bare_world.
Proof.
  destruct (log_disabled_leaves_files (sample_env None [] [] 0)
              {| lg_config := with_log_heartbeats false sample_config;
                 log_path := sample_log_path |}
              (sample_result "ok") bare_world eq_refl)
    as (w' & Hlog & Hfs & _).
  exists w'. split; [exact Hlog | exact Hfs].
Defined.

(** A world where only the home directory exists. *)
Definition home_world : World :=
  world_of (<[ [py "h"] := Dir ]> (<[ [py "h"; py "u"] := Dir ]> ∅)).

(** C10 on that world: the constructor makes [~/t], with logging off. *)
Lemma logger_init_makes_parent_witness :
  exists w',
    HeartbeatLogger_init (sample_env None [] [] 0)
      (with_log_heartbeats false sample_config) home_world
    = (inr {| lg_config := with_log_heartbeats false sample_config;
              log_path := sample_log_path |}, w')
    /\ is_dir_at (fs w') [py "h"; py "u"; py "t"] = true
    /\ node_at (fs home_world) [py "h"; py "u"; py "t"] = None
    /\ node_at (fs w') [py "h"; py "u"; py "t"; py "log"] = None.
Proof.
  destruct (logger_init_makes_parent (sample_env None [] [] 0)
              (with_log_heartbeats false sample_config) home_world
              sample_log_path eq_refl eq_refl)
    as (w' & Hinit & Hdir & Hframe & _).
  exists w'. split; [exact Hinit|]. split; [exact Hdir|].
  split; [reflexivity|].
  destruct (Hframe [py "h"; py "u"; py "t"; py "log"])
    as [Heq | (Hin & _ & _)].
  - rewrite Heq. reflexivity.
  - cbn in Hin. destruct Hin as [Hin|[Hin|[Hin|[]]]]; discriminate Hin.
Defined.

(** * Further properties of the pipeline *)

From Stdlib Require DecimalFacts DecimalPos DecimalN.

(** ** Lines, again *)

(** Splitting with the line ends kept loses nothing. *)
Lemma concat_splitlines_le (n : nat) (s : str) :
  (length s <= n)%nat -> concat (splitlines true s) = s.
Proof.
  revert s. induction n as [|n IH]; intros s Hlen.
  - destruct s; [reflexivity | cbn in Hlen; lia].
  - destruct s as [|c s']; [reflexivity|]. cbn [length] in Hlen.
    cbn [splitlines]. destruct (is_linebreak c).
    + destruct s' as [|c' s'']; [reflexivity|].
      destruct ((c =? CR) && (c' =? LF))%N; cbn [concat app].
      * rewrite IH by (cbn [length] in Hlen; lia). reflexivity.
      * rewrite IH by lia. reflexivity.
    + pose proof (IH s' ltac:(lia)) as Hs'.
      destruct (splitlines true s') as [|l ls]; cbn [concat app] in *.
      * rewrite <- Hs'. reflexivity.
      * rewrite <- Hs'. reflexivity.
Qed.

Lemma concat_splitlines (s : str) : concat (splitlines true s) = s.
Proof. apply (concat_splitlines_le (length s)). reflexivity. Qed.

(** What follows the first line is again the lines of a text. *)
Lemma splitlines_tail_le (n : nat) (s : str) :
  (length s <= n)%nat ->
  exists rest, List.tl (splitlines true s) = splitlines true rest.
Proof.
  revert s. induction n as [|n IH]; intros s Hlen.
  - destruct s; [exists []; reflexivity | cbn in Hlen; lia].
  - destruct s as [|c s']; [exists []; reflexivity|]. cbn [length] in Hlen.
    cbn [splitlines]. destruct (is_linebreak c).
    + destruct s' as [|c' s'']; [exists []; reflexivity|].
      destruct ((c =? CR) && (c' =? LF))%N; cbn [List.tl]; eauto.
    + destruct (IH s' ltac:(lia)) as (rest & Hrest).
      destruct (splitlines true s') as [|l ls]; cbn [List.tl] in *.
      * exists []. reflexivity.
      * exists rest. exact Hrest.
Qed.

Lemma splitlines_drop (k : nat) (s : str) :
  exists rest, drop k (splitlines true s) = splitlines true rest.
Proof.
  revert s. induction k as [|k IH]; intros s.
  - exists s. apply drop_0.
  - destruct (splitlines_tail_le (length s) s ltac:(lia)) as (rest & Hrest).
    destruct (IH rest) as (rest' & Hrest'). exists rest'.
    rewrite <- Hrest', <- Hrest.
    destruct (splitlines true s); cbn [List.tl]; rewrite ?drop_nil; reflexivity.
Qed.

(** The lines of a text from some line on, put together, split into
    those same lines. *)
Lemma splitlines_resplit (k : nat) (s : str) :
  splitlines true (concat (drop k (splitlines true s)))
  = drop k (splitlines true s).
Proof.
  destruct (splitlines_drop k s) as (rest & ->).
  rewrite concat_splitlines. reflexivity.
Qed.

(** ** Rotation on any log file *)

Section RotationProperties.

Variable env : Env.

(** X1. Rotation is best-effort. [_rotate_if_needed] returns normally in
    every world, prints nothing, reads no clock, and leaves every path
    but the log file as it is; when the log path is not a regular file it
    changes nothing at all. *)
Theorem rotate_never_raises (lg : HeartbeatLogger) (w : World) :
  exists w',
    _rotate_if_needed env lg w = (inr tt, w')
    /\ trace w' = trace w
    /\ clock_reads w' = clock_reads w
    /\ heartbeat_md_path w' = heartbeat_md_path w
    /\ (forall k, k <> log_key env lg -> node_at (fs w') k = node_at (fs w) k)
    /\ ((forall text, node_at (fs w) (log_key env lg) <> Some (File text)) ->
        fs w' = fs w).
Proof.
  destruct w as [f t c h].
  unfold _rotate_if_needed, try_except, bind, read_text, fs_query.
  cbn [fs]. fold (log_key env lg). unfold fs_read_text.
  destruct (node_at f (log_key env lg)) as [[text|]|] eqn:Hnode;
    try (eexists; split; [reflexivity|]; repeat split; reflexivity).
  destruct (_ >? _);
    [|eexists; split; [reflexivity|]; repeat split; reflexivity].
  unfold write_text, fs_update. cbn [fs]. fold (log_key env lg).
  rewrite (fs_write_text_file _ _ _ _ Hnode).
  eexists. split; [reflexivity|]. cbn [fs trace clock_reads heartbeat_md_path set_fs].
  split; [reflexivity|]. split; [reflexivity|]. split; [reflexivity|].
  split.
  - intros k Hk. apply node_at_insert_ne. congruence.
  - intros Hnofile. destruct (Hnofile text eq_refl).
Qed.

(** X2. Rotation keeps the end of the file. On a log file of any content
    and with a positive cap [m], [_rotate_if_needed] leaves a suffix of
    the old content, made of its last [m] lines (all of them when there
    are at most [m]); the file then has at most [m] lines, and rotating
    once more changes nothing. *)
Theorem rotate_keeps_last_lines (lg : HeartbeatLogger) (w : World) (text : str) :
  node_at (fs w) (log_key env lg) = Some (File text) ->
  0 < max_log_lines (lg_config lg) ->
  exists w' kept dropped,
    _rotate_if_needed env lg w = (inr tt, w')
    /\ node_at (fs w') (log_key env lg) = Some (File kept)
    /\ text = dropped ++ kept
    /\ splitlines true kept
       = last_n (Z.to_nat (max_log_lines (lg_config lg))) (splitlines true text)
    /\ (length (splitlines true kept)
        <= Z.to_nat (max_log_lines (lg_config lg)))%nat
    /\ _rotate_if_needed env lg w' = (inr tt, w').
Proof.
  intros Hfile Hm. destruct w as [f t c h]. cbn [fs] in Hfile.
  set (m := max_log_lines (lg_config lg)) in *.
  set (lines := splitlines true text).
  assert (Hrot : forall f0 text0,
            node_at f0 (log_key env lg) = Some (File text0) ->
            _rotate_if_needed env lg
              {| fs := f0; trace := t; clock_reads := c; heartbeat_md_path := h |}
            = if Z.of_nat (length (splitlines true text0)) >? m
              then (inr tt,
                    {| fs := <[log_key env lg :=
                                 File (concat (last_n (Z.to_nat m)
                                                 (splitlines true text0)))]> f0;
                       trace := t; clock_reads := c; heartbeat_md_path := h |})
              else (inr tt,
                    {| fs := f0; trace := t; clock_reads := c;
                       heartbeat_md_path := h |})).
  { intros f0 text0 Hf0.
    unfold _rotate_if_needed, try_except, bind, read_text, fs_query.
    cbn [fs]. fold (log_key env lg). rewrite (fs_read_text_file _ _ _ Hf0).
    fold m. destruct (_ >? m); [|reflexivity].
    unfold write_text, fs_update. cbn [fs]. fold (log_key env lg).
    rewrite (fs_write_text_file _ _ _ _ Hf0), slice_from_last by exact Hm.
    reflexivity. }
  rewrite (Hrot f text Hfile). fold lines.
  destruct (Z.of_nat (length lines) >? m) eqn:Hgt.
  - exists {| fs := <[log_key env lg := File (concat (last_n (Z.to_nat m) lines))]> f;
              trace := t; clock_reads := c; heartbeat_md_path := h |},
           (concat (last_n (Z.to_nat m) lines)),
           (concat (take (length lines - Z.to_nat m) lines)).
    assert (Hnode : node_at (<[log_key env lg :=
                                 File (concat (last_n (Z.to_nat m) lines))]> f)
                            (log_key env lg)
                    = Some (File (concat (last_n (Z.to_nat m) lines))))
      by (apply node_at_insert; eapply node_at_file_nonroot, Hfile).
    assert (Hsplit : splitlines true (concat (last_n (Z.to_nat m) lines))
                     = last_n (Z.to_nat m) lines)
      by apply splitlines_resplit.
    split; [reflexivity|]. split; [exact Hnode|].
    split.
    { unfold last_n. rewrite <- concat_app, take_drop. symmetry.
      apply concat_splitlines. }
    split; [exact Hsplit|].
    split; [rewrite Hsplit, last_n_length; lia|].
    rewrite (Hrot _ _ Hnode), Hsplit.
    replace (Z.of_nat (length (last_n (Z.to_nat m) lines)) >? m) with false;
      [reflexivity|].
    symmetry. rewrite Z.gtb_ltb. apply Z.ltb_ge. rewrite last_n_length. lia.
  - exists {| fs := f; trace := t; clock_reads := c; heartbeat_md_path := h |},
           text, [].
    rewrite Z.gtb_ltb in Hgt. apply Z.ltb_ge in Hgt.
    split; [reflexivity|]. split; [exact Hfile|]. split; [reflexivity|].
    fold lines. rewrite last_n_all by lia.
    split; [reflexivity|]. split; [lia|].
    rewrite (Hrot f text Hfile). fold lines.
    replace (Z.of_nat (length lines) >? m) with false; [reflexivity|].
    symmetry. rewrite Z.gtb_ltb. apply Z.ltb_ge. lia.
Qed.

End RotationProperties.

(** ** Writing a string and reading it back *)

(** A Unicode scalar value: a code point that is not a surrogate. *)
Definition scalar (c : N) : Prop :=
  (c < 1114112)%N /\ ~ (55296 <= c <= 57343)%N.

(** Text without surrogate code points. *)
Definition scalar_text (s : str) : Prop := Forall scalar s.

Lemma hex_value_digit (d : N) : (d < 16)%N -> hex_value (hex_digit d) = Some d.
Proof.
  intros H. unfold hex_digit, hex_value.
  destruct (N.ltb_spec d 10).
  - replace ((48 <=? 48 + d) && (48 + d <=? 57))%N with true.
    + f_equal. lia.
    + symmetry. apply andb_true_iff. split; apply N.leb_le; lia.
  - replace ((48 <=? 87 + d) && (87 + d <=? 57))%N with false.
    + replace ((97 <=? 87 + d) && (87 + d <=? 102))%N with true.
      * f_equal. lia.
      * symmetry. apply andb_true_iff. split; apply N.leb_le; lia.
    + symmetry. apply andb_false_iff. right. apply N.leb_gt. lia.
Qed.

Lemma hex4_digits (n : N) (rest : str) :
  (n < 65536)%N ->
  hex4 ([hex_digit (n / 4096 mod 16); hex_digit (n / 256 mod 16);
         hex_digit (n / 16 mod 16); hex_digit (n mod 16)] ++ rest)%N
  = Some (n, rest).
Proof.
  intros Hn. cbn [app hex4].
  rewrite !hex_value_digit by (apply N.mod_lt; discriminate).
  f_equal. f_equal. zify. Z.to_euclidean_division_equations. lia.
Qed.

(** One step of [scanstring]. *)
Lemma scanstring_plain (fuel : nat) (acc s' : str) (c : N) :
  (c =? 34)%N = false -> (c =? 92)%N = false -> (c <=? 31)%N = false ->
  scanstring (S fuel) acc (c :: s') = scanstring fuel (acc ++ [c]) s'.
Proof. intros H1 H2 H3. cbn [scanstring]. rewrite H1, H2, H3. reflexivity. Qed.

Lemma scanstring_simple_escape (fuel : nat) (acc s' : str) (e ch : N) :
  (e =? 117)%N = false -> unescape e = Some ch ->
  scanstring (S fuel) acc (92%N :: e :: s') = scanstring fuel (acc ++ [ch]) s'.
Proof.
  intros H1 H2. cbn [scanstring].
  change (92 =? 34)%N with false. change (92 =? 92)%N with true. cbv iota.
  rewrite H1, H2. reflexivity.
Qed.

(** After an escaped code point that is not a high surrogate the scan goes
    on, whatever follows. *)
Lemma scanstring_u_escape (fuel : nat) (acc rest : str) (u : N) :
  (u < 65536)%N -> is_high_surrogate u = false ->
  scanstring (S fuel) acc (escape_u u ++ rest)
  = scanstring fuel (acc ++ [u]) rest.
Proof.
  intros Hu Hhigh. unfold escape_u.
  change (py "\u") with [92%N; 117%N]. cbn [app].
  change (scanstring (S fuel) acc
            (92%N :: 117%N ::
             ([hex_digit (u / 4096 mod 16); hex_digit (u / 256 mod 16);
               hex_digit (u / 16 mod 16); hex_digit (u mod 16)] ++ rest)%N)
          = scanstring fuel (acc ++ [u]) rest).
  cbn [scanstring].
  change (92 =? 34)%N with false. change (92 =? 92)%N with true.
  change (117 =? 117)%N with true. cbv iota.
  rewrite (hex4_digits u rest Hu). rewrite Hhigh. cbn [andb].
  destruct rest as [|a rest1]; [reflexivity|].
  destruct a as [|p]; [reflexivity|].
  do 7 (destruct p as [p|p|]; try reflexivity).
  destruct rest1 as [|b rest2]; [reflexivity|].
  destruct b as [|q]; [reflexivity|].
  do 7 (destruct q as [q|q|]; try reflexivity).
Qed.

Lemma lor_surrogate_base (y : N) :
  (y < 1024)%N ->
  N.lor 55296 y = (55296 + y)%N /\ N.lor 56320 y = (56320 + y)%N.
Proof.
  intros Hy.
  assert (Hall : forallb
            (fun k => let y := N.of_nat k in
                      (N.lor 55296 y =? 55296 + y)%N
                      && (N.lor 56320 y =? 56320 + y)%N)
            (seq 0 1024) = true) by (vm_compute; reflexivity).
  rewrite forallb_forall in Hall. specialize (Hall (N.to_nat y)).
  cbv zeta in Hall. rewrite N2Nat.id in Hall.
  apply andb_true_iff in Hall as [H1 H2].
  - split; apply N.eqb_eq; assumption.
  - apply in_seq. lia.
Qed.

(** The two halves of the surrogate pair [json.dumps] writes for a code
    point above the basic plane. *)
Definition high_half (c : N) : N :=
  N.lor 55296 (N.land (N.shiftr (c - 65536) 10) 1023).
Definition low_half (c : N) : N :=
  N.lor 56320 (N.land (c - 65536) 1023).

Lemma surrogate_halves (c : N) :
  (65536 <= c < 1114112)%N ->
  exists q r,
    (q < 1024)%N /\ (r < 1024)%N /\ (c = 65536 + 1024 * q + r)%N
    /\ high_half c = (55296 + q)%N /\ low_half c = (56320 + r)%N.
Proof.
  intros Hc. exists ((c - 65536) / 1024)%N, ((c - 65536) mod 1024)%N.
  unfold high_half, low_half.
  change 1023%N with (N.ones 10). rewrite !N.land_ones, N.shiftr_div_pow2.
  change (2 ^ 10)%N with 1024%N.
  assert (Hq : ((c - 65536) / 1024 < 1024)%N).
  { apply N.Div0.div_lt_upper_bound. lia. }
  assert (Hr : ((c - 65536) mod 1024 < 1024)%N)
    by (apply N.mod_lt; discriminate).
  rewrite (N.mod_small _ _ Hq).
  destruct (lor_surrogate_base _ Hq) as [-> _].
  destruct (lor_surrogate_base _ Hr) as [_ ->].
  pose proof (N.div_mod (c - 65536) 1024 ltac:(discriminate)) as Hdm.
  revert Hq Hr Hdm.
  generalize ((c - 65536) / 1024)%N, ((c - 65536) mod 1024)%N.
  intros q r Hq Hr Hdm. repeat split; try assumption; lia.
Qed.

Lemma scanstring_pair (fuel : nat) (acc rest : str) (c : N) :
  (65536 <= c < 1114112)%N -> rest <> [] ->
  scanstring (S fuel) acc
    (escape_u (high_half c) ++ escape_u (low_half c) ++ rest)
  = scanstring fuel (acc ++ [c]) rest.
Proof.
  intros Hc Hrest.
  destruct (surrogate_halves c Hc) as (q & r & Hq & Hr & Hqr & Hhi & Hlo).
  assert (Hhi_lt : (high_half c < 65536)%N) by (rewrite Hhi; lia).
  assert (Hlo_lt : (low_half c < 65536)%N) by (rewrite Hlo; lia).
  unfold escape_u. change (py "\u") with [92%N; 117%N]. cbn [app].
  cbn [scanstring].
  change (92 =? 34)%N with false. change (92 =? 92)%N with true.
  change (117 =? 117)%N with true. cbv iota.
  match goal with
  | |- context [hex4 (?a :: ?b :: ?c0 :: ?d :: ?r)] =>
    change (hex4 (a :: b :: c0 :: d :: r)) with (hex4 ([a; b; c0; d] ++ r));
    rewrite (hex4_digits (high_half c) r Hhi_lt)
  end.
  cbv iota beta.
  replace (is_high_surrogate (high_half c)) with true.
  2:{ symmetry. unfold is_high_surrogate. apply andb_true_iff.
      split; apply N.leb_le; lia. }
  replace (4 <? length (hex_digit (low_half c / 4096 mod 16)
                        :: hex_digit (low_half c / 256 mod 16)
                        :: hex_digit (low_half c / 16 mod 16)
                        :: hex_digit (low_half c mod 16) :: rest))%nat
    with true.
  2:{ symmetry. apply Nat.ltb_lt. cbn [length]. destruct rest; [congruence|].
      cbn [length]. lia. }
  cbn [andb].
  match goal with
  | |- context [hex4 (?a :: ?b :: ?c0 :: ?d :: ?r)] =>
    change (hex4 (a :: b :: c0 :: d :: r)) with (hex4 ([a; b; c0; d] ++ r));
    rewrite (hex4_digits (low_half c) r Hlo_lt)
  end.
  cbv iota beta.
  replace (is_low_surrogate (low_half c)) with true.
  2:{ symmetry. unfold is_low_surrogate. apply andb_true_iff.
      split; apply N.leb_le; lia. }
  f_equal. f_equal. f_equal. rewrite Hhi, Hlo. lia.
Qed.

Lemma escape_char_nonempty (c : N) : (1 <= length (escape_char c))%nat.
Proof.
  unfold escape_char.
  repeat match goal with
  | |- context [if ?b then _ else _] => destruct b
  end; cbn [length app escape_u py map list_ascii_of_string];
    rewrite ?length_app; cbn [length]; lia.
Qed.

(** [scanstring] reads back what [json.dumps] writes for a text without
    surrogates. *)
Lemma scanstring_escaped (s : str) :
  scalar_text s ->
  forall (fuel : nat) (acc rest : str),
    (length (concat (map escape_char s)) < fuel)%nat ->
    scanstring fuel acc (concat (map escape_char s) ++ 34%N :: rest)
    = Some (acc ++ s, rest).
Proof.
  induction 1 as [|c s [Hmax Hsur] Hs IH]; intros fuel acc rest Hfuel.
  - destruct fuel as [|fuel]; [cbn in Hfuel; lia|].
    cbn [map concat app scanstring]. change (34 =? 34)%N with true.
    cbv iota. rewrite app_nil_r. reflexivity.
  - cbn [map concat] in *. rewrite length_app in Hfuel.
    pose proof (escape_char_nonempty c) as Hne.
    destruct fuel as [|fuel]; [lia|].
    assert (Hrec : forall acc',
              scanstring fuel acc' (concat (map escape_char s) ++ 34%N :: rest)
              = Some (acc' ++ s, rest)) by (intros; apply IH; lia).
    rewrite <- app_assoc.
    replace (acc ++ c :: s) with ((acc ++ [c]) ++ s)
      by (rewrite <- app_assoc; reflexivity).
    rewrite <- Hrec. unfold escape_char.
    destruct (N.eqb_spec c 34) as [->|H34];
      [apply scanstring_simple_escape; reflexivity|].
    destruct (N.eqb_spec c 92) as [->|H92];
      [apply scanstring_simple_escape; reflexivity|].
    destruct (N.eqb_spec c 8) as [->|H8];
      [apply scanstring_simple_escape; reflexivity|].
    destruct (N.eqb_spec c 12) as [->|H12];
      [apply scanstring_simple_escape; reflexivity|].
    destruct (N.eqb_spec c 10) as [->|H10];
      [apply scanstring_simple_escape; reflexivity|].
    destruct (N.eqb_spec c 13) as [->|H13];
      [apply scanstring_simple_escape; reflexivity|].
    destruct (N.eqb_spec c 9) as [->|H9];
      [apply scanstring_simple_escape; reflexivity|].
    destruct ((32 <=? c) && (c <=? 126))%N eqn:Hprint.
    { apply andb_true_iff in Hprint as [Hlo _]. apply N.leb_le in Hlo.
      apply scanstring_plain.
      - apply N.eqb_neq, H34.
      - apply N.eqb_neq, H92.
      - apply N.leb_gt. lia. }
    destruct (N.ltb_spec c 65536) as [Hbmp|Hsup].
    { apply scanstring_u_escape; [exact Hbmp|].
      unfold is_high_surrogate. apply andb_false_iff.
      destruct (N.leb_spec 55296 c); [right; apply N.leb_gt; lia | left; reflexivity]. }
    cbv zeta. rewrite <- app_assoc.
    apply (scanstring_pair fuel acc _ c); [lia|].
    intros Hnil. apply app_eq_nil in Hnil as [_ Hnil]. discriminate Hnil.
Qed.

Lemma scan_once_string (limit fuel room : nat) (s rest : str) :
  scalar_text s ->
  scan_once limit (S fuel) room (json_dumps_str s ++ rest)
  = Scanned (JStr s) rest.
Proof.
  intros Hs. unfold json_dumps_str, QUOTE. cbn [app scan_once].
  change (34 =? 34)%N with true. cbv iota.
  rewrite <- app_assoc. cbn [app].
  rewrite (scanstring_escaped s Hs _ [] rest); [reflexivity|].
  rewrite length_app. cbn [length]. lia.
Qed.

(** ** Writing a number and reading it back *)

Definition udigits (d : Decimal.uint) : str := py (NilEmpty.string_of_uint d).

Lemma udigits_are_digits (d : Decimal.uint) : forallb is_digit (udigits d) = true.
Proof. induction d; cbn; try exact IHd; reflexivity. Qed.

Lemma take_digits_all (ds rest : str) :
  forallb is_digit ds = true ->
  match rest with c :: _ => is_digit c = false | [] => True end ->
  take_digits (ds ++ rest) = (ds, rest).
Proof.
  intros Hds Hrest. induction ds as [|c ds IH]; cbn [app].
  - destruct rest as [|c rest]; [reflexivity|]. cbn [take_digits].
    rewrite Hrest. reflexivity.
  - cbn [forallb] in Hds. apply andb_true_iff in Hds as [Hc Hds].
    cbn [take_digits]. rewrite Hc, (IH Hds). reflexivity.
Qed.

Definition digit_step (acc : Z) (c : N) : Z := acc * 10 + Z.of_N (c - 48).

Lemma digits_value_acc (d : Decimal.uint) (acc : positive) :
  fold_left digit_step (udigits d) (Z.pos acc) = Z.pos (Pos.of_uint_acc d acc).
Proof.
  revert acc. unfold udigits.
  induction d; intros acc; cbn [NilEmpty.string_of_uint py list_ascii_of_string
                                 map fold_left Pos.of_uint_acc];
    try reflexivity;
    match goal with
    | |- fold_left _ _ ?z = _ =>
      match goal with
      | IH : forall acc, _ = Z.pos (Pos.of_uint_acc ?l acc)
        |- _ = Z.pos (Pos.of_uint_acc ?l ?acc') =>
        rewrite <- IH; f_equal; unfold digit_step; cbn; lia
      end
    end.
Qed.

Lemma digits_value_udigits (d : Decimal.uint) :
  digits_value (udigits d) = Z.of_N (Pos.of_uint d).
Proof.
  unfold digits_value. change (fun acc c => acc * 10 + Z.of_N (c - 48))
    with digit_step.
  unfold udigits.
  induction d; cbn [NilEmpty.string_of_uint py list_ascii_of_string
                    map fold_left Pos.of_uint];
    try reflexivity; try exact IHd;
    match goal with
    | |- fold_left _ ?l ?z = Z.of_N (N.pos (Pos.of_uint_acc ?d' ?acc)) =>
      change (Z.of_N (N.pos (Pos.of_uint_acc d' acc)))
        with (Z.pos (Pos.of_uint_acc d' acc));
      rewrite <- (digits_value_acc d' acc); reflexivity
    end.
Qed.

Lemma repr_nat_udigits (n : N) : repr_nat n = udigits (N.to_uint n).
Proof.
  unfold repr_nat, udigits, NilZero.string_of_uint.
  destruct (N.to_uint n) eqn:Hd; try reflexivity.
  destruct n as [|p]; [discriminate|].
  destruct (DecimalPos.Unsigned.to_uint_nonnil p Hd).
Qed.

Lemma digits_value_repr_nat (n : N) : digits_value (repr_nat n) = Z.of_N n.
Proof.
  rewrite repr_nat_udigits, digits_value_udigits.
  change (Pos.of_uint (N.to_uint n)) with (N.of_uint (N.to_uint n)).
  rewrite DecimalN.Unsigned.of_to. reflexivity.
Qed.

Lemma nzhead_leading (d : Decimal.uint) :
  Decimal.nzhead d = Decimal.Nil
  \/ exists c ds, udigits (Decimal.nzhead d) = c :: ds /\ c <> 48%N.
Proof.
  induction d; cbn [Decimal.nzhead]; try exact IHd; try (left; reflexivity);
    right; eexists _, _; (split; [reflexivity | discriminate]).
Qed.

(** The digits of a positive number do not start with a zero. *)
Lemma repr_nat_pos (p : positive) :
  exists c ds,
    repr_nat (N.pos p) = c :: ds /\ c <> 48%N
    /\ forallb is_digit (c :: ds) = true.
Proof.
  rewrite repr_nat_udigits. cbn [N.to_uint].
  pose proof (DecimalPos.Unsigned.to_of (Pos.to_uint p)) as Hnorm.
  rewrite DecimalPos.Unsigned.of_to in Hnorm. cbn [N.to_uint] in Hnorm.
  pose proof (DecimalPos.Unsigned.to_uint_nonzero p) as Hnz.
  unfold Decimal.unorm in Hnorm.
  destruct (nzhead_leading (Pos.to_uint p)) as [Hnil | (c & ds & Hhead & Hc)].
  - rewrite Hnil in Hnorm. congruence.
  - assert (Heq : Decimal.nzhead (Pos.to_uint p) = Pos.to_uint p).
    { destruct (Decimal.nzhead (Pos.to_uint p)); congruence. }
    rewrite Heq in Hhead. exists c, ds. split; [exact Hhead|].
    split; [exact Hc|]. rewrite <- Hhead. apply udigits_are_digits.
Qed.

Lemma repr_nat_zero : repr_nat 0 = [48%N].
Proof. reflexivity. Qed.

(** What may follow a number in a JSON text. *)
Definition ends_number (rest : str) : Prop :=
  match rest with
  | c :: _ => is_digit c = false /\ c <> 46%N /\ c <> 101%N /\ c <> 69%N
  | [] => True
  end.

Lemma ends_number_no_digit rest :
  ends_number rest -> match rest with c :: _ => is_digit c = false | [] => True end.
Proof. destruct rest; [tauto|]. intros H. apply H. Qed.

(** The digits of a number are its whole integer part. *)
Lemma integer_part (n : N) (rest : str) :
  match rest with c :: _ => is_digit c = false | [] => True end ->
  exists c ds,
    repr_nat n = c :: ds
    /\ is_digit c = true
    /\ (if (c =? 48)%N then Some ([c], ds ++ rest)
        else if is_digit c
             then let '(d, r) := take_digits (ds ++ rest) in Some (c :: d, r)
             else None)
       = Some (repr_nat n, rest).
Proof.
  intros Hrest. destruct n as [|p].
  - exists 48%N, []. split; [reflexivity|]. split; reflexivity.
  - destruct (repr_nat_pos p) as (c & ds & Hrepr & Hc & Hdigits).
    exists c, ds. split; [exact Hrepr|].
    cbn [forallb] in Hdigits. apply andb_true_iff in Hdigits as [Hcd Hds].
    split; [exact Hcd|].
    apply N.eqb_neq in Hc. rewrite Hc, Hcd.
    rewrite (take_digits_all ds rest Hds Hrest), Hrepr. reflexivity.
Qed.

Lemma match_minus {A} (s : str) (X : str -> A) (Y : A) :
  match s with 45%N :: s' => X s' | _ => Y end
  = match s with
    | c :: s' => if (c =? 45)%N then X s' else Y
    | [] => Y
    end.
Proof.
  destruct s as [|c s']; [reflexivity|]. destruct c as [|p]; [reflexivity|].
  do 6 (destruct p as [p|p|]; try reflexivity).
Qed.

Lemma match_dot {A} (s : str) (X : str -> A) (Y : A) :
  match s with 46%N :: s' => X s' | _ => Y end
  = match s with
    | c :: s' => if (c =? 46)%N then X s' else Y
    | [] => Y
    end.
Proof.
  destruct s as [|c s']; [reflexivity|]. destruct c as [|p]; [reflexivity|].
  do 6 (destruct p as [p|p|]; try reflexivity).
Qed.

Lemma digit_not (c k : N) :
  is_digit c = true -> (k < 48 \/ 57 < k)%N -> (c =? k)%N = false.
Proof.
  unfold is_digit. intros H Hk. apply andb_true_iff in H as [H1 H2].
  apply N.leb_le in H1, H2. apply N.eqb_neq. lia.
Qed.

Definition sign_text (neg : bool) : str := if neg then [45%N] else [].

(** What [match_number] does once the integer part [ds] is read and [r]
    is left: the fraction, the exponent, and the value. *)
Definition number_rest (limit : nat) (neg : bool) (ds r : str)
  : scanned json :=
  let '(frac, r1) :=
    match r with
    | c :: r' =>
      if (c =? 46)%N then
        match take_digits r' with
        | ([], _) => ([], r)
        | (fd, r'') => (46%N :: fd, r'')
        end
      else ([], r)
    | [] => ([], r)
    end in
  let '(expo, r2) :=
    match r1 with
    | e :: r' =>
      if ((e =? 101) || (e =? 69))%N then
        let '(sg, r'') := match r' with
                          | x :: y => if ((x =? 43) || (x =? 45))%N
                                      then ([x], y) else ([], r')
                          | [] => ([], r')
                          end in
        match take_digits r'' with
        | ([], _) => ([], r1)
        | (ed, r3) => (e :: sg ++ ed, r3)
        end
      else ([], r1)
    | [] => ([], r1)
    end in
  match frac, expo with
  | [], [] =>
    if int_too_long limit ds then Raised (DIGITS_EXCEEDED limit ds)
    else Scanned (JInt (if neg then - digits_value ds else digits_value ds)) r2
  | _, _ => Scanned (JFloat (sign_text neg ++ ds ++ frac ++ expo)) r2
  end.

Lemma match_number_integer_part (limit : nat) (neg : bool) (n : N) (r : str) :
  match r with c :: _ => is_digit c = false | [] => True end ->
  match_number limit (sign_text neg ++ repr_nat n ++ r)
  = number_rest limit neg (repr_nat n) r.
Proof.
  intros Hr.
  destruct (integer_part n r Hr) as (c & ds & Hrepr & Hc & Hint).
  unfold match_number. rewrite match_minus.
  assert (Hbody :
    match repr_nat n ++ r with
    | [] => Malformed
    | c0 :: s2 =>
      let int_part := if (c0 =? 48)%N then Some ([c0], s2)
                      else if is_digit c0
                      then let '(d, r) := take_digits s2 in Some (c0 :: d, r)
                      else None in
      match int_part with
      | None => Malformed
      | Some (ds0, r) =>
        let '(frac, r1) :=
          match r with
          | 46%N :: r' =>
            match take_digits r' with
            | ([], _) => ([], r)
            | (fd, r'') => (46%N :: fd, r'')
            end
          | _ => ([], r)
          end in
        let '(expo, r2) :=
          match r1 with
          | e :: r' =>
            if ((e =? 101) || (e =? 69))%N then
              let '(sg, r'') := match r' with
                                | x :: y => if ((x =? 43) || (x =? 45))%N
                                            then ([x], y) else ([], r')
                                | [] => ([], r')
                                end in
              match take_digits r'' with
              | ([], _) => ([], r1)
              | (ed, r3) => (e :: sg ++ ed, r3)
              end
            else ([], r1)
          | [] => ([], r1)
          end in
        match frac, expo with
        | [], [] =>
          if int_too_long limit ds0 then Raised (DIGITS_EXCEEDED limit ds0)
          else Scanned (JInt (if neg then - digits_value ds0
                              else digits_value ds0)) r2
        | _, _ =>
          Scanned (JFloat ((if neg then [45%N] else []) ++ ds0 ++ frac ++ expo))
                  r2
        end
      end
    end = number_rest limit neg (repr_nat n) r).
  { rewrite Hrepr at 1. cbn [app]. cbv zeta. rewrite Hint. rewrite match_dot.
    reflexivity. }
  destruct neg; cbn [app sign_text].
  - change (45 =? 45)%N with true. cbv iota. exact Hbody.
  - rewrite Hrepr in *. cbn [app] in *.
    rewrite (digit_not c 45 Hc) by (left; reflexivity). exact Hbody.
Qed.

(** An integer, with or without a sign, is read back as that integer. *)
Lemma match_number_int (limit : nat) (neg : bool) (n : N) (rest : str) :
  ends_number rest ->
  int_too_long limit (repr_nat n) = false ->
  match_number limit (sign_text neg ++ repr_nat n ++ rest)
  = Scanned (JInt (if neg then - Z.of_N n else Z.of_N n)) rest.
Proof.
  intros Hrest Hfits.
  rewrite match_number_integer_part by (apply ends_number_no_digit, Hrest).
  unfold number_rest.
  destruct rest as [|e rest'].
  - rewrite Hfits, digits_value_repr_nat. reflexivity.
  - destruct Hrest as (_ & Hdot & He1 & He2).
    apply N.eqb_neq in Hdot, He1, He2. rewrite Hdot, He1, He2. cbn [orb].
    rewrite Hfits, digits_value_repr_nat. reflexivity.
Qed.

(** Digits, a point and at least one more digit are read back as a float
    with that text. *)
Lemma match_number_float (limit : nat) (neg : bool) (n : N) (f : N)
    (fd rest : str) :
  is_digit f = true -> forallb is_digit fd = true -> ends_number rest ->
  match_number limit (sign_text neg ++ repr_nat n ++ 46%N :: f :: fd ++ rest)
  = Scanned (JFloat (sign_text neg ++ repr_nat n ++ 46%N :: f :: fd)) rest.
Proof.
  intros Hf Hfd Hrest.
  rewrite match_number_integer_part by reflexivity.
  unfold number_rest. change (46 =? 46)%N with true. cbv iota.
  change (f :: fd ++ rest) with ((f :: fd) ++ rest).
  rewrite (take_digits_all (f :: fd) rest);
    [| cbn [forallb]; rewrite Hf, Hfd; reflexivity
     | apply ends_number_no_digit, Hrest].
  destruct rest as [|e rest'].
  - rewrite app_nil_r. reflexivity.
  - destruct Hrest as (_ & Hdot & He1 & He2).
    apply N.eqb_neq in He1, He2. rewrite He1, He2. cbn [orb].
    rewrite app_nil_r. reflexivity.
Qed.

Lemma strip_prefix_other (a : N) (p : str) (c : N) (s : str) :
  (c =? a)%N = false -> strip_prefix (a :: p) (c :: s) = None.
Proof.
  intros H. unfold strip_prefix. cbn [startswith].
  rewrite N.eqb_sym, H. reflexivity.
Qed.

Ltac literal_heads :=
  change (py "null") with (110%N :: py "ull");
  change (py "true") with (116%N :: py "rue");
  change (py "false") with (102%N :: py "alse");
  change (py "NaN") with (78%N :: py "aN");
  change (py "Infinity") with (73%N :: py "nfinity");
  change (py "-Infinity") with (45%N :: py "Infinity").

(** A digit at the head: none of the literals applies and the value is a
    number. *)
Lemma scan_once_digit (limit fuel room : nat) (c : N) (t : str) :
  is_digit c = true ->
  scan_once limit (S fuel) room (c :: t) = match_number limit (c :: t).
Proof.
  intros Hc. cbn [scan_once].
  rewrite (digit_not c 34 Hc), (digit_not c 123 Hc), (digit_not c 91 Hc)
    by (first [left; reflexivity | right; reflexivity]).
  literal_heads.
  rewrite (strip_prefix_other 110 (py "ull") c t),
          (strip_prefix_other 116 (py "rue") c t),
          (strip_prefix_other 102 (py "alse") c t),
          (strip_prefix_other 78 (py "aN") c t),
          (strip_prefix_other 73 (py "nfinity") c t),
          (strip_prefix_other 45 (py "Infinity") c t)
    by (apply digit_not; [exact Hc | first [left; reflexivity | right; reflexivity]]).
  reflexivity.
Qed.

Lemma scan_once_minus_digit (limit fuel room : nat) (c : N) (t : str) :
  is_digit c = true ->
  scan_once limit (S fuel) room (45%N :: c :: t)
  = match_number limit (45%N :: c :: t).
Proof.
  intros Hc. cbn [scan_once].
  change (45 =? 34)%N with false. change (45 =? 123)%N with false.
  change (45 =? 91)%N with false. cbv iota.
  assert (Hinf : strip_prefix (py "-Infinity") (45%N :: c :: t) = None).
  { unfold strip_prefix.
    change (py "-Infinity") with (45%N :: 73%N :: py "nfinity").
    cbn [startswith]. change (45 =? 45)%N with true.
    rewrite (N.eqb_sym 73 c), (digit_not c 73 Hc) by (right; reflexivity).
    reflexivity. }
  rewrite Hinf. literal_heads.
  rewrite (strip_prefix_other 110 (py "ull") 45 (c :: t)),
          (strip_prefix_other 116 (py "rue") 45 (c :: t)),
          (strip_prefix_other 102 (py "alse") 45 (c :: t)),
          (strip_prefix_other 78 (py "aN") 45 (c :: t)),
          (strip_prefix_other 73 (py "nfinity") 45 (c :: t))
    by reflexivity.
  reflexivity.
Qed.

Lemma repr_nat_digit (d : N) : (d < 10)%N -> repr_nat d = [(48 + d)%N].
Proof.
  intros H.
  assert (Hd : In d (map N.of_nat (seq 0 10))).
  { apply in_map_iff. exists (N.to_nat d). split; [lia|].
    apply in_seq. lia. }
  cbn [seq map] in Hd. cbn in Hd.
  repeat (destruct Hd as [<- | Hd]; [reflexivity|]). destruct Hd.
Qed.

Lemma is_digit_small (d : N) : (d < 10)%N -> is_digit (48 + d) = true.
Proof.
  intros H. unfold is_digit. apply andb_true_iff.
  split; apply N.leb_le; lia.
Qed.

(** The value [json.loads] gives for a number as [repr] writes it. *)
Definition num_json (x : pynum) : json :=
  match x with
  | PyInt z => JInt z
  | PyFloat2 h => JFloat (repr_float2 h)
  end.

Lemma repr_int_sign (z : Z) :
  repr_int z = sign_text (z <? 0) ++ repr_nat (Z.abs_N z).
Proof. unfold repr_int. destruct (z <? 0); reflexivity. Qed.

Lemma repr_float2_parts (h : Z) :
  exists f fd,
    is_digit f = true /\ forallb is_digit fd = true
    /\ repr_float2 h
       = sign_text (h <? 0) ++ repr_nat (Z.abs_N h / 100) ++ 46%N :: f :: fd.
Proof.
  unfold repr_float2. cbv zeta.
  set (a := Z.abs_N h). set (frac := (a mod 100)%N).
  assert (Hfrac : (frac < 100)%N) by (apply N.mod_upper_bound; discriminate).
  assert (H1 : (frac / 10 < 10)%N)
    by (apply N.Div0.div_lt_upper_bound; exact Hfrac).
  assert (H2 : (frac mod 10 < 10)%N) by (apply N.mod_upper_bound; discriminate).
  exists (48 + frac / 10)%N,
         (if (frac mod 10 =? 0)%N then [] else [(48 + frac mod 10)%N]).
  split; [apply is_digit_small, H1|]. split.
  - destruct (frac mod 10 =? 0)%N; [reflexivity|].
    cbn [forallb]. rewrite is_digit_small by exact H2. reflexivity.
  - rewrite (repr_nat_digit _ H1).
    destruct (frac mod 10 =? 0)%N; [|rewrite (repr_nat_digit _ H2)];
      destruct (h <? 0); reflexivity.
Qed.

Lemma sign_digit_head (limit room : nat) (neg : bool) (n : N) (t : str)
    (fuel : nat) :
  scan_once limit (S fuel) room (sign_text neg ++ repr_nat n ++ t)
  = match_number limit (sign_text neg ++ repr_nat n ++ t).
Proof.
  destruct (integer_part n [] I) as (c & ds & Hrepr & Hc & _).
  rewrite Hrepr. destruct neg; cbn [sign_text app].
  - apply scan_once_minus_digit, Hc.
  - apply scan_once_digit, Hc.
Qed.

(** The number is one [json.loads] converts: a float, or an integer
    whose digits [int] accepts. *)
Definition fits (limit : nat) (x : pynum) : Prop :=
  match x with
  | PyInt z => int_too_long limit (repr_nat (Z.abs_N z)) = false
  | PyFloat2 _ => True
  end.

(** A number written by [repr] and followed by something that does not
    continue it is read back as that number. *)
Lemma scan_once_number (limit fuel room : nat) (x : pynum) (rest : str) :
  ends_number rest ->
  fits limit x ->
  scan_once limit (S fuel) room (repr_num x ++ rest)
  = Scanned (num_json x) rest.
Proof.
  intros Hrest Hfits. destruct x as [z | h]; cbn [repr_num num_json fits] in *.
  - rewrite repr_int_sign, <- !app_assoc, sign_digit_head.
    rewrite match_number_int by assumption.
    f_equal. f_equal. destruct (Z.ltb_spec z 0); lia.
  - destruct (repr_float2_parts h) as (f & fd & Hf & Hfd & ->).
    rewrite <- !app_assoc. cbn [app]. rewrite sign_digit_head.
    rewrite match_number_float by assumption. reflexivity.
Qed.

(** ** Objects: what [json.loads] makes of a logged line *)

(** Characters [json.dumps] writes as they are. *)
Definition plainb (c : N) : bool :=
  (printableb c && negb (c =? 34) && negb (c =? 92))%N.

Lemma plain_escape (c : N) : plainb c = true -> escape_char c = [c].
Proof.
  unfold plainb, printableb. intros H.
  apply andb_true_iff in H as [H H92]. apply andb_true_iff in H as [H H34].
  apply negb_true_iff in H34, H92.
  unfold escape_char. rewrite H34, H92.
  apply andb_true_iff in H as [Hlo Hhi]. apply N.leb_le in Hlo, Hhi.
  repeat match goal with
  | |- context [(c =? ?k)%N] => destruct (N.eqb_spec c k); [lia|]
  end.
  destruct (N.leb_spec 32 c); [|lia]. destruct (N.leb_spec c 126); [|lia].
  reflexivity.
Qed.

Lemma plain_scalar (c : N) : plainb c = true -> scalar c.
Proof.
  unfold plainb, printableb, scalar. intros H.
  apply andb_true_iff in H as [H _]. apply andb_true_iff in H as [H _].
  apply andb_true_iff in H as [Hlo Hhi]. apply N.leb_le in Hlo, Hhi. lia.
Qed.

Lemma plain_text_escape (s : str) :
  forallb plainb s = true -> concat (map escape_char s) = s.
Proof.
  induction s as [|c s IH]; cbn [forallb map concat]; [reflexivity|].
  intros H. apply andb_true_iff in H as [Hc Hs].
  rewrite (plain_escape c Hc), (IH Hs). reflexivity.
Qed.

Lemma plain_text_scalar (s : str) : forallb plainb s = true -> scalar_text s.
Proof.
  intros H. apply Forall_forall. intros c Hc. apply plain_scalar.
  rewrite forallb_forall in H. apply H, list_elem_of_In, Hc.
Qed.

Lemma scanstring_plain_text (s rest : str) :
  forallb plainb s = true ->
  scanstring (length (s ++ 34%N :: rest)) [] (s ++ 34%N :: rest)
  = Some (s, rest).
Proof.
  intros H.
  pose proof (scanstring_escaped s (plain_text_scalar s H)
                (length (s ++ 34%N :: rest)) [] rest) as Hscan.
  rewrite (plain_text_escape s H) in Hscan. apply Hscan.
  rewrite length_app. cbn [length]. lia.
Qed.

Lemma skip_ws_head (c : N) (s : str) :
  is_json_space c = false -> skip_ws (c :: s) = c :: s.
Proof. intros H. cbn [skip_ws]. rewrite H. reflexivity. Qed.

(** One member of an object, [key: value], and what follows it. *)
Lemma object_member (limit fuel room : nat) (acc : list (str * json))
    (k : string) (vtext rest : str) (v : json) :
  forallb plainb (py k) = true ->
  skip_ws (vtext ++ rest) = vtext ++ rest ->
  scan_once limit fuel room (vtext ++ rest) = Scanned v rest ->
  object_items limit (S fuel) room acc (json_key k ++ vtext ++ rest)
  = match skip_ws rest with
    | 125%N :: r3 => Scanned (dict_set (py k) v acc) r3
    | 44%N :: r3 =>
      object_items limit fuel room (dict_set (py k) v acc) (skip_ws r3)
    | _ => Malformed
    end.
Proof.
  intros Hk Hhead Hvalue.
  assert (Htext : json_key k ++ vtext ++ rest
                  = 34%N :: (py k ++ 34%N :: 58%N :: 32%N :: vtext ++ rest)).
  { unfold json_key, QUOTE. rewrite <- !app_assoc. reflexivity. }
  rewrite Htext. cbn [object_items].
  rewrite (scanstring_plain_text (py k) _ Hk).
  rewrite (skip_ws_head 58) by reflexivity.
  assert (Hsp : skip_ws (32%N :: vtext ++ rest) = vtext ++ rest).
  { cbn [skip_ws]. change (is_json_space 32) with true. cbv iota. exact Hhead. }
  rewrite Hsp, Hvalue. reflexivity.
Qed.

Lemma object_member_more (limit fuel room : nat) (acc : list (str * json))
    (k k2 : string) (vtext rest : str) (v : json) :
  forallb plainb (py k) = true ->
  skip_ws (vtext ++ py ", " ++ json_key k2 ++ rest)
  = vtext ++ py ", " ++ json_key k2 ++ rest ->
  scan_once limit fuel room (vtext ++ py ", " ++ json_key k2 ++ rest)
  = Scanned v (py ", " ++ json_key k2 ++ rest) ->
  object_items limit (S fuel) room acc
    (json_key k ++ vtext ++ py ", " ++ json_key k2 ++ rest)
  = object_items limit fuel room (dict_set (py k) v acc) (json_key k2 ++ rest).
Proof.
  intros Hk Hhead Hvalue.
  rewrite (object_member limit fuel room acc k vtext _ v Hk Hhead Hvalue).
  reflexivity.
Qed.

Lemma object_member_last (limit fuel room : nat) (acc : list (str * json))
    (k : string) (vtext rest : str) (v : json) :
  forallb plainb (py k) = true ->
  skip_ws (vtext ++ py "}" ++ rest) = vtext ++ py "}" ++ rest ->
  scan_once limit fuel room (vtext ++ py "}" ++ rest)
  = Scanned v (py "}" ++ rest) ->
  object_items limit (S fuel) room acc (json_key k ++ vtext ++ py "}" ++ rest)
  = Scanned (dict_set (py k) v acc) rest.
Proof.
  intros Hk Hhead Hvalue.
  rewrite (object_member limit fuel room acc k vtext _ v Hk Hhead Hvalue).
  reflexivity.
Qed.

Lemma dict_set_other (k k' : str) (v v' : json) (d : list (str * json)) :
  k <> k' -> dict_set k v ((k', v') :: d) = (k', v') :: dict_set k v d.
Proof.
  intros H. cbn [dict_set]. rewrite bool_decide_eq_false_2 by exact H.
  reflexivity.
Qed.

Lemma repr_num_head (x : pynum) :
  exists c t, repr_num x = c :: t /\ is_json_space c = false.
Proof.
  assert (Hnat : forall neg n t,
            exists c t', sign_text neg ++ repr_nat n ++ t = c :: t'
                         /\ is_json_space c = false).
  { intros neg n t. destruct neg; cbn [sign_text app].
    - eexists _, _. split; reflexivity.
    - destruct (integer_part n [] I) as (c & ds & -> & Hc & _).
      exists c, (ds ++ t). split; [reflexivity|].
      unfold is_json_space.
      rewrite !(digit_not c _ Hc) by (left; reflexivity). reflexivity. }
  destruct x as [z | h]; cbn [repr_num].
  - rewrite repr_int_sign. rewrite <- (app_nil_r (repr_nat _)). apply Hnat.
  - destruct (repr_float2_parts h) as (f & fd & _ & _ & ->). apply Hnat.
Qed.

(** The dict [json.loads] returns for the line [json.dumps(result)]. *)
Definition entry_of (r : result) : json :=
  JDict [(py "timestamp", JStr (timestamp r));
         (py "status", JStr (status r));
         (py "output", JStr (output r));
         (py "error", JStr (error r));
         (py "duration_seconds", num_json (duration_seconds r))].

(** The texts of a result are made of Unicode scalar values. *)
Definition scalar_result (r : result) : Prop :=
  scalar_text (timestamp r) /\ scalar_text (status r)
  /\ scalar_text (output r) /\ scalar_text (error r).

Lemma scan_once_result (limit fuel room : nat) (r : result) (rest : str) :
  scalar_result r ->
  fits limit (duration_seconds r) ->
  scan_once limit (7 + fuel) (S room) (json_dumps r ++ rest)
  = Scanned (entry_of r) rest.
Proof.
  intros (Ht & Hs & Ho & He) Hfits.
  unfold json_dumps. rewrite <- !app_assoc.
  change (py "{" ++ ?x) with (123%N :: x).
  change (7 + fuel)%nat with (S (S (5 + fuel))).
  cbn [scan_once]. change (123 =? 34)%N with false.
  change (123 =? 123)%N with true. cbv iota.
  match goal with |- context [skip_ws ?b] => set (body := b) end.
  assert (Hq : skip_ws body = body) by reflexivity.
  assert (Hb : body = 34%N :: List.tl body) by reflexivity.
  rewrite Hq, Hb. cbv iota. rewrite <- Hb. subst body. clear Hq Hb.
  assert (Hstr : forall s t, skip_ws (json_dumps_str s ++ t) = json_dumps_str s ++ t)
    by reflexivity.
  rewrite (object_member_more limit (5 + fuel) room [] "timestamp" "status"
             (json_dumps_str (timestamp r)) _ (JStr (timestamp r)))
    by (first [reflexivity | apply Hstr | apply scan_once_string, Ht]).
  rewrite (object_member_more limit (4 + fuel) room _ "status" "output"
             (json_dumps_str (status r)) _ (JStr (status r)))
    by (first [reflexivity | apply Hstr | apply scan_once_string, Hs]).
  rewrite (object_member_more limit (3 + fuel) room _ "output" "error"
             (json_dumps_str (output r)) _ (JStr (output r)))
    by (first [reflexivity | apply Hstr | apply scan_once_string, Ho]).
  rewrite (object_member_more limit (2 + fuel) room _ "error" "duration_seconds"
             (json_dumps_str (error r)) _ (JStr (error r)))
    by (first [reflexivity | apply Hstr | apply scan_once_string, He]).
  rewrite (object_member_last limit (1 + fuel) room _ "duration_seconds"
             (repr_num (duration_seconds r)) rest
             (num_json (duration_seconds r))).
  - change (dict_set (py "timestamp") (JStr (timestamp r)) [])
      with [(py "timestamp", JStr (timestamp r))].
    rewrite !dict_set_other by (intros H; vm_compute in H; discriminate H).
    reflexivity.
  - reflexivity.
  - destruct (repr_num_head (duration_seconds r)) as (c & t & -> & Hc).
    apply skip_ws_head, Hc.
  - apply scan_once_number; [cbn; repeat split; discriminate | exact Hfits].
Qed.

Lemma not_bom {A} (s : str) (X Y : A) (c : N) (t : str) :
  s = c :: t -> c <> 65279%N ->
  match s with 65279%N :: _ => X | _ => Y end = Y.
Proof.
  intros -> H. destruct c as [|p]; [reflexivity|].
  do 16 (destruct p as [p|p|]; try reflexivity).
  exfalso. apply H. reflexivity.
Qed.

Lemma json_dumps_braces (r : result) :
  exists m, json_dumps r = 123%N :: 34%N :: m ++ [125%N].
Proof.
  exists (List.tl (json_key "timestamp") ++ json_dumps_str (timestamp r) ++
          py ", " ++ json_key "status" ++ json_dumps_str (status r) ++
          py ", " ++ json_key "output" ++ json_dumps_str (output r) ++
          py ", " ++ json_key "error" ++ json_dumps_str (error r) ++
          py ", " ++ json_key "duration_seconds" ++
          repr_num (duration_seconds r)).
  unfold json_dumps. rewrite <- !app_assoc. reflexivity.
Qed.

(** [json.loads(json.dumps(result))] is the dict of the result, for an
    interpreter that converts the duration and has room for one
    object. *)
Lemma json_loads_result (limit room : nat) (r : result) :
  scalar_result r ->
  fits limit (duration_seconds r) ->
  loads_with limit (S room) (json_dumps r) = inr (Some (entry_of r)).
Proof.
  intros Hr Hfits. destruct (json_dumps_braces r) as (m & Hm).
  assert (Hskip : skip_ws (json_dumps r) = json_dumps r)
    by (rewrite Hm; apply skip_ws_head; reflexivity).
  assert (Hfuel : (2 * length (json_dumps r) + 2 = 7 + (2 * length m + 1))%nat)
    by (rewrite Hm; cbn [length]; rewrite length_app; cbn [length]; lia).
  unfold loads_with.
  rewrite (not_bom (json_dumps r) _ _ 123%N _ Hm) by discriminate.
  rewrite Hskip, Hfuel.
  pose proof (scan_once_result limit (2 * length m + 1) room r [] Hr Hfits)
    as Hscan.
  rewrite app_nil_r in Hscan. rewrite Hscan. reflexivity.
Qed.

Lemma strip_bracketed (a b : N) (m : str) :
  is_whitespace a = false -> is_whitespace b = false ->
  strip (a :: m ++ [b]) = a :: m ++ [b].
Proof.
  intros Ha Hb. unfold strip, rstrip.
  rewrite app_comm_cons, rev_unit. cbn [lstrip]. rewrite Hb.
  change (rev (b :: rev (a :: m))) with (rev (rev (a :: m)) ++ [b]).
  rewrite rev_involutive. cbn [app lstrip]. rewrite Ha. reflexivity.
Qed.

(** The result is one the interpreter reads back from its line: its
    texts hold no lone surrogate, [int] converts its duration when it is
    an integer, and there is room for one object. *)
Definition readable (env : Env) (r : result) : Prop :=
  scalar_result r
  /\ fits (int_max_str_digits env) (duration_seconds r)
  /\ (0 < recursion_room env)%nat.

Lemma json_loads_logged (env : Env) (r : result) :
  readable env r ->
  strip (json_dumps r) = json_dumps r
  /\ truthy (json_dumps r) = true
  /\ json_loads env (json_dumps r) = inr (Some (entry_of r)).
Proof.
  intros (Hr & Hfits & Hroom).
  destruct (json_dumps_braces r) as (m & Hm).
  split; [|split].
  - rewrite Hm. rewrite (app_comm_cons m [125%N] 34%N).
    apply strip_bracketed; reflexivity.
  - rewrite Hm. reflexivity.
  - unfold json_loads. destruct (recursion_room env) as [|room]; [lia|].
    apply json_loads_result; assumption.
Qed.

(** A logged line decodes to the dict of its result. *)
Lemma decode_line_result (env : Env) (r : result) :
  readable env r -> decode_line env (json_dumps r) = Some (entry_of r).
Proof.
  intros Hr. destruct (json_loads_logged env r Hr) as (Hstrip & Htruthy & Hloads).
  unfold decode_line. cbv zeta. rewrite Hstrip, Htruthy, Hloads. reflexivity.
Qed.

Lemma line_raises_logged (env : Env) (r : result) :
  readable env r -> line_raises env (json_dumps r) = None.
Proof.
  intros Hr. destruct (json_loads_logged env r Hr) as (Hstrip & Htruthy & Hloads).
  unfold line_raises. cbv zeta. rewrite Hstrip, Htruthy, Hloads. reflexivity.
Qed.

Lemma decode_logged_lines (env : Env) (rs : list result) :
  Forall (readable env) rs ->
  omap (decode_line env) (map json_dumps rs) = map entry_of rs.
Proof.
  induction 1 as [|r rs Hr Hrs IH]; cbn [map omap list_omap]; [reflexivity|].
  rewrite (decode_line_result env r Hr), IH. reflexivity.
Qed.

Lemma decodable_logged_lines (env : Env) (rs : list result) :
  Forall (readable env) rs -> decodable env (map json_dumps rs).
Proof.
  induction 1 as [|r rs Hr Hrs IH]; cbn [map]; constructor;
    [apply line_raises_logged, Hr | exact IH].
Qed.

Lemma last_n_last_n {A} (n m : nat) (l : list A) :
  last_n n (last_n m l) = last_n (Nat.min n m) l.
Proof.
  unfold last_n. rewrite length_drop, drop_drop. f_equal. lia.
Qed.

Section ReadingBack.

Variable env : Env.

(** [tail] on a log file made of whole lines. *)
Lemma tail_of_lines (lg : HeartbeatLogger) (n : Z) (w : World) (ls : list str) :
  1 <= n ->
  Forall one_line ls ->
  decodable env (last_n (Z.to_nat n) ls) ->
  holds_lines env lg w ls ->
  tail env lg n w = (inr (omap (decode_line env) (last_n (Z.to_nat n) ls)), w).
Proof.
  intros Hn Hls Hquiet [Hfile | (-> & Hnone & _)];
    unfold tail, bind, path_exists, read_text, fs_query;
    fold (log_key env lg); unfold exists_at.
  - rewrite Hfile. cbn [negb]. rewrite (fs_read_text_file _ _ _ Hfile).
    rewrite (splitlines_unlines false ls Hls).
    replace (map (fun l : str => l ++ []) ls) with ls
      by (rewrite <- (map_id ls) at 1; apply map_ext; intros l;
          symmetry; apply app_nil_r).
    rewrite slice_from_last by lia.
    fold (last_n (Z.to_nat n) ls).
    rewrite decode_lines_omap by exact Hquiet. reflexivity.
  - rewrite Hnone. reflexivity.
Qed.

(** X3. Logging and reading back. After the results [rs] were logged in a
    fresh log file with a positive cap [m], [tail(n)] for [n >= 1]
    returns the dicts of the [min n m] most recent results, oldest first,
    each with the five fields it was logged with. The results are ones
    the interpreter reads back: [int] converts a duration that is an
    integer, and there is room for one object. *)
Theorem tail_returns_logged_results (lg : HeartbeatLogger)
    (rs : list result) (n : Z) (w : World) :
  log_heartbeats (lg_config lg) = true ->
  0 < max_log_lines (lg_config lg) ->
  fresh_log env lg w ->
  Forall (readable env) rs ->
  1 <= n ->
  exists w',
    log_all env lg rs w = (inr tt, w')
    /\ tail env lg n w'
       = (inr (map entry_of
                 (last_n (Z.to_nat (Z.min n (max_log_lines (lg_config lg)))) rs)),
          w').
Proof.
  intros Hon Hm Hfresh Hrs Hn.
  destruct (log_all_keeps_last env lg rs Hon Hm w []) as (w' & Hall & Hholds).
  - constructor.
  - cbn [length]. lia.
  - destruct Hfresh as [Hfile | Habsent]; [left; exact Hfile | right; tauto].
  - cbn [app] in Hholds. exists w'. split; [exact Hall|].
    assert (Hlines : Forall one_line (map json_dumps rs)).
    { apply Forall_forall. intros l Hl. apply list_elem_of_fmap in Hl.
      destruct Hl as (r & -> & _). apply json_dumps_one_line. }
    assert (Hquiet : decodable env
                       (last_n (Z.to_nat n)
                          (last_n (Z.to_nat (max_log_lines (lg_config lg)))
                             (map json_dumps rs)))).
    { unfold decodable. do 2 apply last_n_Forall.
      apply decodable_logged_lines, Hrs. }
    rewrite (tail_of_lines lg n w' _ Hn (last_n_Forall _ _ _ Hlines) Hquiet
               Hholds).
    rewrite last_n_last_n, last_n_map, decode_logged_lines
      by (apply last_n_Forall, Hrs).
    rewrite Z2Nat.inj_min. reflexivity.
Qed.

End ReadingBack.

(** ** The sinks *)

Section SinkProperties.

Variable env : Env.

(** The requests a trace holds. *)
Definition is_post (e : event) : bool :=
  match e with HttpPost _ _ => true | _ => false end.

Definition is_stdout (e : event) : bool :=
  match e with Print Stdout _ => true | _ => false end.

Lemma printed_no_post (t : list event) (msgs : list (stream * str)) :
  List.filter is_post (fst (printed env t msgs)) = [].
Proof.
  revert t. induction msgs as [|[to text] msgs IH]; intros t;
    cbn [printed]; [reflexivity|].
  destruct (console env t to text); [reflexivity|].
  specialize (IH (t ++ [Print to text])).
  destruct (printed env (t ++ [Print to text]) msgs) as [evs o].
  cbn [fst List.filter is_post] in *. exact IH.
Qed.

Lemma send_events_no_stdout (self : HeartbeatRunner) (r : result)
    (t : list event) :
  List.filter is_stdout (send_events env self r t) = [].
Proof.
  unfold send_events. cbv zeta. destruct (make_request env _); [reflexivity|].
  destruct (urlopen env _ _) as [|e]; [reflexivity|].
  destruct (is_URLError e); [|reflexivity].
  unfold failed_line. cbn [printed].
  destruct (console env _ Stderr _); reflexivity.
Qed.

Lemma send_events_posts (self : HeartbeatRunner) (r : result)
    (t : list event) :
  List.filter is_post (send_events env self r t)
  = match make_request env (c3poh_endpoint (config self)) with
    | Some _ => []
    | None => [HttpPost (c3poh_endpoint (config self)) (json_dumps_payload r)]
    end.
Proof.
  unfold send_events. cbv zeta. destruct (make_request env _); [reflexivity|].
  cbn [List.filter is_post]. f_equal.
  destruct (urlopen env _ _) as [|e]; [reflexivity|].
  destruct (is_URLError e); [apply printed_no_post | reflexivity].
Qed.

Lemma shown_no_post (self : HeartbeatRunner) (r : result) (t : list event) :
  List.filter is_post (fst (shown env self r t)) = [].
Proof.
  unfold shown. destruct (notify_stdout (config self));
    [apply printed_no_post | reflexivity].
Qed.

(** Printing the result raises nothing when the console sink is off or
    the console takes whatever is printed. *)
Lemma shown_ok (self : HeartbeatRunner) (r : result) (t : list event) :
  notify_stdout (config self) = false \/ console_ok env ->
  snd (shown env self r t) = None.
Proof.
  unfold shown. intros [-> | Hok]; [reflexivity|].
  destruct (notify_stdout (config self)); [|reflexivity].
  rewrite (printed_ok env _ _ Hok). reflexivity.
Qed.

(** X4. The sinks follow their switches. [_emit] never touches the file
    system and reads no clock. With [notify_stdout] off it prints nothing
    on the standard output. With [notify_c3poh] off or without an
    endpoint it sends nothing, and it returns unless printing the result
    raised, in which case that exception leaves it. Otherwise, when
    printing the result raised it sends nothing, and when it did not it
    sends one POST, to the configured endpoint, with [json.dumps] of the
    source and the result as its body, unless the request cannot be
    built. Printing the result raises nothing when [notify_stdout] is
    off or the console takes whatever is printed. *)
Theorem emit_follows_switches (self : HeartbeatRunner) (r : result) (w : World) :
  exists o evs,
    _emit env self r w
    = (o, {| fs := fs w; trace := trace w ++ EmitCall r :: evs;
             clock_reads := clock_reads w;
             heartbeat_md_path := heartbeat_md_path w |})
    /\ (notify_stdout (config self) = false -> List.filter is_stdout evs = [])
    /\ (notify_c3poh (config self) = false
        \/ c3poh_endpoint (config self) = [] ->
        o = outcome_of (snd (shown env self r (trace w)))
        /\ List.filter is_post evs = [])
    /\ (notify_c3poh (config self) = true ->
        c3poh_endpoint (config self) <> [] ->
        List.filter is_post evs
        = match snd (shown env self r (trace w)) with
          | Some _ => []
          | None =>
            match make_request env (c3poh_endpoint (config self)) with
            | Some _ => []
            | None => [HttpPost (c3poh_endpoint (config self))
                                (json_dumps_payload r)]
            end
          end)
    /\ (notify_stdout (config self) = false \/ console_ok env ->
        snd (shown env self r (trace w)) = None).
Proof.
  destruct w as [f t c h]. rewrite emit_eq.
  exists (emit_outcome env self r t), (emit_events env self r t).
  cbn [fs trace clock_reads heartbeat_md_path].
  split; [reflexivity|].
  unfold emit_events, emit_outcome, remote_on.
  split; [|split; [|split]].
  - intros Hoff. unfold shown. rewrite Hoff. cbn [fst snd app].
    destruct (_ && _); [|reflexivity].
    apply send_events_no_stdout.
  - intros Hoff.
    assert (Hrem : notify_c3poh (config self)
                   && truthy (c3poh_endpoint (config self)) = false).
    { destruct Hoff as [-> | ->]; [reflexivity | apply andb_false_r]. }
    rewrite Hrem. split.
    + destruct (snd (shown env self r t)); reflexivity.
    + rewrite List.filter_app, shown_no_post.
      destruct (snd (shown env self r t)); reflexivity.
  - intros -> Hend.
    destruct (c3poh_endpoint (config self)) as [|a u] eqn:Hu; [congruence|].
    cbn [andb truthy]. rewrite List.filter_app, shown_no_post. cbn [app].
    destruct (snd (shown env self r t)); [reflexivity|].
    rewrite send_events_posts, Hu. reflexivity.
  - apply shown_ok.
Qed.

End SinkProperties.

(** ** The body of the request *)

Lemma scan_once_payload (limit fuel room : nat) (r : result) (rest : str) :
  scalar_result r ->
  fits limit (duration_seconds r) ->
  scan_once limit (10 + fuel) (S (S room)) (json_dumps_payload r ++ rest)
  = Scanned
      (JDict [(py "source", JStr (py "tinman")); (py "result", entry_of r)])
      rest.
Proof.
  intros Hr Hfits.
  unfold json_dumps_payload. rewrite <- !app_assoc.
  change (py "{" ++ ?x) with (123%N :: x).
  change (10 + fuel)%nat with (S (S (8 + fuel))).
  cbn [scan_once]. change (123 =? 34)%N with false.
  change (123 =? 123)%N with true. cbv iota.
  match goal with |- context [skip_ws ?b] => set (body := b) end.
  assert (Hq : skip_ws body = body) by reflexivity.
  assert (Hb : body = 34%N :: List.tl body) by reflexivity.
  rewrite Hq, Hb. cbv iota. rewrite <- Hb. subst body. clear Hq Hb.
  rewrite (object_member_more limit (8 + fuel) (S room) [] "source" "result"
             (json_dumps_str (py "tinman")) _ (JStr (py "tinman")));
    [|reflexivity|reflexivity|].
  - change (8 + fuel)%nat with (S (7 + fuel)).
    rewrite (object_member_last limit (7 + fuel) (S room) _ "result"
               (json_dumps r) rest
               (entry_of r)).
    + change (dict_set (py "source") (JStr (py "tinman")) [])
        with [(py "source", JStr (py "tinman"))].
      rewrite dict_set_other by (intros H; vm_compute in H; discriminate H).
      reflexivity.
    + reflexivity.
    + destruct (json_dumps_braces r) as (m & ->). reflexivity.
    + apply scan_once_result; assumption.
  - apply scan_once_string. apply plain_text_scalar. reflexivity.
Qed.

Lemma json_loads_payload (limit room : nat) (r : result) :
  scalar_result r ->
  fits limit (duration_seconds r) ->
  loads_with limit (S (S room)) (json_dumps_payload r)
  = inr (Some (JDict [(py "source", JStr (py "tinman"));
                      (py "result", entry_of r)])).
Proof.
  intros Hr Hfits.
  assert (Hm : exists m, json_dumps_payload r
                         = 123%N :: 34%N :: 115%N :: m ++ [125%N]).
  { exists (List.tl (List.tl (json_key "source")) ++
            json_dumps_str (py "tinman") ++ py ", " ++ json_key "result" ++
            json_dumps r).
    unfold json_dumps_payload. rewrite <- !app_assoc. reflexivity. }
  destruct Hm as (m & Hm).
  assert (Hskip : skip_ws (json_dumps_payload r) = json_dumps_payload r)
    by (rewrite Hm; apply skip_ws_head; reflexivity).
  assert (Hfuel : (2 * length (json_dumps_payload r) + 2
                   = 10 + 2 * length m)%nat)
    by (rewrite Hm; cbn [length]; rewrite length_app; cbn [length]; lia).
  unfold loads_with.
  rewrite (not_bom (json_dumps_payload r) _ _ 123%N _ Hm) by discriminate.
  rewrite Hskip, Hfuel.
  pose proof (scan_once_payload limit (2 * length m) room r [] Hr Hfits)
    as Hscan.
  rewrite app_nil_r in Hscan. rewrite Hscan. reflexivity.
Qed.

Section RemoteProperties.

Variable env : Env.

(** X5. What the remote side receives. Whenever the request can be built,
    [_send_c3poh] sends exactly one POST to the configured endpoint, and
    its body is a JSON object that [json.loads] reads back as the source
    ["tinman"] and the result with its five fields, in any interpreter
    whose [int] converts a duration that is an integer and that has room
    for two nested objects. *)
Theorem remote_payload_carries_result (self : HeartbeatRunner) (r : result)
    (w : World) :
  scalar_result r ->
  make_request env (c3poh_endpoint (config self)) = None ->
  exists o body evs,
    _send_c3poh env self r w
    = (o, {| fs := fs w;
             trace := trace w
                      ++ HttpPost (c3poh_endpoint (config self)) body :: evs;
             clock_reads := clock_reads w;
             heartbeat_md_path := heartbeat_md_path w |})
    /\ (forall limit room : nat,
          fits limit (duration_seconds r) ->
          loads_with limit (S (S room)) body
          = inr (Some (JDict [(py "source", JStr (py "tinman"));
                              (py "result", entry_of r)])))
    /\ List.filter is_post evs = [].
Proof.
  intros Hr Hreq. destruct w as [f t c h]. rewrite send_c3poh_eq.
  unfold send_events. cbv zeta. rewrite Hreq.
  cbn [fs trace clock_reads heartbeat_md_path].
  eexists _, _, _. split; [reflexivity|].
  split; [intros limit room Hfits; apply json_loads_payload; assumption|].
  destruct (urlopen env _ _) as [|e]; [reflexivity|].
  destruct (is_URLError e); [apply printed_no_post | reflexivity].
Qed.

End RemoteProperties.

(** ** A cycle and the world around it *)

Section CycleProperties.

Variable env : Env.

Lemma rotate_frame (lg : HeartbeatLogger) (f : filesystem) (t : list event)
    (c : nat) (h : option Path) :
  exists f',
    _rotate_if_needed env lg
      {| fs := f; trace := t; clock_reads := c; heartbeat_md_path := h |}
    = (inr tt,
       {| fs := f'; trace := t; clock_reads := c; heartbeat_md_path := h |})
    /\ forall k, k <> log_key env lg -> node_at f' k = node_at f k.
Proof.
  unfold _rotate_if_needed, try_except, bind, read_text, fs_query.
  cbn [fs]. fold (log_key env lg).
  destruct (fs_read_text f _) as [e|text];
    [exists f; split; [reflexivity | reflexivity]|].
  destruct (_ >? _); [|exists f; split; reflexivity].
  unfold write_text, fs_update, fs_write_text. cbn [fs]. fold (log_key env lg).
  destruct (open_for_writing f _); [exists f; split; reflexivity|].
  eexists. split; [reflexivity|].
  intros k Hk. apply node_at_insert_ne. congruence.
Qed.

(** [log] in full: the record of the call, then either the exception of
    [open], with the file system as it was, or a new log file and
    nothing else changed. *)
Lemma log_frame (lg : HeartbeatLogger) (r : result) (f : filesystem)
    (t : list event) (c : nat) (h : option Path) :
  exists o f',
    log env lg r
      {| fs := f; trace := t; clock_reads := c; heartbeat_md_path := h |}
    = (o, {| fs := f'; trace := t ++ [LogCall r]; clock_reads := c;
             heartbeat_md_path := h |})
    /\ (forall k, k <> log_key env lg -> node_at f' k = node_at f k)
    /\ (log_heartbeats (lg_config lg) = false -> o = inr tt /\ f' = f)
    /\ (log_heartbeats (lg_config lg) = true ->
        match open_for_writing f (log_key env lg) with
        | Some e => o = inl e /\ f' = f
        | None => o = inr tt
        end).
Proof.
  unfold log, bind, emit_event.
  cbn [fs trace clock_reads heartbeat_md_path].
  destruct (log_heartbeats (lg_config lg)); cbn [negb].
  - unfold append_text, fs_update, fs_append_text. cbn [fs].
    fold (log_key env lg).
    destruct (open_for_writing f (log_key env lg)) as [e|] eqn:Hopen.
    + exists (inl e), f. split; [reflexivity|]. split; [reflexivity|].
      split; [discriminate | intros _; split; reflexivity].
    + destruct (node_at f (log_key env lg)) as [[old|]|];
        match goal with
        | |- context [_rotate_if_needed env lg (set_fs _ ?f1)] =>
          destruct (rotate_frame lg f1 (t ++ [LogCall r]) c h)
            as (f' & Hrot & Hframe);
          exists (inr tt), f'; unfold set_fs;
          cbn [fs trace clock_reads heartbeat_md_path]; rewrite Hrot;
          split; [reflexivity|];
          split; [intros k Hk; rewrite (Hframe k Hk);
                  apply node_at_insert_ne; congruence|];
          split; [discriminate | intros _; reflexivity]
        end.
  - exists (inr tt), f. split; [reflexivity|]. split; [reflexivity|].
    split; [intros _; split; reflexivity | discriminate].
Qed.

(** Step 6 in full. *)
Lemma persist_frame (self : HeartbeatRunner) (r : result) (f : filesystem)
    (t : list event) (c : nat) (h : option Path) :
  exists o f',
    log env (logger self) r
      {| fs := f; trace := t; clock_reads := c; heartbeat_md_path := h |}
    = (o, {| fs := f'; trace := t ++ [LogCall r]; clock_reads := c;
             heartbeat_md_path := h |})
    /\ (forall k, k <> log_key env (logger self) -> node_at f' k = node_at f k)
    /\ persist env self r
         {| fs := f; trace := t; clock_reads := c; heartbeat_md_path := h |}
       = match o with
         | inl e => (inl e, {| fs := f'; trace := t ++ [LogCall r];
                               clock_reads := c; heartbeat_md_path := h |})
         | inr _ =>
           (match emit_outcome env self r (t ++ [LogCall r]) with
            | inl e => inl e
            | inr _ => inr r
            end,
            {| fs := f';
               trace := t ++ LogCall r :: EmitCall r
                          :: emit_events env self r (t ++ [LogCall r]);
               clock_reads := c; heartbeat_md_path := h |})
         end.
Proof.
  destruct (log_frame (logger self) r f t c h) as (o & f' & Hlog & Hframe & _).
  exists o, f'. split; [exact Hlog|]. split; [exact Hframe|].
  unfold persist. unfold bind at 1. rewrite Hlog.
  destruct o as [e|[]]; [reflexivity|].
  unfold bind at 1. rewrite emit_eq. rewrite <- app_assoc.
  destruct (emit_outcome env self r _) as [e|[]]; reflexivity.
Qed.

(** What the sinks leave in the trace is printed or posted. *)
Lemma emit_events_only_output (self : HeartbeatRunner) (r : result)
    (t : list event) (ev : event) :
  In ev (EmitCall r :: emit_events env self r t) ->
  ev = EmitCall r \/ is_output ev = true.
Proof.
  intros [<-|Hin]; [left; reflexivity | right].
  pose proof (emit_events_output env self r t) as Hout.
  rewrite List.forallb_forall in Hout. apply Hout, Hin.
Qed.

Lemma ensure_clock (self : HeartbeatRunner) (w : World) :
  clock_reads (snd (ensure_heartbeat_md env self w)) = clock_reads w.
Proof.
  destruct (checklist_path env (config self)) as [e|p] eqn:Hp.
  - unfold checklist_path in Hp. unfold ensure_heartbeat_md, bind, lift.
    destruct (expanduser _ _); [reflexivity | discriminate].
  - destruct (checklist_path_absolute _ _ _ Hp) as (ps & ->).
    destruct (exists_at (fs w) (resolve env (Abs ps))) eqn:Hex.
    + rewrite (ensure_existing env self w _ Hp Hex). reflexivity.
    + rewrite (ensure_missing env self w ps Hp Hex).
      destruct (mkdir_parents _ _ _) as [e|f1]; [reflexivity|].
      destruct (fs_write_text _ _ _) as [e|f2]; [reflexivity|].
      destruct (printed env _ _) as [evs [e|]]; reflexivity.
Qed.

(** X6. A cycle and the files. Whatever happens in [run_beat] once the
    checklist is in place, the only path it may change is the log file:
    every other path has the node [ensure_heartbeat_md] left there. The
    clock is read twice at most. *)
Theorem run_beat_writes_only_log (self : HeartbeatRunner) (w : World) :
  (forall k, k <> log_key env (logger self) ->
     node_at (fs (snd (run_beat env self w))) k
     = node_at (fs (snd (ensure_heartbeat_md env self w))) k)
  /\ (clock_reads (snd (run_beat env self w)) <= clock_reads w + 2)%nat
  /\ heartbeat_md_path (snd (run_beat env self w))
     = heartbeat_md_path (snd (ensure_heartbeat_md env self w)).
Proof.
  pose proof (ensure_clock self w) as Hclock.
  rewrite run_beat_eq.
  destruct (ensure_heartbeat_md env self w) as [[e|p] w0];
    cbn [snd] in *; [split; [reflexivity | split; [lia | reflexivity]]|].
  destruct (fs_read_text (fs w0) (resolve env p)) as [e|checklist];
    cbn [snd]; [split; [reflexivity | split; [lia | reflexivity]]|].
  destruct w0 as [f t c h]. cbn [clock_reads] in Hclock.
  destruct (truthy (strip checklist)); unfold after_invocation;
    cbn [fs trace clock_reads heartbeat_md_path];
    match goal with
    | |- context [persist env self ?r
                    {| fs := f; trace := ?t1; clock_reads := ?c1;
                       heartbeat_md_path := h |}] =>
      destruct (persist_frame self r f t1 c1 h) as (o & f' & _ & Hframe & ->)
    end.
  all: destruct o as [e|[]]; cbn [snd fs clock_reads heartbeat_md_path].
  all: split; [exact Hframe | split; [lia | reflexivity]].
Qed.

(** X7. A cycle on an empty checklist. When the checklist is blank the cycle
    starts no subprocess and reads no clock; its result is the skipped
    one, with the message that tells why and the integer [0] it was
    created with as duration, and it goes through step 6 like any
    other: it is handed to [log], and returned whenever [log], [print]
    and the remote sink raise nothing. *)
Theorem empty_checklist_skips (self : HeartbeatRunner) (w w0 : World)
    (p : Path) (checklist : str) :
  ensure_heartbeat_md env self w = (inr p, w0) ->
  fs_read_text (fs w0) (resolve env p) = inr checklist ->
  truthy (strip checklist) = false ->
  let r := {| timestamp := utcnow_isoformat env ++ py "Z";
              status := py "skipped_empty"; output := MSG_SKIPPED;
              error := []; duration_seconds := PyInt 0 |} in
  exists new,
    trace (snd (run_beat env self w)) = trace w0 ++ LogCall r :: new
    /\ (forall cmd, ~ In (SubprocessRun cmd) new)
    /\ (forall r', ~ In (LogCall r') new)
    /\ clock_reads (snd (run_beat env self w)) = clock_reads w
    /\ (forall r', fst (run_beat env self w) = inr r' -> r' = r)
    /\ (log_ok env self w0 -> console_ok env -> remote_ok env self ->
        fst (run_beat env self w) = inr r)
    /\ repr_num (duration_seconds r) = py "0".
Proof.
  intros Hens Hread Hblank r.
  pose proof (ensure_clock self w) as Hclock. rewrite Hens in Hclock.
  cbn [snd] in Hclock.
  rewrite run_beat_eq, Hens, Hread, Hblank.
  change (skipped_result env) with r.
  destruct w0 as [f t c h]. cbn [clock_reads trace] in *.
  destruct (persist_frame self r f t c h) as (o & f' & Hlog & _ & ->).
  assert (Hnosub : forall cmd,
             ~ In (SubprocessRun cmd)
                  (EmitCall r :: emit_events env self r (t ++ [LogCall r]))).
  { intros cmd Hin. apply emit_events_only_output in Hin as [Hin|Hin];
      discriminate. }
  assert (Hnolog : forall r',
             ~ In (LogCall r')
                  (EmitCall r :: emit_events env self r (t ++ [LogCall r]))).
  { intros r' Hin. apply emit_events_only_output in Hin as [Hin|Hin];
      discriminate. }
  destruct (log_spec env self r f t c h) as (o1 & f1 & Hlog1 & Hlogok).
  cbv zeta in Hlog1, Hlogok.
  rewrite Hlog in Hlog1. injection Hlog1 as <- <-.
  destruct o as [e|[]]; cbn [fst snd trace clock_reads].
  - exists []. split; [reflexivity|]. split; [intros cmd []|].
    split; [intros r' []|]. split; [exact Hclock|].
    split; [discriminate|]. split; [|reflexivity].
    intros Hok _ _. specialize (Hlogok Hok). discriminate.
  - exists (EmitCall r :: emit_events env self r (t ++ [LogCall r])).
    split; [reflexivity|]. split; [exact Hnosub|]. split; [exact Hnolog|].
    split; [exact Hclock|].
    split; [destruct (emit_outcome env self r _) as [e|[]]; congruence|].
    split; [|reflexivity].
    intros _ Hconsole Hremote.
    rewrite (emit_outcome_ok env self r _ Hconsole Hremote). reflexivity.
Qed.

End CycleProperties.

(** ** Faults in step 6 *)

Section FaultProperties.

Variable env : Env.

Lemma step_events_subprocess (self : HeartbeatRunner) (checklist : str)
    (ev : event) :
  In ev (step_events env self checklist) -> exists cmd, ev = SubprocessRun cmd.
Proof.
  unfold step_events, invocation_events.
  destruct (truthy _); [|intros []].
  destruct (tool env); [|intros []].
  intros [<-|[]]. eexists. reflexivity.
Qed.

(** The world of step 6 and its result, for a checklist that was read. *)
Lemma run_beat_step6 (self : HeartbeatRunner) (w w0 : World) (p : Path)
    (checklist : str) :
  ensure_heartbeat_md env self w = (inr p, w0) ->
  fs_read_text (fs w0) (resolve env p) = inr checklist ->
  run_beat env self w
  = persist env self (final_result env self checklist w0)
      {| fs := fs w0; trace := trace w0 ++ step_events env self checklist;
         clock_reads := (if truthy (strip checklist)
                         then S (S (clock_reads w0)) else clock_reads w0);
         heartbeat_md_path := heartbeat_md_path w0 |}.
Proof.
  intros Hens Hread. rewrite run_beat_eq, Hens, Hread.
  unfold final_result, step_events, after_invocation.
  destruct (truthy (strip checklist)); [reflexivity|].
  destruct w0 as [f t c h]. cbn [fs trace clock_reads heartbeat_md_path].
  rewrite app_nil_r. reflexivity.
Qed.

(** X8. A log file that cannot be opened. With logging on, when [open] on
    the log path raises (the path is a directory, or its directory is
    gone), the exception leaves [run_beat]: the cycle has called [log]
    with its result and nothing after it, no sink is reached, nothing is
    printed, and the file system is as the set-up left it. *)
Theorem log_failure_stops_cycle (self : HeartbeatRunner) (w w0 : World)
    (p : Path) (checklist : str) (e : exn) :
  ensure_heartbeat_md env self w = (inr p, w0) ->
  fs_read_text (fs w0) (resolve env p) = inr checklist ->
  log_heartbeats (lg_config (logger self)) = true ->
  open_for_writing (fs w0) (resolve env (log_path (logger self))) = Some e ->
  exists r started,
    fst (run_beat env self w) = inl e
    /\ trace (snd (run_beat env self w)) = trace w0 ++ started ++ [LogCall r]
    /\ (forall ev, In ev started -> exists cmd, ev = SubprocessRun cmd)
    /\ fs (snd (run_beat env self w)) = fs w0
    /\ final_status (status r).
Proof.
  intros Hens Hread Hon Hopen.
  set (r := final_result env self checklist w0).
  assert (Hrun : run_beat env self w
            = (inl e,
               {| fs := fs w0;
                  trace := (trace w0 ++ step_events env self checklist)
                           ++ [LogCall r];
                  clock_reads := (if truthy (strip checklist)
                                  then S (S (clock_reads w0))
                                  else clock_reads w0);
                  heartbeat_md_path := heartbeat_md_path w0 |})).
  { rewrite (run_beat_step6 self w w0 p checklist Hens Hread). fold r.
    match goal with
    | |- context [persist env self r
                    {| fs := ?f; trace := ?t; clock_reads := ?c;
                       heartbeat_md_path := ?h |}] =>
      destruct (log_frame env (logger self) r f t c h)
        as (o & f' & Hlog & _ & _ & Hraise)
    end.
    unfold persist. unfold bind at 1. rewrite Hlog.
    specialize (Hraise Hon). unfold log_key in Hraise. rewrite Hopen in Hraise.
    destruct Hraise as [-> ->]. reflexivity. }
  rewrite Hrun. cbn [fst snd trace fs].
  exists r, (step_events env self checklist).
  split; [reflexivity|]. split; [rewrite <- app_assoc; reflexivity|].
  split; [apply step_events_subprocess|]. split; [reflexivity|].
  apply final_result_status.
Qed.

(** X9. A remote sink that fails. With the remote sink on, when the request
    cannot be built, or [urlopen] raises anything but a URLError, the
    exception leaves [_emit] and [run_beat]; by then the cycle has called
    [log] and [_emit] with its result, once each. The remote sink is
    reached because printing the result raised nothing: the console sink
    is off, or the console takes whatever is printed. *)
Theorem remote_failure_leaves_cycle (self : HeartbeatRunner) (w w0 : World)
    (p : Path) (checklist : str) (e : exn) :
  ensure_heartbeat_md env self w = (inr p, w0) ->
  fs_read_text (fs w0) (resolve env p) = inr checklist ->
  log_ok env self w0 ->
  notify_stdout (config self) = false \/ console_ok env ->
  notify_c3poh (config self) = true ->
  c3poh_endpoint (config self) <> [] ->
  make_request env (c3poh_endpoint (config self)) = Some e
  \/ (make_request env (c3poh_endpoint (config self)) = None
      /\ (forall body,
            urlopen env (c3poh_endpoint (config self)) body = UrlopenRaises e)
      /\ is_URLError e = false) ->
  exists r new,
    fst (run_beat env self w) = inl e
    /\ trace (snd (run_beat env self w)) = trace w0 ++ new
    /\ calls new = [LogCall r; EmitCall r]
    /\ final_status (status r)
    /\ (make_request env (c3poh_endpoint (config self)) = None ->
        last new = Some (HttpPost (c3poh_endpoint (config self))
                                  (json_dumps_payload r))).
Proof.
  intros Hens Hread Hlogok Hconsole Hon Hend Hfault.
  set (r := final_result env self checklist w0).
  set (t1 := (trace w0 ++ step_events env self checklist) ++ [LogCall r]).
  assert (Hremote : remote_on self = true).
  { unfold remote_on. rewrite Hon.
    destruct (c3poh_endpoint (config self)); [congruence | reflexivity]. }
  assert (Hout : emit_outcome env self r t1 = inl e).
  { unfold emit_outcome.
    rewrite (shown_ok env self r t1 Hconsole), Hremote.
    unfold send_outcome. cbv zeta.
    destruct Hfault as [-> | (-> & Hopen & Hurl)]; [reflexivity|].
    rewrite Hopen, Hurl. reflexivity. }
  pose proof (emit_events_output env self r t1) as Hposts.
  assert (Hrun : exists f',
            run_beat env self w
            = (inl e,
               {| fs := f';
                  trace := (trace w0 ++ step_events env self checklist)
                           ++ LogCall r :: EmitCall r
                              :: emit_events env self r t1;
                  clock_reads := (if truthy (strip checklist)
                                  then S (S (clock_reads w0))
                                  else clock_reads w0);
                  heartbeat_md_path := heartbeat_md_path w0 |})).
  { rewrite (run_beat_step6 self w w0 p checklist Hens Hread). fold r.
    match goal with
    | |- context [persist env self r
                    {| fs := ?f; trace := ?t; clock_reads := ?c;
                       heartbeat_md_path := ?h |}] =>
      destruct (persist_frame env self r f t c h) as (o & f' & Hlog & _ & ->);
      destruct (log_spec env self r f t c h) as (o1 & f1 & Hlog1 & Hok1)
    end.
    cbv zeta in Hlog1, Hok1. rewrite Hlog in Hlog1. injection Hlog1 as <- <-.
    rewrite (Hok1 Hlogok). fold t1. rewrite Hout. exists f'. reflexivity. }
  destruct Hrun as (f' & Hrun). rewrite Hrun. cbn [fst snd trace].
  exists r, (step_events env self checklist
             ++ LogCall r :: EmitCall r :: emit_events env self r t1).
  split; [reflexivity|]. split; [rewrite <- app_assoc; reflexivity|].
  split.
  { rewrite calls_app.
    assert (Hstep : calls (step_events env self checklist) = []).
    { unfold step_events, invocation_events.
      destruct (truthy _); [|reflexivity]. destruct (tool env); reflexivity. }
    rewrite Hstep.
    change (LogCall r :: EmitCall r :: emit_events env self r t1)
      with ([LogCall r; EmitCall r] ++ emit_events env self r t1).
    rewrite calls_app, (calls_output _ Hposts). reflexivity. }
  split; [apply final_result_status|].
  intros Hreq. destruct Hfault as [Hsome | (_ & Hopen & Hurl)]; [congruence|].
  unfold emit_events. rewrite (shown_ok env self r t1 Hconsole), Hremote.
  unfold send_events. cbv zeta. rewrite Hreq, Hopen, Hurl.
  rewrite !app_comm_cons, app_assoc. apply last_snoc.
Qed.

End FaultProperties.

(** ** The edges of [tail] and of the constructors *)

Section EdgeProperties.

Variable env : Env.


(** X11. [tail] on a directory. When the log path is a directory,
    [exists()] holds and [read_text] raises: [tail] raises
    IsADirectoryError, whatever the count. *)
Theorem tail_raises_on_directory (lg : HeartbeatLogger) (n : Z) (w : World) :
  node_at (fs w) (log_key env lg) = Some Dir ->
  exists e,
    tail env lg n w = (inl e, w) /\ exn_class_of e = IsADirectoryError.
Proof.
  intros Hdir. unfold log_key in Hdir.
  assert (Hread : fs_read_text (fs w) (resolve env (log_path lg))
            = inl (os_error IsADirectoryError "[Errno 21] Is a directory"))
    by (unfold fs_read_text; rewrite Hdir; reflexivity).
  eexists.
  unfold tail, bind, path_exists, read_text, fs_query.
  unfold exists_at. rewrite Hdir. cbn [negb]. rewrite Hread.
  split; reflexivity.
Qed.

Lemma mkdir_parents_on_file (f : filesystem) (base rparts : list str)
    (text : str) :
  node_at f (base ++ rev rparts) = Some (File text) ->
  mkdir_parents f base rparts
  = inl (os_error FileExistsError "[Errno 17] File exists").
Proof.
  intros Hfile.
  assert (Hstep : os_mkdir f (base ++ rev rparts)
                  = inl (os_error FileExistsError "[Errno 17] File exists"))
    by (unfold os_mkdir; rewrite Hfile; reflexivity).
  assert (Hdir : is_dir_at f (base ++ rev rparts) = false)
    by (unfold is_dir_at; rewrite Hfile; reflexivity).
  destruct rparts; cbn [mkdir_parents]; rewrite Hstep;
    cbn [is_FileNotFoundError os_error exn_class_of]; rewrite Hdir;
    reflexivity.
Qed.

(** X12. A regular file where the log directory should be. When the parent of
    the log path is a regular file, constructing the logger raises
    FileExistsError and leaves the world as it is, and so does
    constructing the runner: no cycle can start. *)
Theorem logger_init_fails_on_file (cfg : TinManConfig) (w : World) (p : Path)
    (text : str) :
  expanduser env (Path_of_str (log_file cfg)) = inr p ->
  node_at (fs w) (resolve env (parent p)) = Some (File text) ->
  exists e,
    exn_class_of e = FileExistsError
    /\ HeartbeatLogger_init env cfg w = (inl e, w)
    /\ HeartbeatRunner_init env cfg w = (inl e, w).
Proof.
  intros Hexp Hfile. eexists. split; [|split].
  2: { unfold HeartbeatLogger_init, bind, lift. rewrite Hexp. unfold ret at 1.
       unfold mkdir, fs_update.
       rewrite resolve_base_parts in Hfile.
       assert (Hmk : match parent p with
                     | Abs ps => mkdir_parents (fs w) [] (rev ps)
                     | Rel ps => mkdir_parents (fs w) (cwd env) (rev ps)
                     end
                     = inl (os_error FileExistsError "[Errno 17] File exists")).
       { destruct (parent p) as [ps|ps]; cbn [path_base path_parts] in Hfile;
           apply (mkdir_parents_on_file _ _ _ text); exact Hfile. }
       rewrite Hmk. reflexivity. }
  - reflexivity.
  - unfold HeartbeatRunner_init, bind at 1.
    unfold HeartbeatLogger_init, bind, lift. rewrite Hexp. unfold ret at 1.
    unfold mkdir, fs_update.
    rewrite resolve_base_parts in Hfile.
    assert (Hmk : match parent p with
                  | Abs ps => mkdir_parents (fs w) [] (rev ps)
                  | Rel ps => mkdir_parents (fs w) (cwd env) (rev ps)
                  end
                  = inl (os_error FileExistsError "[Errno 17] File exists")).
    { destruct (parent p) as [ps|ps]; cbn [path_base path_parts] in Hfile;
        apply (mkdir_parents_on_file _ _ _ text); exact Hfile. }
    rewrite Hmk. reflexivity.
Qed.

End EdgeProperties.

(** ** The command line (tinman/__main__.py) *)

Section CommandProperties.

Variable env : Env.




End CommandProperties.

(** * The further properties on sample worlds *)

Definition scalarb (c : N) : bool :=
  ((c <? 1114112) && negb ((55296 <=? c) && (c <=? 57343)))%N.

Lemma scalar_check (s : str) : forallb scalarb s = true -> scalar_text s.
Proof.
  intros H. apply Forall_forall. intros c Hc.
  rewrite forallb_forall in H. specialize (H c (proj1 (list_elem_of_In _ _) Hc)).
  unfold scalarb in H. apply andb_true_iff in H as [Hlt Hsur].
  apply N.ltb_lt in Hlt. apply negb_true_iff in Hsur.
  split; [exact Hlt|]. intros [Hlo Hhi].
  apply N.leb_le in Hlo, Hhi. rewrite Hlo, Hhi in Hsur. discriminate.
Defined.

Lemma sample_result_scalar (st : string) :
  forallb scalarb (py st) = true -> scalar_result (sample_result st).
Proof.
  intros H. repeat split; cbn [sample_result timestamp status output error];
    try (apply scalar_check; first [exact H | reflexivity]).
Defined.

Lemma sample_result_readable (st : string) :
  forallb scalarb (py st) = true ->
  readable (sample_env None [] [] 0) (sample_result st).
Proof.
  intros H. split; [apply sample_result_scalar, H|].
  split; [reflexivity | cbn; lia].
Defined.

(** A log file of three lines. *)
Definition three_lines : str :=
  py "a" ++ [LF] ++ py "b" ++ [LF] ++ py "c" ++ [LF].

Definition long_log_world : World :=
  world_of (<[ [py "h"; py "u"; py "t"; py "log"] := File three_lines ]>
            sample_dirs).

(** Rotation with a cap of two lines keeps the last two of three. *)
Lemma rotate_keeps_last_lines_witness :
  exists w',
    _rotate_if_needed (sample_env None [] [] 0) sample_logger long_log_world
    = (inr tt, w')
    /\ node_at (fs w') [py "h"; py "u"; py "t"; py "log"]
       = Some (File (py "b" ++ [LF] ++ py "c" ++ [LF])).
Proof.
  destruct (rotate_keeps_last_lines (sample_env None [] [] 0) sample_logger
              long_log_world three_lines eq_refl eq_refl)
    as (w' & kept & dropped & Hrot & Hnode & _ & Hsplit & _).
  exists w'. split; [exact Hrot|].
  unfold log_key in Hnode. cbn [resolve sample_logger log_path sample_log_path] in Hnode.
  rewrite Hnode, <- (concat_splitlines kept), Hsplit. reflexivity.
Defined.

(** Three results logged with a cap of two, then [tail(5)]. *)
Lemma tail_returns_logged_results_witness :
  exists w',
    log_all (sample_env None [] [] 0) sample_logger
            [sample_result "ok"; sample_result "alert"; sample_result "error"]
            bare_world = (inr tt, w')
    /\ tail (sample_env None [] [] 0) sample_logger 5 w'
       = (inr [entry_of (sample_result "alert");
               entry_of (sample_result "error")], w').
Proof.
  apply (tail_returns_logged_results (sample_env None [] [] 0) sample_logger
           [sample_result "ok"; sample_result "alert"; sample_result "error"]
           5 bare_world).
  - reflexivity.
  - reflexivity.
  - right. split; reflexivity.
  - do 3 (constructor; [apply sample_result_readable; reflexivity|]).
    constructor.
  - discriminate.
Defined.

(** The body of the request for a sample result. *)
Lemma remote_payload_carries_result_witness :
  exists o body evs,
    _send_c3poh (sample_env None [] [] 0) sample_runner (sample_result "ok")
                bare_world
    = (o, {| fs := fs bare_world;
             trace := trace bare_world
                      ++ HttpPost (c3poh_endpoint (config sample_runner)) body
                         :: evs;
             clock_reads := clock_reads bare_world;
             heartbeat_md_path := heartbeat_md_path bare_world |})
    /\ json_loads (sample_env None [] [] 0) body
       = inr (Some (JDict [(py "source", JStr (py "tinman"));
                           (py "result", entry_of (sample_result "ok"))]))
    /\ List.filter is_post evs = [].
Proof.
  destruct (remote_payload_carries_result (sample_env None [] [] 0)
              sample_runner (sample_result "ok") bare_world)
    as (o & body & evs & Hsend & Hloads & Hposts).
  - apply sample_result_scalar. reflexivity.
  - reflexivity.
  - exists o, body, evs. split; [exact Hsend|]. split; [|exact Hposts].
    apply (Hloads 4300%nat 98%nat). reflexivity.
Defined.

(** A world whose checklist holds white space only. *)
Definition blank_world : World :=
  world_of (<[ [py "w"; py "H.md"] := File (py "  " ++ [LF]) ]> sample_dirs).

(** A cycle on the blank checklist, with the tool installed. *)
Lemma empty_checklist_skips_witness :
  exists r,
    fst (run_beat (sample_env (Some (py "/usr/bin/claude")) [] [] 1000)
                  sample_runner blank_world) = inr r
    /\ status r = py "skipped_empty"
    /\ duration_seconds r = PyInt 0
    /\ clock_reads (snd (run_beat (sample_env (Some (py "/usr/bin/claude"))
                                              [] [] 1000)
                                  sample_runner blank_world)) = 0%nat.
Proof.
  edestruct (empty_checklist_skips
               (sample_env (Some (py "/usr/bin/claude")) [] [] 1000)
               sample_runner blank_world)
    as (new & _ & _ & _ & Hclock & _ & Hret & _);
    [vm_compute; reflexivity | vm_compute; reflexivity | reflexivity |].
  eexists. split; [apply Hret|].
  - right. vm_compute. reflexivity.
  - intros t to text. reflexivity.
  - left. reflexivity.
  - split; [reflexivity|]. split; [reflexivity | exact Hclock].
Defined.

(** A world where the log path is a directory. *)
Definition log_directory_world : World :=
  world_of (<[ [py "h"; py "u"; py "t"; py "log"] := Dir ]>
            (<[ [py "w"; py "H.md"] := File (py "Check the disk.") ]>
             sample_dirs)).

Lemma log_failure_stops_cycle_witness :
  exists e,
    fst (run_beat (sample_env (Some (py "/usr/bin/claude"))
                              (py "HEARTBEAT_OK") [] 1000)
                  sample_runner log_directory_world) = inl e
    /\ exn_class_of e = IsADirectoryError
    /\ fs (snd (run_beat (sample_env (Some (py "/usr/bin/claude"))
                                     (py "HEARTBEAT_OK") [] 1000)
                         sample_runner log_directory_world))
       = fs log_directory_world.
Proof.
  edestruct (log_failure_stops_cycle
               (sample_env (Some (py "/usr/bin/claude"))
                           (py "HEARTBEAT_OK") [] 1000)
               sample_runner log_directory_world)
    as (r & started & Hfst & _ & _ & Hfs & _);
    [vm_compute; reflexivity | vm_compute; reflexivity | reflexivity
     | vm_compute; reflexivity |].
  eexists. split; [exact Hfst|]. split; [reflexivity | exact Hfs].
Defined.

(** The sample runner with the remote sink switched on, and an
    environment where [urlopen] times out. *)
Definition remote_runner : HeartbeatRunner :=
  {| config :=
       {| interval_minutes := 30; run_on_start := true;
          notify_only := true; max_actions_per_run := 0;
          require_confirmation := true;
          log_heartbeats := true; log_file := py "~/t/log";
          max_log_lines := 2;
          notify_stdout := true; notify_c3poh := true;
          c3poh_endpoint := py "http://c";
          heartbeat_md := py "H.md"; allowed_commands := [];
          preset := py "sane" |};
     logger := sample_logger |}.

Definition timeout_env : Env :=
  {| cwd := [py "w"];
     homedir := fun user => match user with
                            | [] => Some [py "h"; py "u"]
                            | _ => None
                            end;
     utcnow_isoformat := py "2025-01-01T00:00:00";
     time_time := fun n => Z.of_nat n * 1000;
     which := fun _ => Some (py "/usr/bin/claude");
     subprocess_run := fun _ => Completed (py "HEARTBEAT_OK") [];
     make_request := fun _ => None;
     urlopen := fun _ _ => UrlopenRaises (Exn TimeoutError (py "timed out"));
     console := fun _ _ _ => None;
     int_max_str_digits := 4300;
     recursion_room := 100 |}.

Lemma remote_failure_leaves_cycle_witness :
  exists e r new,
    fst (run_beat timeout_env remote_runner sample_world) = inl e
    /\ exn_class_of e = TimeoutError
    /\ trace (snd (run_beat timeout_env remote_runner sample_world))
       = trace sample_world ++ new
    /\ calls new = [LogCall r; EmitCall r]
    /\ status r = py "ok".
Proof.
  edestruct (remote_failure_leaves_cycle timeout_env remote_runner sample_world)
    as (r & new & Hfst & Htr & Hcalls & _ & _);
    [vm_compute; reflexivity | vm_compute; reflexivity
     | right; vm_compute; reflexivity
     | right; intros t to text; reflexivity | reflexivity | discriminate
     | right; split; [reflexivity | split; [intros body; reflexivity
                                            | reflexivity]] |].
  eexists _, r, new. split; [exact Hfst|]. split; [reflexivity|].
  split; [exact Htr|]. split; [exact Hcalls|].
  assert (Hin : In (LogCall r) (calls new)) by (rewrite Hcalls; left; reflexivity).
  apply List.filter_In in Hin as [Hin _].
  assert (Hall : In (LogCall r)
                    (trace (snd (run_beat timeout_env remote_runner sample_world))))
    by (rewrite Htr; apply in_or_app; right; exact Hin).
  vm_compute in Hall.
  repeat (destruct Hall as [Hall|Hall];
          [first [discriminate Hall | injection Hall as <-; reflexivity]|]).
  destruct Hall.
Defined.


Lemma tail_raises_on_directory_witness :
  exists e,
    tail (sample_env None [] [] 0) sample_logger 5 log_directory_world
    = (inl e, log_directory_world)
    /\ exn_class_of e = IsADirectoryError.
Proof.
  apply (tail_raises_on_directory (sample_env None [] [] 0) sample_logger 5
           log_directory_world).
  reflexivity.
Defined.

(** A world where [~/t] is a regular file. *)
Definition file_in_the_way : World :=
  world_of (<[ [py "h"; py "u"; py "t"] := File [] ]>
            (<[ [py "h"] := Dir ]> (<[ [py "h"; py "u"] := Dir ]> ∅))).

Lemma logger_init_fails_on_file_witness :
  exists e,
    exn_class_of e = FileExistsError
    /\ HeartbeatLogger_init (sample_env None [] [] 0) sample_config
                            file_in_the_way = (inl e, file_in_the_way)
    /\ HeartbeatRunner_init (sample_env None [] [] 0) sample_config
                            file_in_the_way = (inl e, file_in_the_way).
Proof.
  apply (logger_init_fails_on_file (sample_env None [] [] 0) sample_config
           file_in_the_way sample_log_path []).
  - reflexivity.
  - reflexivity.
Defined.


(** * The scheduler on Linux (tinman/scheduler.py) *)

(** ** Lines and substrings *)

(** The lines [splitlines] returns hold no line boundary. *)
Lemma splitlines_one_line_le (n : nat) (s : str) :
  (length s <= n)%nat -> Forall one_line (splitlines false s).
Proof.
  revert s. induction n as [|n IH]; intros s Hlen.
  - destruct s; [constructor | cbn in Hlen; lia].
  - destruct s as [|c s']; [constructor|]. cbn [length] in Hlen.
    cbn [splitlines]. destruct (is_linebreak c) eqn:Hc.
    + destruct s' as [|c' s'']; [repeat constructor|].
      destruct ((c =? CR) && (c' =? LF))%N; constructor;
        first [constructor | apply IH; cbn [length] in *; lia].
    + pose proof (IH s' ltac:(lia)) as Hs'.
      destruct (splitlines false s') as [|l ls].
      * repeat constructor. exact Hc.
      * inversion Hs' as [|? ? Hl Hls]; subst.
        constructor; [constructor; assumption | exact Hls].
Qed.

Lemma splitlines_one_line (s : str) : Forall one_line (splitlines false s).
Proof. apply (splitlines_one_line_le (length s)). reflexivity. Qed.

Lemma splitlines_of_unlines (ls : list str) :
  Forall one_line ls -> splitlines false (unlines ls) = ls.
Proof.
  intros Hls. rewrite (splitlines_unlines false ls Hls).
  rewrite <- (map_id ls) at 2. apply map_ext. intros l. apply app_nil_r.
Qed.

(** ["\n".join(lines) + "\n"] for at least one line. *)
Lemma join_unlines (ls : list str) :
  ls <> [] -> join [LF] ls ++ [LF] = unlines ls.
Proof.
  induction ls as [|l ls IH]; [congruence|]. intros _.
  destruct ls as [|l' ls'].
  - cbn. rewrite app_nil_r. reflexivity.
  - change (join [LF] (l :: l' :: ls')) with (l ++ [LF] ++ join [LF] (l' :: ls')).
    rewrite <- !app_assoc, IH by discriminate.
    unfold unlines. cbn [map concat]. rewrite <- !app_assoc. reflexivity.
Qed.

Lemma startswith_refl (m : str) : startswith m m = true.
Proof.
  induction m as [|a m IH]; [reflexivity|]. cbn [startswith].
  rewrite N.eqb_refl. exact IH.
Qed.

Lemma contains_here (m s : str) : startswith m s = true -> contains m s = true.
Proof. intros H. destruct s; cbn [contains]; rewrite H; reflexivity. Qed.

Lemma contains_app_r (m a b : str) :
  contains m b = true -> contains m (a ++ b) = true.
Proof.
  intros H. induction a as [|c a IH]; [exact H|].
  cbn [app contains]. rewrite IH. apply orb_true_r.
Qed.

Lemma contains_suffix (m a : str) : contains m (a ++ m) = true.
Proof. apply contains_app_r, contains_here, startswith_refl. Qed.

(** A text without line feed that starts a text starts its first line. *)
Lemma startswith_first_line (m l rest : str) :
  Forall (fun c => c <> LF) m ->
  startswith m (l ++ LF :: rest) = startswith m l.
Proof.
  intros Hm. revert l. induction Hm as [|a m Ha Hm IH]; intros l.
  - destruct l; reflexivity.
  - destruct l as [|c l]; cbn [app startswith].
    + apply N.eqb_neq in Ha. rewrite Ha. reflexivity.
    + rewrite IH. reflexivity.
Qed.

Lemma contains_line (a : N) (m l rest : str) :
  Forall (fun c => c <> LF) (a :: m) ->
  contains (a :: m) (l ++ LF :: rest)
  = contains (a :: m) l || contains (a :: m) rest.
Proof.
  intros Hm. induction l as [|c l IH].
  - cbn [app]. inversion Hm as [|? ? Ha _]; subst.
    apply N.eqb_neq in Ha.
    change (contains (a :: m) (LF :: rest))
      with (startswith (a :: m) (LF :: rest) || contains (a :: m) rest).
    cbn [startswith]. rewrite Ha. reflexivity.
  - change (contains (a :: m) ((c :: l) ++ LF :: rest))
      with (startswith (a :: m) ((c :: l) ++ LF :: rest)
            || contains (a :: m) (l ++ LF :: rest)).
    rewrite (startswith_first_line _ _ _ Hm), IH.
    change (contains (a :: m) (c :: l))
      with (startswith (a :: m) (c :: l) || contains (a :: m) l).
    rewrite orb_assoc. reflexivity.
Qed.

(** A text without line feed is in a file exactly when it is in one of
    its lines. *)
Lemma contains_unlines (a : N) (m : str) (ls : list str) :
  Forall (fun c => c <> LF) (a :: m) ->
  contains (a :: m) (unlines ls) = existsb (contains (a :: m)) ls.
Proof.
  intros Hm. induction ls as [|l ls IH]; [reflexivity|].
  change (unlines (l :: ls)) with ((l ++ [LF]) ++ unlines ls).
  rewrite <- app_assoc. cbn [app existsb].
  rewrite (contains_line a m l _ Hm), IH. reflexivity.
Qed.

Lemma filter_all {A} (p : A -> bool) (l : list A) :
  forallb p l = true -> List.filter p l = l.
Proof.
  induction l as [|x l IH]; [reflexivity|]. cbn [forallb List.filter].
  intros H. apply andb_true_iff in H as [Hx Hl]. rewrite Hx, (IH Hl).
  reflexivity.
Qed.

Lemma filter_forallb {A} (p : A -> bool) (l : list A) :
  forallb p (List.filter p l) = true.
Proof.
  induction l as [|x l IH]; [reflexivity|]. cbn [List.filter].
  destruct (p x) eqn:Hx; [|exact IH]. cbn [forallb]. rewrite Hx, IH.
  reflexivity.
Qed.

(** [text=True]: the line ends of what a process writes are translated
    when it is read. *)
Fixpoint universal_newlines (s : str) : str :=
  match s with
  | [] => []
  | c :: s' =>
    if (c =? CR)%N then
      LF :: match s' with
            | c' :: s'' => if (c' =? LF)%N then universal_newlines s''
                           else universal_newlines s'
            | [] => []
            end
    else c :: universal_newlines s'
  end.

Lemma universal_newlines_id (s : str) :
  Forall (fun c => c <> CR) s -> universal_newlines s = s.
Proof.
  induction 1 as [|c s Hc Hs IH]; [reflexivity|]. cbn [universal_newlines].
  apply N.eqb_neq in Hc. rewrite Hc, IH. reflexivity.
Qed.

Lemma one_line_no_cr (l : str) : one_line l -> Forall (fun c => c <> CR) l.
Proof.
  intros H. eapply Forall_impl; [exact H|]. intros c Hc ->. discriminate Hc.
Qed.

Lemma unlines_no_cr (ls : list str) :
  Forall one_line ls -> Forall (fun c => c <> CR) (unlines ls).
Proof.
  induction 1 as [|l ls Hl Hls IH]; [constructor|].
  change (unlines (l :: ls)) with ((l ++ [LF]) ++ unlines ls).
  rewrite !Forall_app. split; [split|exact IH].
  - apply one_line_no_cr, Hl.
  - repeat constructor. discriminate.
Qed.

(** ** The model *)

(** A [Scheduler] object. *)
Record Scheduler := {
  system : str;
  config_path : str;
  tinman_bin : str;
}.

(** What the scheduler takes from its environment. The program
    [crontab] is the one of the system: [crontab -l] prints the table of
    the user and fails when there is none, [crontab -] replaces the table
    by its standard input when it accepts it. The tables are texts the
    locale can encode. *)
Record CronEnv := {
  (** [sys.executable] *)
  sys_executable : str;
  (** the exception of [subprocess.run] when [crontab] cannot be started *)
  crontab_missing : option exn;
  (** whether [crontab -] accepts a table *)
  crontab_accepts : str -> bool;
  (** [int(x)] for a float, given by its text, and for a string; [None]
      when it raises *)
  int_of_float : str -> option Z;
  int_of_str : str -> option Z;
}.

(** The machine: its files, the table of the user, and the commands run
    so far, each with its standard input. *)
Record Host := {
  files : filesystem;
  crontab : option str;
  commands : list (list str * option str);
}.

Definition H (A : Type) : Type := Host -> (exn + A) * Host.

Definition ran (cmd : list str) (input : option str) (h : Host) : Host :=
  {| files := files h; crontab := crontab h;
     commands := commands h ++ [(cmd, input)] |}.

Definition MARKER : str := py "# tinman-heartbeat".

(** [a % b] on integers *)
Definition py_mod (a b : Z) : exn + Z :=
  if b =? 0
  then inl (Exn (OtherException (py "ZeroDivisionError"))
                (py "integer modulo by zero"))
  else inr (a mod b).

(** [d.get(k)] on the items of a dict *)
Fixpoint dict_get (k : str) (d : list (str * json)) : option json :=
  match d with
  | [] => None
  | (k', v) :: d' => if bool_decide (k = k') then Some v else dict_get k d'
  end.

Section SchedulerModel.

Variable env : Env.
Variable cenv : CronEnv.

(** [subprocess.run(["crontab", "-l"], capture_output=True, text=True)]:
    the return code and the standard output as Python reads it. *)
Definition crontab_list : H (Z * str) :=
  fun h =>
    match crontab_missing cenv with
    | Some e => (inl e, h)
    | None =>
      (inr (match crontab h with
            | Some table => (0, universal_newlines table)
            | None => (1, [])
            end),
       ran [py "crontab"; py "-l"] None h)
    end.

(** [subprocess.run(["crontab", "-"], input=text, text=True,
    capture_output=True)]: the return code. *)
Definition crontab_install (text : str) : H Z :=
  fun h =>
    match crontab_missing cenv with
    | Some e => (inl e, h)
    | None =>
      if crontab_accepts cenv text
      then (inr 0, ran [py "crontab"; py "-"] (Some text)
                       {| files := files h; crontab := Some text;
                          commands := commands h |})
      else (inr 1, ran [py "crontab"; py "-"] (Some text) h)
    end.

(** [int(v)] for a decoded value; [None] when it raises. *)
Definition py_int (v : json) : option Z :=
  match v with
  | JInt z => Some z
  | JBool b => Some (if b then 1 else 0)
  | JFloat lexeme => int_of_float cenv lexeme
  | JStr s => int_of_str cenv s
  | JNull | JNaN | JInfinity _ | JList _ | JDict _ => None
  end.

(** [_interval_minutes]: every exception gives 30. *)
Definition _interval_minutes (self : Scheduler) (h : Host) : Z :=
  match fs_read_text (files h) (resolve env (Path_of_str (config_path self))) with
  | inl _ => 30
  | inr text =>
    match json_loads env text with
    | inr (Some (JDict d)) =>
      match dict_get (py "interval_minutes") d with
      | None => 30
      | Some v => match py_int v with
                  | Some z => z
                  | None => 30
                  end
      end
    | _ => 30
    end
  end.

(** The cron expression of [install_linux]. *)
Definition cron_expr (interval : Z) : exn + str :=
  if interval =? 60 then inr (py "0 * * * *")
  else
    match py_mod 60 interval with
    | inl e => inl e
    | inr m =>
      if m =? 0 then inr (py "*/" ++ repr_int interval ++ py " * * * *")
      else inr (py "*/" ++ repr_int interval ++ py " * * * *")
    end.

Definition new_line_of (self : Scheduler) (expr : str) : str :=
  expr ++ py " " ++ sys_executable cenv ++ py " -m tinman run " ++
  py "--config " ++ config_path self ++ py " --once  " ++ MARKER.

(** [[l for l in text.splitlines() if marker not in l]] *)
Definition other_lines (text : str) : list str :=
  List.filter (fun l => negb (contains MARKER l)) (splitlines false text).

(** [install_linux] *)
Definition install_linux (self : Scheduler) : H bool :=
  fun h =>
    match cron_expr (_interval_minutes self h) with
    | inl e => (inl e, h)
    | inr expr =>
      let new_line := new_line_of self expr in
      match crontab_list h with
      | (inl e, h1) => (inl e, h1)
      | (inr (returncode, stdout), h1) =>
        let existing := if returncode =? 0 then stdout else [] in
        let lines := other_lines existing ++ [new_line] in
        let new_crontab := join [LF] lines ++ [LF] in
        match crontab_install new_crontab h1 with
        | (inl e, h2) => (inl e, h2)
        | (inr code, h2) => (inr (code =? 0), h2)
        end
      end
    end.

(** [uninstall_linux] *)
Definition uninstall_linux (self : Scheduler) : H bool :=
  fun h =>
    match crontab_list h with
    | (inl e, h1) => (inl e, h1)
    | (inr (returncode, stdout), h1) =>
      if negb (returncode =? 0) then (inr true, h1)
      else
        let lines := other_lines stdout in
        let new_crontab := join [LF] lines ++ [LF] in
        match crontab_install new_crontab h1 with
        | (inl e, h2) => (inl e, h2)
        | (inr code, h2) => (inr (code =? 0), h2)
        end
    end.

(** [status] on Linux: the branch for [self.system == "Linux"]. *)
Definition status_linux (self : Scheduler) : H str :=
  fun h =>
    match crontab_list h with
    | (inl e, h1) => (inl e, h1)
    | (inr (returncode, stdout), h1) =>
      if (returncode =? 0) && contains MARKER stdout
      then (inr (py "installed (cron)"), h1)
      else (inr (py "not installed"), h1)
    end.

End SchedulerModel.

(** ** What installing and uninstalling do to the table *)

Section SchedulerProperties.

Variable env : Env.
Variable cenv : CronEnv.

Lemma marker_no_lf : Forall (fun c => c <> LF) MARKER.
Proof. repeat constructor; discriminate. Qed.

Lemma marker_in_new_line (self : Scheduler) (expr : str) :
  contains MARKER (new_line_of cenv self expr) = true.
Proof. unfold new_line_of. rewrite !app_assoc. apply contains_suffix. Qed.

Lemma printable_one_line (s : str) : Forall printable s -> one_line s.
Proof.
  intros H. eapply Forall_impl; [exact H|]. apply printable_not_linebreak.
Qed.

Lemma cron_expr_one_line (interval : Z) (expr : str) :
  cron_expr interval = inr expr -> one_line expr.
Proof.
  assert (Hexpr : one_line (py "*/" ++ repr_int interval ++ py " * * * *")).
  { apply printable_one_line. rewrite !Forall_app.
    split; [printable_literal|]. split; [|printable_literal].
    apply (repr_num_printable (PyInt interval)). }
  unfold cron_expr, py_mod. destruct (interval =? 60).
  - intros [= <-]. apply printable_one_line. printable_literal.
  - destruct (interval =? 0); [discriminate|].
    destruct (60 mod interval =? 0); intros [= <-]; exact Hexpr.
Qed.

Lemma new_line_one_line (self : Scheduler) (expr : str) :
  one_line expr -> one_line (sys_executable cenv) ->
  one_line (config_path self) ->
  one_line (new_line_of cenv self expr).
Proof.
  intros Hexpr Hexe Hpath. unfold new_line_of, one_line. rewrite !Forall_app.
  repeat split; try assumption;
    apply printable_one_line; printable_literal.
Qed.

Lemma other_lines_one_line (text : str) : Forall one_line (other_lines text).
Proof.
  unfold other_lines. apply Forall_forall. intros l Hl.
  apply list_elem_of_In, List.filter_In in Hl as [Hl _].
  pose proof (splitlines_one_line text) as Hall.
  rewrite Forall_forall in Hall. apply Hall, list_elem_of_In, Hl.
Qed.

Lemma other_lines_unmarked (text : str) :
  existsb (contains MARKER) (other_lines text) = false.
Proof.
  unfold other_lines. induction (splitlines false text) as [|l ls IH];
    [reflexivity|].
  cbn [List.filter]. destruct (contains MARKER l) eqn:Hl; cbn [negb];
    [exact IH|]. cbn [existsb]. rewrite Hl, IH. reflexivity.
Qed.

(** The lines without the marker, of a table made of such lines and of
    lines with the marker. *)
Lemma other_lines_of_table (ls : list str) :
  Forall one_line ls ->
  other_lines (universal_newlines (unlines ls))
  = List.filter (fun l => negb (contains MARKER l)) ls.
Proof.
  intros Hls. unfold other_lines.
  rewrite universal_newlines_id by (apply unlines_no_cr, Hls).
  rewrite splitlines_of_unlines by exact Hls. reflexivity.
Qed.

Lemma filter_unmarked (ls : list str) :
  existsb (contains MARKER) ls = false ->
  List.filter (fun l => negb (contains MARKER l)) ls = ls.
Proof.
  intros H. apply filter_all.
  induction ls as [|l ls IH]; [reflexivity|]. cbn [existsb forallb] in *.
  apply orb_false_iff in H as [Hl Hls]. rewrite Hl, (IH Hls). reflexivity.
Qed.

Lemma filter_marked_none (ls : list str) :
  existsb (contains MARKER) ls = false ->
  List.filter (contains MARKER) ls = [].
Proof.
  induction ls as [|l ls IH]; [reflexivity|]. cbn [existsb List.filter].
  intros H. apply orb_false_iff in H as [Hl Hls]. rewrite Hl. apply IH, Hls.
Qed.

Lemma marker_in_table (ls : list str) :
  contains MARKER (unlines ls) = existsb (contains MARKER) ls.
Proof.
  change MARKER with (35%N :: py " tinman-heartbeat").
  apply contains_unlines. apply marker_no_lf.
Qed.

(** What [crontab -l] printed before. *)
Definition listed (h : Host) : str :=
  match crontab h with
  | Some table => universal_newlines table
  | None => []
  end.

(** The table [install_linux] writes. *)
Definition installed_table (self : Scheduler) (expr : str) (h : Host) : str :=
  unlines (other_lines (listed h) ++ [new_line_of cenv self expr]).

Lemma install_linux_run (self : Scheduler) (h : Host) (expr : str) :
  crontab_missing cenv = None ->
  cron_expr (_interval_minutes env cenv self h) = inr expr ->
  crontab_accepts cenv (installed_table self expr h) = true ->
  install_linux env cenv self h
  = (inr true,
     {| files := files h; crontab := Some (installed_table self expr h);
        commands := commands h
                    ++ [([py "crontab"; py "-l"], None);
                        ([py "crontab"; py "-"],
                         Some (installed_table self expr h))] |}).
Proof.
  intros Hcron Hexpr Hacc. unfold install_linux. rewrite Hexpr.
  unfold crontab_list. rewrite Hcron.
  assert (Htable : join [LF] (other_lines (listed h)
                              ++ [new_line_of cenv self expr]) ++ [LF]
                   = installed_table self expr h).
  { apply join_unlines. intros Hnil. apply app_eq_nil in Hnil as [_ Hnil].
    discriminate Hnil. }
  assert (Hexisting :
    match crontab h with
    | Some table => (0, universal_newlines table)
    | None => (1, [])
    end = (match crontab h with Some _ => 0 | None => 1 end, listed h)
    /\ (if match crontab h with Some _ => 0 | None => 1 end =? 0
        then listed h else []) = listed h)
    by (unfold listed; destruct (crontab h); split; reflexivity).
  destruct Hexisting as [-> Hexisting]. cbv zeta. rewrite Hexisting, Htable.
  unfold crontab_install. rewrite Hcron, Hacc. unfold ran.
  cbn [files crontab commands]. rewrite <- app_assoc. reflexivity.
Qed.

Lemma interval_of_files (self : Scheduler) (h h' : Host) :
  files h' = files h ->
  _interval_minutes env cenv self h' = _interval_minutes env cenv self h.
Proof. intros Hf. unfold _interval_minutes. rewrite Hf. reflexivity. Qed.

(** X14. Installing on Linux. When [crontab] can be run, the interval is
    not zero, the paths of the interpreter and of the configuration hold
    no line break and [crontab -] accepts the table, [install_linux]
    returns True and leaves a table made of the lines of the old table
    that do not mention the marker, in their order, followed by one new
    line that ends with the marker; [status] then says installed. No file
    is touched. *)
Theorem install_linux_adds_one_line (self : Scheduler) (h : Host) (expr : str) :
  crontab_missing cenv = None ->
  cron_expr (_interval_minutes env cenv self h) = inr expr ->
  one_line (sys_executable cenv) ->
  one_line (config_path self) ->
  crontab_accepts cenv (installed_table self expr h) = true ->
  exists h',
    install_linux env cenv self h = (inr true, h')
    /\ crontab h'
       = Some (unlines (other_lines (listed h) ++ [new_line_of cenv self expr]))
    /\ files h' = files h
    /\ splitlines false (listed h')
       = other_lines (listed h) ++ [new_line_of cenv self expr]
    /\ Forall (fun l => In l (splitlines false (listed h))
                        /\ contains MARKER l = false)
              (other_lines (listed h))
    /\ contains MARKER (new_line_of cenv self expr) = true
    /\ fst (status_linux cenv self h') = inr (py "installed (cron)").
Proof.
  intros Hcron Hexpr Hexe Hpath Hacc.
  rewrite (install_linux_run self h expr Hcron Hexpr Hacc).
  eexists. split; [reflexivity|]. cbn [crontab files].
  split; [reflexivity|]. split; [reflexivity|].
  assert (Hlines : Forall one_line (other_lines (listed h)
                                    ++ [new_line_of cenv self expr])).
  { apply Forall_app. split; [apply other_lines_one_line|].
    constructor; [|constructor].
    apply new_line_one_line; [eapply cron_expr_one_line, Hexpr | | ];
      assumption. }
  split.
  { unfold listed at 1. cbn [crontab]. unfold installed_table.
    rewrite universal_newlines_id by (apply unlines_no_cr, Hlines).
    apply splitlines_of_unlines, Hlines. }
  split.
  { apply Forall_forall. intros l Hl. unfold other_lines in Hl.
    apply list_elem_of_In, List.filter_In in Hl as [Hl Hno].
    split; [exact Hl | apply negb_true_iff, Hno]. }
  split; [apply marker_in_new_line|].
  unfold status_linux, crontab_list. rewrite Hcron. cbn [crontab].
  change (0 =? 0) with true. cbn [andb].
  unfold installed_table.
  rewrite universal_newlines_id by (apply unlines_no_cr, Hlines).
  rewrite marker_in_table, existsb_app. cbn [existsb].
  rewrite marker_in_new_line, orb_true_r. reflexivity.
Qed.

(** X15. Installing twice. Under the same conditions a second
    [install_linux] returns True and writes the table the first one
    left: the old line with the marker is dropped and the same line is
    added, so the table never holds more than one line of TinMan. *)
Theorem install_linux_idempotent (self : Scheduler) (h : Host) (expr : str) :
  crontab_missing cenv = None ->
  cron_expr (_interval_minutes env cenv self h) = inr expr ->
  one_line (sys_executable cenv) ->
  one_line (config_path self) ->
  crontab_accepts cenv (installed_table self expr h) = true ->
  exists h' h'',
    install_linux env cenv self h = (inr true, h')
    /\ install_linux env cenv self h' = (inr true, h'')
    /\ crontab h'' = crontab h'
    /\ List.filter (contains MARKER)
                   (splitlines false (listed h''))
       = [new_line_of cenv self expr].
Proof.
  intros Hcron Hexpr Hexe Hpath Hacc.
  pose proof (install_linux_run self h expr Hcron Hexpr Hacc) as Hfirst.
  set (h' := {| files := files h;
                crontab := Some (installed_table self expr h);
                commands := commands h
                            ++ [([py "crontab"; py "-l"], None);
                                ([py "crontab"; py "-"],
                                 Some (installed_table self expr h))] |})
    in Hfirst.
  assert (Hlines : Forall one_line (other_lines (listed h)
                                    ++ [new_line_of cenv self expr])).
  { apply Forall_app. split; [apply other_lines_one_line|].
    constructor; [|constructor].
    apply new_line_one_line; [eapply cron_expr_one_line, Hexpr | | ];
      assumption. }
  assert (Hothers : other_lines (listed h') = other_lines (listed h)).
  { unfold listed at 1. cbn [h' crontab]. unfold installed_table.
    rewrite (other_lines_of_table _ Hlines), List.filter_app.
    cbn [List.filter]. rewrite marker_in_new_line. cbn [negb].
    rewrite app_nil_r. apply filter_unmarked, other_lines_unmarked. }
  assert (Hsame : installed_table self expr h' = installed_table self expr h)
    by (unfold installed_table; rewrite Hothers; reflexivity).
  assert (Hexpr' : cron_expr (_interval_minutes env cenv self h') = inr expr)
    by (rewrite (interval_of_files self h h' eq_refl); exact Hexpr).
  assert (Hacc' : crontab_accepts cenv (installed_table self expr h') = true)
    by (rewrite Hsame; exact Hacc).
  pose proof (install_linux_run self h' expr Hcron Hexpr' Hacc') as Hsecond.
  exists h'. eexists. split; [exact Hfirst|]. split; [exact Hsecond|].
  cbn [crontab h']. split; [rewrite Hsame; reflexivity|].
  unfold listed. cbn [crontab]. rewrite Hsame. unfold installed_table.
  rewrite universal_newlines_id by (apply unlines_no_cr, Hlines).
  rewrite splitlines_of_unlines by exact Hlines.
  rewrite List.filter_app. cbn [List.filter]. rewrite marker_in_new_line.
  rewrite (filter_marked_none _ (other_lines_unmarked (listed h))).
  reflexivity.
Qed.

(** X16. An interval of zero. [_interval_minutes] takes the integer of
    the configuration file as it is; when it is 0, the test
    [60 % interval] of [install_linux] raises ZeroDivisionError, which
    leaves the method before [crontab] is run: the host is as it was. *)
Theorem install_linux_zero_interval (self : Scheduler) (h : Host)
    (text : str) (d : list (str * json)) :
  fs_read_text (files h) (resolve env (Path_of_str (config_path self)))
  = inr text ->
  json_loads env text = inr (Some (JDict d)) ->
  dict_get (py "interval_minutes") d = Some (JInt 0) ->
  exists e,
    install_linux env cenv self h = (inl e, h)
    /\ exn_class_of e = OtherException (py "ZeroDivisionError").
Proof.
  intros Hread Hjson Hget. eexists. unfold install_linux, _interval_minutes.
  rewrite Hread, Hjson, Hget. cbn [py_int]. split; reflexivity.
Qed.

(** X17. Uninstalling on Linux. Without a table [uninstall_linux]
    returns True and writes nothing. With a table, when [crontab -]
    accepts what it is given, it returns True and leaves the lines of
    the old table that do not mention the marker, each ended by a line
    feed, or a single line feed when there is none; [status] then says
    not installed. *)
Theorem uninstall_linux_removes_marker (self : Scheduler) (h : Host) :
  crontab_missing cenv = None ->
  (crontab h = None ->
   uninstall_linux cenv self h
   = (inr true, ran [py "crontab"; py "-l"] None h))
  /\ (forall table,
        crontab h = Some table ->
        crontab_accepts cenv (join [LF] (other_lines (listed h)) ++ [LF])
        = true ->
        exists h',
          uninstall_linux cenv self h = (inr true, h')
          /\ files h' = files h
          /\ crontab h'
             = Some (match other_lines (listed h) with
                     | [] => [LF]
                     | ls => unlines ls
                     end)
          /\ (other_lines (listed h') = other_lines (listed h)
              \/ (other_lines (listed h) = []
                  /\ other_lines (listed h') = [[]]))
          /\ fst (status_linux cenv self h') = inr (py "not installed")).
Proof.
  intros Hcron. split.
  - intros Hnone. unfold uninstall_linux, crontab_list.
    rewrite Hcron, Hnone. reflexivity.
  - intros table Htab Hacc.
    pose proof (other_lines_one_line (listed h)) as Hone.
    pose proof (other_lines_unmarked (listed h)) as Hno.
    assert (Hlisted : listed h = universal_newlines table)
      by (unfold listed; rewrite Htab; reflexivity).
    set (others := other_lines (listed h)) in *.
    set (text := match others with
                 | [] => [LF]
                 | l :: ls => unlines (l :: ls)
                 end).
    assert (Htext : join [LF] others ++ [LF] = text).
    { subst text. destruct others as [|l ls]; [reflexivity|].
      apply join_unlines. discriminate. }
    set (h' := {| files := files h; crontab := Some text;
                  commands := commands h
                              ++ [([py "crontab"; py "-l"], None);
                                  ([py "crontab"; py "-"], Some text)] |}).
    assert (Hrun : uninstall_linux cenv self h = (inr true, h')).
    { unfold uninstall_linux, crontab_list. rewrite Hcron, Htab.
      change (negb (0 =? 0)) with false. cbv iota.
      rewrite <- Hlisted. fold others. rewrite Htext.
      rewrite Htext in Hacc.
      unfold crontab_install. rewrite Hcron, Hacc. unfold ran, h'.
      cbn [files crontab commands]. rewrite <- app_assoc. reflexivity. }
    assert (Hlisted' : listed h' = universal_newlines text) by reflexivity.
    assert (Hstatus : fst (status_linux cenv self h')
                      = inr (if contains MARKER (universal_newlines text)
                             then py "installed (cron)"
                             else py "not installed")).
    { unfold status_linux, crontab_list. rewrite Hcron. cbn [h' crontab].
      change (0 =? 0) with true. cbn [andb].
      destruct (contains MARKER (universal_newlines text)); reflexivity. }
    exists h'. split; [exact Hrun|]. split; [reflexivity|].
    split; [reflexivity|]. rewrite Hstatus, Hlisted'. subst text.
    destruct others as [|l ls].
    + split; [right; split; reflexivity | reflexivity].
    + rewrite universal_newlines_id by (apply unlines_no_cr, Hone).
      split.
      * left. unfold other_lines.
        rewrite splitlines_of_unlines by exact Hone.
        apply filter_unmarked, Hno.
      * rewrite marker_in_table, Hno. reflexivity.
Qed.

End SchedulerProperties.

(** ** The scheduler on a sample host *)

Definition sample_cron_env : CronEnv :=
  {| sys_executable := py "/p";
     crontab_missing := None;
     crontab_accepts := fun _ => true;
     int_of_float := fun _ => None;
     int_of_str := fun _ => None |}.

Definition sample_scheduler : Scheduler :=
  {| system := py "Linux"; config_path := py "/c";
     tinman_bin := py "python3 -m tinman" |}.

(** A configuration file that holds the interval only. *)
Definition interval_file (minutes : str) : str :=
  py "{" ++ json_key "interval_minutes" ++ minutes ++ py "}".

(** A host with a table of two lines, the second one of TinMan. *)
Definition sample_host (minutes : str) : Host :=
  {| files := <[ [py "c"] := File (interval_file minutes) ]> ∅;
     crontab := Some (py "a" ++ [LF] ++ py "5 * * * * x " ++ MARKER ++ [LF]);
     commands := [] |}.

Lemma install_linux_adds_one_line_witness :
  exists h',
    install_linux (sample_env None [] [] 0) sample_cron_env sample_scheduler
                  (sample_host (py "15")) = (inr true, h')
    /\ crontab h'
       = Some (py "a" ++ [LF] ++
               py "*/15 * * * * /p -m tinman run --config /c --once  " ++
               MARKER ++ [LF])
    /\ fst (status_linux sample_cron_env sample_scheduler h')
       = inr (py "installed (cron)").
Proof.
  destruct (install_linux_adds_one_line (sample_env None [] [] 0)
              sample_cron_env sample_scheduler (sample_host (py "15"))
              (py "*/15 * * * *"))
    as (h' & Hrun & Htab & _ & _ & _ & _ & Hst).
  - reflexivity.
  - vm_compute. reflexivity.
  - apply printable_one_line. printable_literal.
  - apply printable_one_line. printable_literal.
  - reflexivity.
  - exists h'. split; [exact Hrun|]. split; [|exact Hst].
    rewrite Htab. vm_compute. reflexivity.
Defined.

Lemma install_linux_idempotent_witness :
  exists h' h'',
    install_linux (sample_env None [] [] 0) sample_cron_env sample_scheduler
                  (sample_host (py "15")) = (inr true, h')
    /\ install_linux (sample_env None [] [] 0) sample_cron_env
                     sample_scheduler h' = (inr true, h'')
    /\ crontab h'' = crontab h'.
Proof.
  destruct (install_linux_idempotent (sample_env None [] [] 0)
              sample_cron_env sample_scheduler (sample_host (py "15"))
              (py "*/15 * * * *"))
    as (h' & h'' & Hfirst & Hsecond & Hsame & _).
  - reflexivity.
  - vm_compute. reflexivity.
  - apply printable_one_line. printable_literal.
  - apply printable_one_line. printable_literal.
  - reflexivity.
  - exists h', h''. split; [exact Hfirst|]. split; assumption.
Defined.

Lemma install_linux_zero_interval_witness :
  exists e,
    install_linux (sample_env None [] [] 0) sample_cron_env sample_scheduler
                  (sample_host (py "0")) = (inl e, sample_host (py "0"))
    /\ exn_class_of e = OtherException (py "ZeroDivisionError").
Proof.
  eapply (install_linux_zero_interval (sample_env None [] [] 0)
            sample_cron_env sample_scheduler (sample_host (py "0"))).
  - reflexivity.
  - vm_compute. reflexivity.
  - reflexivity.
Defined.

Lemma uninstall_linux_removes_marker_witness :
  exists h',
    uninstall_linux sample_cron_env sample_scheduler (sample_host (py "15"))
    = (inr true, h')
    /\ crontab h' = Some (py "a" ++ [LF])
    /\ fst (status_linux sample_cron_env sample_scheduler h')
       = inr (py "not installed").
Proof.
  destruct (uninstall_linux_removes_marker sample_cron_env sample_scheduler
              (sample_host (py "15")) eq_refl) as [_ Hsome].
  destruct (Hsome _ eq_refl eq_refl) as (h' & Hrun & _ & Htab & _ & Hst).
  exists h'. split; [exact Hrun|]. split; [|exact Hst].
  rewrite Htab. vm_compute. reflexivity.
Defined.
